(** * preprocess_audio.py: the batch orchestrator of the HiFi-GAN
      preprocessing script, embedded as a state-and-exception monad.

    The numeric kernels (librosa, soundfile, numpy) and the operating
    system are external to the repository.  They enter the development
    as the fields of the class [Externals]; every definition below is
    the Python of [src/preprocess_audio.py] written over that
    interface.

    Conventions of the embedding:
    - an external call is a function of its arguments that returns a
      value or the exception it raises;
    - exceptions are instances of [Exception], the ones the [except]
      clause of the loop catches;
    - a write either succeeds and the file holds the value written, or
      raises and leaves the files as they were; the real call may by
      then have created or emptied its target, so of the target of a
      write that raised the properties below state at most that a file
      that existed still exists;
    - [print] always succeeds and appends one entry to the output. *)

From Stdlib Require Import ZArith Decimal DecimalString DecimalNat DecimalFacts.
From stdpp Require Import base strings gmap list.

Local Open Scope string_scope.
Local Open Scope list_scope.

(** ** Python exceptions and results *)

(** Only instances of [Exception] are modelled; [str e] is the text an
    f-string shows for [{e}]. *)
Inductive Exn : Type :=
  | Exception (msg : string).

Definition str (e : Exn) : string :=
  match e with Exception msg => msg end.

Definition ZeroDivisionError : Exn := Exception "division by zero".

Inductive Result (A : Type) : Type :=
  | Ok (a : A)
  | Raise (e : Exn).
Arguments Ok {A} a.
Arguments Raise {A} e.

Definition is_ok {A} (r : Result A) : bool :=
  match r with Ok _ => true | Raise _ => false end.

(** ** Formatting of integers in f-strings *)

Module Fmt.

(** [f"{n}"] for a non-negative int. *)
Definition d (n : nat) : string :=
  NilEmpty.string_of_uint (Nat.to_uint n).

(** The digits of [f"{n:04d}"]: padded with zeros on the left up to
    width 4, never truncated. *)
Definition digits04 (n : nat) : uint :=
  let u := Nat.to_uint n in
  Nat.iter (4 - nb_digits u) D0 u.

Definition d04 (n : nat) : string :=
  NilEmpty.string_of_uint (digits04 n).

(** [f"{z}"] for an int. *)
Definition z (n : Z) : string :=
  NilEmpty.string_of_int (Z.to_int n).

(** [s * n]: the string repeated. *)
Fixpoint times (s : string) (n : nat) : string :=
  match n with
  | O => ""
  | S n' => s +:+ times s n'
  end.

(** [int(s)] on a string of decimal digits. *)
Definition int (s : string) : option nat :=
  Nat.of_uint <$> NilEmpty.uint_of_string s.

(** [s[:-4]]: the file name without its four-character extension. *)
Definition stem (s : string) : string :=
  String.substring 0 (String.length s - 4) s.

End Fmt.

Definition nl : string := String (Ascii.ascii_of_nat 10) "".

(** [Path.__truediv__]: [dir / name]. *)
Definition path_join (dir name : string) : string :=
  dir +:+ "/" +:+ name.

(** [s.endswith(suffix)]. *)
Definition ends_with (suffix s : string) : bool :=
  (String.length suffix <=? String.length s)%nat &&
  String.eqb
    (String.substring (String.length s - String.length suffix)
                      (String.length suffix) s)
    suffix.

(** [name] matches the glob pattern [*.mp3]. *)
Definition matches_mp3 (name : string) : bool := ends_with ".mp3" name.

(** ** Python truthiness and slicing of the [max_files] argument *)

(** [max_files] is [None] or an int. *)
Definition truthy (max_files : option Z) : bool :=
  match max_files with
  | None => false
  | Some n => negb (n =? 0)%Z
  end.

(** [xs[:n]] for an int [n]; a negative [n] counts from the end. *)
Definition slice_to {A} (xs : list A) (n : Z) : list A :=
  if (0 <=? n)%Z then take (Z.to_nat n) xs
  else take (Z.to_nat (Z.of_nat (length xs) + n)) xs.

(** [enumerate(xs)], counting from [start]. *)
Fixpoint enumerate_from {A} (start : nat) (xs : list A) : list (nat * A) :=
  match xs with
  | [] => []
  | x :: xs' => (start, x) :: enumerate_from (S start) xs'
  end.

Definition enumerate {A} (xs : list A) : list (nat * A) :=
  enumerate_from 0 xs.

(** ** The configuration dictionary *)

Record Config : Type := {
  sample_rate : Z;
  n_fft : Z;
  hop_length : Z;
  win_length : Z;
  n_mels : Z;
  fmin : Z;
  fmax : Z;
  segment_size : Z
}.

(** The attributes [__init__] copies out of the dictionary. *)
Module AudioPreprocessor.

Record t : Type := {
  sample_rate : Z;
  n_fft : Z;
  hop_length : Z;
  win_length : Z;
  n_mels : Z;
  fmin : Z;
  fmax : Z;
  segment_size : Z
}.

End AudioPreprocessor.

Definition __init__ (config : Config) : AudioPreprocessor.t :=
  {| AudioPreprocessor.sample_rate := sample_rate config;
     AudioPreprocessor.n_fft := n_fft config;
     AudioPreprocessor.hop_length := hop_length config;
     AudioPreprocessor.win_length := win_length config;
     AudioPreprocessor.n_mels := n_mels config;
     AudioPreprocessor.fmin := fmin config;
     AudioPreprocessor.fmax := fmax config;
     AudioPreprocessor.segment_size := segment_size config |}.

(** ** The external world *)

Class Externals : Type := {
  Audio : Type;                       (* 1-D float array *)
  Mel : Type;                         (* 2-D float array *)
  Float : Type;                       (* Python float *)
  (* pathlib *)
  path_exists : string -> bool;
  listdir : string -> list string;    (* entries, in the order the OS gives *)
  mkdir : string -> option Exn;       (* mkdir(parents=True, exist_ok=True) *)
  (* librosa, soundfile, numpy *)
  librosa_load : string -> Z -> Result Audio;
  len : Audio -> Z;                   (* len(audio), never negative *)
  sf_write : string -> Audio -> Z -> option Exn;
  (* melspectrogram(y, sr, n_fft, hop_length, win_length, n_mels,
     fmin, fmax) *)
  librosa_melspectrogram :
    Audio -> Z -> Z -> Z -> Z -> Z -> Z -> Z -> Result Mel;
  np_max : Mel -> Float;
  librosa_power_to_db : Mel -> (Mel -> Float) -> Result Mel;
  shape : Mel -> Z * Z;
  np_save : string -> Mel -> option Exn;
  (* open(path, 'w') followed by json.dump *)
  json_dump : string -> option Exn;
  (* float arithmetic and formatting *)
  int_truediv : Z -> Z -> Float;      (* int / int, divisor not 0 *)
  float_truediv : Float -> Z -> Float; (* float / int, divisor not 0 *)
  py_sum : list Float -> Float;       (* builtin sum *)
  format_2f : Float -> string         (* f"{x:.2f}" *)
}.

Section Preprocess.

Context `{E : Externals}.

(** One entry of [metadata]: the dict appended for a processed file. *)
Record ManifestRecord : Type := {
  id : nat;
  original_file : string;
  audio_file : string;
  mel_file : string;
  audio_length : Z;
  duration : Float;
  mel_shape : Z * Z
}.

(** What a written file holds. *)
Inductive Content : Type :=
  | Wav (audio : Audio) (sr : Z)
  | Npy (mel : Mel)
  | JsonManifest (metadata : list ManifestRecord)
  | JsonConfig (config : Config).

(** The state the script acts on: the files written so far, the
    directories created, the lines printed, and the paths handed to
    the decoder. *)
Record World : Type := {
  files : gmap string Content;
  dirs : gset string;
  stdout : list string;
  decoded : list string
}.

Definition with_file (path : string) (c : Content) (w : World) : World :=
  {| files := <[path := c]> (files w); dirs := dirs w;
     stdout := stdout w; decoded := decoded w |}.

Definition with_dir (path : string) (w : World) : World :=
  {| files := files w; dirs := {[path]} ∪ dirs w;
     stdout := stdout w; decoded := decoded w |}.

Definition with_line (s : string) (w : World) : World :=
  {| files := files w; dirs := dirs w;
     stdout := stdout w ++ [s]; decoded := decoded w |}.

Definition with_decoded (path : string) (w : World) : World :=
  {| files := files w; dirs := dirs w;
     stdout := stdout w; decoded := decoded w ++ [path] |}.

(** ** The monad: state that survives a raised exception *)

Definition M (A : Type) : Type := World -> Result A * World.

Definition ret {A} (a : A) : M A := fun w => (Ok a, w).

Definition raise {A} (e : Exn) : M A := fun w => (Raise e, w).

Definition bind {A B} (m : M A) (k : A -> M B) : M B :=
  fun w =>
    match m w with
    | (Ok a, w') => k a w'
    | (Raise e, w') => (Raise e, w')
    end.

(** [try: body / except Exception as e: handler e]. *)
Definition try_except {A} (body : M A) (handler : Exn -> M A) : M A :=
  fun w =>
    match body w with
    | (Ok a, w') => (Ok a, w')
    | (Raise e, w') => handler e w'
    end.

Definition lift {A} (r : Result A) : M A := fun w => (r, w).

(** An effect that either raises or applies [upd] to the world; a
    failing write leaves the store as it was. *)
Definition effect (r : option Exn) (upd : World -> World) : M unit :=
  fun w =>
    match r with
    | Some e => (Raise e, w)
    | None => (Ok tt, upd w)
    end.

Definition print (s : string) : M unit := fun w => (Ok tt, with_line s w).

Notation "'let!' x ':=' m 'in' k" := (bind m (fun x => k))
  (at level 10, x name, m at level 200, k at level 200).
Notation "'do!' m 'in' k" := (bind m (fun _ => k))
  (at level 10, m at level 200, k at level 200).

(** [a / b] on ints and on a float and an int. *)
Definition int_div (a b : Z) : M Float :=
  if (b =? 0)%Z then raise ZeroDivisionError else ret (int_truediv a b).

Definition float_div (a : Float) (b : Z) : M Float :=
  if (b =? 0)%Z then raise ZeroDivisionError else ret (float_truediv a b).

(** ** AudioPreprocessor *)

Definition load_audio (self : AudioPreprocessor.t) (audio_path : string)
  : M Audio :=
  fun w =>
    (librosa_load audio_path (AudioPreprocessor.sample_rate self),
     with_decoded audio_path w).

Definition extract_mel_spectrogram (self : AudioPreprocessor.t)
    (audio : Audio) : M Mel :=
  let! mel := lift (librosa_melspectrogram audio
                      (AudioPreprocessor.sample_rate self)
                      (AudioPreprocessor.n_fft self)
                      (AudioPreprocessor.hop_length self)
                      (AudioPreprocessor.win_length self)
                      (AudioPreprocessor.n_mels self)
                      (AudioPreprocessor.fmin self)
                      (AudioPreprocessor.fmax self)) in
  let! mel_db := lift (librosa_power_to_db mel np_max) in
  ret mel_db.

(** [input_dir.glob('*.mp3')], as the names of the matching entries. *)
Definition glob_mp3 (input_dir : string) : list string :=
  filter (fun name => matches_mp3 name = true) (listdir input_dir).

(** The body of the [try] block for the file [name] at position [idx]. *)
Definition try_body (self : AudioPreprocessor.t)
    (input_dir audio_dir mel_dir : string) (idx : nat) (name : string)
  : M ManifestRecord :=
  let audio_path := path_join input_dir name in
  let! audio := load_audio self audio_path in
  let audio_filename := Fmt.d04 idx +:+ ".wav" in
  let audio_output_path := path_join audio_dir audio_filename in
  do! effect (sf_write audio_output_path audio
                (AudioPreprocessor.sample_rate self))
             (with_file audio_output_path
                (Wav audio (AudioPreprocessor.sample_rate self))) in
  let! mel := extract_mel_spectrogram self audio in
  let mel_filename := Fmt.d04 idx +:+ ".npy" in
  let mel_output_path := path_join mel_dir mel_filename in
  do! effect (np_save mel_output_path mel)
             (with_file mel_output_path (Npy mel)) in
  let! seconds := int_div (len audio) (AudioPreprocessor.sample_rate self) in
  ret {| id := idx;
         original_file := name;
         audio_file := audio_filename;
         mel_file := mel_filename;
         audio_length := len audio;
         duration := seconds;
         mel_shape := shape mel |}.

(** One pass through the body of the [for] loop; [metadata] is the
    list the loop appends to. *)
Definition iteration (self : AudioPreprocessor.t)
    (input_dir audio_dir mel_dir : string)
    (idx : nat) (name : string) (metadata : list ManifestRecord)
  : M (list ManifestRecord) :=
  try_except
    (let! r := try_body self input_dir audio_dir mel_dir idx name in
     ret (metadata ++ [r]))
    (fun e =>
       do! print (nl +:+ "Error processing " +:+ name +:+ ": " +:+ str e) in
       ret metadata).

(** [for idx, audio_path in enumerate(audio_files)]. *)
Fixpoint for_each (self : AudioPreprocessor.t)
    (input_dir audio_dir mel_dir : string)
    (items : list (nat * string)) (metadata : list ManifestRecord)
  : M (list ManifestRecord) :=
  match items with
  | [] => ret metadata
  | (idx, name) :: rest =>
      let! metadata' :=
        iteration self input_dir audio_dir mel_dir idx name metadata in
      for_each self input_dir audio_dir mel_dir rest metadata'
  end.

(** [if max_files: audio_files = audio_files[:max_files]]. *)
Definition cap_files (audio_files : list string) (max_files : option Z)
  : list string :=
  if truthy max_files
  then match max_files with
       | Some n => slice_to audio_files n
       | None => audio_files
       end
  else audio_files.

Definition process_directory (self : AudioPreprocessor.t)
    (input_dir output_dir : string) (max_files : option Z)
  : M (list ManifestRecord) :=
  let audio_dir := path_join output_dir "audio" in
  let mel_dir := path_join output_dir "mels" in
  do! effect (mkdir audio_dir) (with_dir audio_dir) in
  do! effect (mkdir mel_dir) (with_dir mel_dir) in
  let audio_files := glob_mp3 input_dir in
  let audio_files := cap_files audio_files max_files in
  do! print ("Processing " +:+ Fmt.d (length audio_files)
             +:+ " audio files...") in
  let! metadata :=
    for_each self input_dir audio_dir mel_dir (enumerate audio_files) [] in
  let metadata_path := path_join output_dir "metadata.json" in
  do! effect (json_dump metadata_path)
             (with_file metadata_path (JsonManifest metadata)) in
  do! print (nl +:+ "✓ Processed " +:+ Fmt.d (length metadata)
             +:+ " files") in
  do! print ("✓ Audio saved to: " +:+ audio_dir) in
  do! print ("✓ Mel spectrograms saved to: " +:+ mel_dir) in
  do! print ("✓ Metadata saved to: " +:+ metadata_path) in
  ret metadata.

(** ** main *)

Definition config : Config :=
  {| sample_rate := 22050;
     n_fft := 1024;
     hop_length := 256;
     win_length := 1024;
     n_mels := 80;
     fmin := 0;
     fmax := 8000;
     segment_size := 8192 |}.

Definition config_items (c : Config) : list (string * Z) :=
  [("sample_rate", sample_rate c); ("n_fft", n_fft c);
   ("hop_length", hop_length c);
   ("win_length", win_length c);
   ("n_mels", n_mels c); ("fmin", fmin c);
   ("fmax", fmax c);
   ("segment_size", segment_size c)].

Fixpoint print_items (items : list (string * Z)) : M unit :=
  match items with
  | [] => ret tt
  | (key, value) :: rest =>
      do! print ("  " +:+ key +:+ ": " +:+ Fmt.z value) in
      print_items rest
  end.

(** The summary block of [main]. *)
Definition summary (metadata : list ManifestRecord) : M unit :=
  do! print (nl +:+ Fmt.times "=" 70) in
  do! print "PREPROCESSING COMPLETE" in
  do! print (Fmt.times "=" 70) in
  do! print ("Total files: " +:+ Fmt.d (length metadata)) in
  match metadata with
  | [] => ret tt
  | _ :: _ =>
      let total_duration := py_sum (duration <$> metadata) in
      let! minutes := float_div total_duration 60 in
      do! print ("Total duration: " +:+ format_2f minutes
                 +:+ " minutes") in
      let! avg_duration :=
        float_div total_duration (Z.of_nat (length metadata)) in
      print ("Average duration: " +:+ format_2f avg_duration
             +:+ " seconds")
  end.

(** The heading [main] prints before processing. *)
Definition banner : M unit :=
  do! print (Fmt.times "=" 70) in
  do! print "AUDIO PREPROCESSING FOR HIFI-GAN" in
  do! print (Fmt.times "=" 70) in
  do! print (nl +:+ "Configuration:") in
  do! print_items (config_items config) in
  print (Fmt.times "=" 70).

(** The last block of [main]: the configuration snapshot. *)
Definition save_config (output_dir : string) : M unit :=
  let config_path := path_join output_dir "config.json" in
  do! effect (json_dump config_path)
             (with_file config_path (JsonConfig config)) in
  print (nl +:+ "Config saved to: " +:+ config_path).

(** [base_dir] is [Path(__file__).parent]. *)
Definition main (base_dir : string) : M unit :=
  let input_dir := path_join base_dir "jamendo_tracks" in
  let output_dir := path_join (path_join base_dir "data") "processed" in
  if negb (path_exists input_dir)
  then print ("Error: Input directory not found: " +:+ input_dir)
  else
    do! banner in
    let preprocessor := __init__ config in
    let! metadata :=
      process_directory preprocessor input_dir output_dir None in
    do! summary metadata in
    save_config output_dir.

(** Running the file as a script: [main()] under the [__main__]
    guard.  The interpreter exits with status 0 when [main] returns
    and with status 1 when an exception escapes it. *)
Definition exit_status (base_dir : string) (w : World) : Z :=
  match main base_dir w with
  | (Ok _, _) => 0
  | (Raise _, _) => 1
  end.

(** ** Vocabulary of the statements *)

(** The files the loop runs over. *)
Definition selected (input_dir : string) (max_files : option Z)
  : list string :=
  cap_files (glob_mp3 input_dir) max_files.

Definition blank : World :=
  {| files := ∅; dirs := ∅; stdout := []; decoded := [] |}.

(** What the [try] block yields for the file [name] at position [idx]:
    its record, or the exception it raises. *)
Definition outcome (self : AudioPreprocessor.t)
    (input_dir output_dir : string) (idx : nat) (name : string)
  : Result ManifestRecord :=
  fst (try_body self input_dir (path_join output_dir "audio")
         (path_join output_dir "mels") idx name blank).

Definition succeeds (self : AudioPreprocessor.t)
    (input_dir output_dir : string) (item : nat * string) : bool :=
  is_ok (outcome self input_dir output_dir item.1 item.2).

(** The records of the files that succeed, in loop order. *)
Definition records_of (self : AudioPreprocessor.t)
    (input_dir output_dir : string) (items : list (nat * string))
  : list ManifestRecord :=
  omap (fun item =>
          match outcome self input_dir output_dir item.1 item.2 with
          | Ok r => Some r
          | Raise _ => None
          end) items.

(** The line printed by the [except] clause. *)
Definition error_line (name : string) (e : Exn) : string :=
  nl +:+ "Error processing " +:+ name +:+ ": " +:+ str e.

(** The positions and names of the files that succeed. *)
Definition successes (self : AudioPreprocessor.t)
    (input_dir output_dir : string) (items : list (nat * string))
  : list (nat * string) :=
  filter (fun item => succeeds self input_dir output_dir item = true) items.

(** The lines the [except] clause prints over a stretch of the loop. *)
Definition errors_of (self : AudioPreprocessor.t)
    (input_dir output_dir : string) (items : list (nat * string))
  : list string :=
  omap (fun item =>
          match outcome self input_dir output_dir item.1 item.2 with
          | Ok _ => None
          | Raise e => Some (error_line item.2 e)
          end) items.

(** The waveform of the file at [idx] gets written: decoding and
    [sf.write] both succeed. *)
Definition waveform_written (self : AudioPreprocessor.t)
    (input_dir output_dir : string) (idx : nat) (name : string) : Prop :=
  exists audio,
    librosa_load (path_join input_dir name)
      (AudioPreprocessor.sample_rate self) = Ok audio /\
    sf_write (path_join (path_join output_dir "audio")
                (Fmt.d04 idx +:+ ".wav"))
      audio (AudioPreprocessor.sample_rate self) = None.

Definition audio_path (output_dir : string) (idx : nat) : string :=
  path_join (path_join output_dir "audio") (Fmt.d04 idx +:+ ".wav").

Definition mel_path (output_dir : string) (idx : nat) : string :=
  path_join (path_join output_dir "mels") (Fmt.d04 idx +:+ ".npy").

Definition file_exists (w : World) (path : string) : Prop :=
  is_Some (files w !! path).

(** Both artifacts of an index exist or neither does. *)
Definition paired (output_dir : string) (w : World) : Prop :=
  forall idx : nat,
    file_exists w (audio_path output_dir idx) <->
    file_exists w (mel_path output_dir idx).

(** How the world [w'] after the loop over [items] relates to the
    world [w] before it. *)
Definition loop_effect (self : AudioPreprocessor.t)
    (input_dir output_dir : string) (items : list (nat * string))
    (w w' : World) : Prop :=
  stdout w' = stdout w ++ errors_of self input_dir output_dir items /\
  decoded w' =
    decoded w ++ ((fun item => path_join input_dir item.2) <$> items) /\
  dirs w' = dirs w /\
  (forall path, file_exists w path -> file_exists w' path) /\
  (forall idx name,
      (idx, name) ∈ items ->
      waveform_written self input_dir output_dir idx name ->
      file_exists w' (audio_path output_dir idx)) /\
  (forall item,
      item ∈ items ->
      succeeds self input_dir output_dir item = true ->
      file_exists w' (audio_path output_dir item.1) /\
      file_exists w' (mel_path output_dir item.1)).

(** The world when the loop starts: both directories made and the
    announcement printed. *)
Definition opened (output_dir : string) (count : nat) (w : World) : World :=
  with_line ("Processing " +:+ Fmt.d count +:+ " audio files...")
    (with_dir (path_join output_dir "mels")
       (with_dir (path_join output_dir "audio") w)).

(** The world when [process_directory] returns: the manifest written
    and the four closing lines printed. *)
Definition closed (output_dir : string) (metadata : list ManifestRecord)
    (w : World) : World :=
  with_line ("✓ Metadata saved to: " +:+ path_join output_dir "metadata.json")
    (with_line ("✓ Mel spectrograms saved to: "
                +:+ path_join output_dir "mels")
       (with_line ("✓ Audio saved to: " +:+ path_join output_dir "audio")
          (with_line (nl +:+ "✓ Processed " +:+ Fmt.d (length metadata)
                      +:+ " files")
             (with_file (path_join output_dir "metadata.json")
                (JsonManifest metadata) w)))).

(** The output root can be set up and the manifest can be written:
    none of the steps outside the [try] block raises. *)
Definition output_root_usable (output_dir : string) : Prop :=
  mkdir (path_join output_dir "audio") = None /\
  mkdir (path_join output_dir "mels") = None /\
  json_dump (path_join output_dir "metadata.json") = None.

End Preprocess.

Arguments ManifestRecord : clear implicits.
Arguments World : clear implicits.

(** ** A small concrete world

    Audio is its sample count, a spectrogram is its shape and floats
    are integers.  A path ending in [corrupt.mp3] cannot be decoded and
    one ending in [silent.mp3] decodes to an empty signal, which the
    spectrogram step rejects. *)
Module Toy.

Definition load (path : string) (sr : Z) : Result Z :=
  if ends_with "corrupt.mp3" path then Raise (Exception "could not decode")
  else if ends_with "silent.mp3" path then Ok 0%Z
  else Ok (2 * sr)%Z.

Definition melspectrogram (y sr n_fft hop win n_mels fmin fmax : Z)
  : Result (Z * Z) :=
  if (y =? 0)%Z then Raise (Exception "empty signal")
  else Ok (n_mels, 1 + y / hop)%Z.

Definition ext (present : bool) (entries : list string) : Externals :=
  {| Audio := Z;
     Mel := Z * Z;
     Float := Z;
     path_exists := fun _ => present;
     listdir := fun _ => entries;
     mkdir := fun _ => None;
     librosa_load := load;
     len := fun y => y;
     sf_write := fun _ _ _ => None;
     librosa_melspectrogram := melspectrogram;
     np_max := fun _ => 0%Z;
     librosa_power_to_db := fun m _ => Ok m;
     shape := fun m => m;
     np_save := fun _ _ => None;
     json_dump := fun _ => None;
     int_truediv := Z.div;
     float_truediv := Z.div;
     py_sum := foldr Z.add 0%Z;
     format_2f := Fmt.z |}.

(** [process_directory] over the entries of [in], writing under [out],
    from the blank world. *)
Definition run (entries : list string) (max_files : option Z)
  : Result (list (ManifestRecord (ext true entries)))
    * World (ext true entries) :=
  @process_directory (ext true entries) (__init__ config) "in" "out"
    max_files (@blank (ext true entries)).

(** The manifest [run] returns. *)
Definition returned (entries : list string) (max_files : option Z)
  : list (ManifestRecord (ext true entries)) :=
  match (run entries max_files).1 with
  | Ok metadata => metadata
  | Raise _ => []
  end.

End Toy.

(** ** What a run leaves on disk *)

Section Artifacts.

Context `{E : Externals}.

(** The waveform [sf.write] stores for the file at [idx], if the file
    gets that far. *)
Definition written_waveform (self : AudioPreprocessor.t)
    (input_dir output_dir : string) (idx : nat) (name : string)
  : option Audio :=
  match librosa_load (path_join input_dir name)
          (AudioPreprocessor.sample_rate self) with
  | Ok audio =>
      match sf_write (audio_path output_dir idx) audio
              (AudioPreprocessor.sample_rate self) with
      | None => Some audio
      | Some _ => None
      end
  | Raise _ => None
  end.

(** The spectrogram [np.save] stores for the file at [idx], if the
    file gets that far. *)
Definition written_mel (self : AudioPreprocessor.t)
    (input_dir output_dir : string) (idx : nat) (name : string)
  : option Mel :=
  match written_waveform self input_dir output_dir idx name with
  | Some audio =>
      match librosa_melspectrogram audio
              (AudioPreprocessor.sample_rate self)
              (AudioPreprocessor.n_fft self)
              (AudioPreprocessor.hop_length self)
              (AudioPreprocessor.win_length self)
              (AudioPreprocessor.n_mels self)
              (AudioPreprocessor.fmin self)
              (AudioPreprocessor.fmax self) with
      | Ok mel =>
          match librosa_power_to_db mel np_max with
          | Ok mel_db =>
              match np_save (mel_path output_dir idx) mel_db with
              | None => Some mel_db
              | Some _ => None
              end
          | Raise _ => None
          end
      | Raise _ => None
      end
  | None => None
  end.

(** The spectrogram handed to [np.save] for the file at [idx], if the
    file gets that far: [None] when [np.save] is never called. *)
Definition computed_mel (self : AudioPreprocessor.t)
    (input_dir output_dir : string) (idx : nat) (name : string)
  : option Mel :=
  match written_waveform self input_dir output_dir idx name with
  | Some audio =>
      match librosa_melspectrogram audio
              (AudioPreprocessor.sample_rate self)
              (AudioPreprocessor.n_fft self)
              (AudioPreprocessor.hop_length self)
              (AudioPreprocessor.win_length self)
              (AudioPreprocessor.n_mels self)
              (AudioPreprocessor.fmin self)
              (AudioPreprocessor.fmax self) with
      | Ok mel =>
          match librosa_power_to_db mel np_max with
          | Ok mel_db => Some mel_db
          | Raise _ => None
          end
      | Raise _ => None
      end
  | None => None
  end.

(** The first line [process_directory] prints. *)
Definition announcement (count : nat) : string :=
  "Processing " +:+ Fmt.d count +:+ " audio files...".

(** The four lines [process_directory] prints before it returns. *)
Definition closing_lines (output_dir : string) (count : nat) : list string :=
  [nl +:+ "✓ Processed " +:+ Fmt.d count +:+ " files";
   "✓ Audio saved to: " +:+ path_join output_dir "audio";
   "✓ Mel spectrograms saved to: " +:+ path_join output_dir "mels";
   "✓ Metadata saved to: " +:+ path_join output_dir "metadata.json"].

(** The world [process_directory] is in when the loop is over. *)
Definition loop_world (self : AudioPreprocessor.t)
    (input_dir output_dir : string) (max_files : option Z) (w : World E)
  : World E :=
  (for_each self input_dir (path_join output_dir "audio")
     (path_join output_dir "mels")
     (enumerate (selected input_dir max_files)) []
     (opened output_dir (length (selected input_dir max_files)) w)).2.

End Artifacts.

(** ** A small world with broken paths

    As [Toy], except that creating, dumping to or writing any path
    listed in [broken] raises. *)
Module Faulty.

Definition refuse (broken : list string) (path : string) : option Exn :=
  if bool_decide (path ∈ broken)
  then Some (Exception ("cannot write " +:+ path))
  else None.

Definition ext (present : bool) (entries broken : list string) : Externals :=
  {| Audio := Z;
     Mel := Z * Z;
     Float := Z;
     path_exists := fun _ => present;
     listdir := fun _ => entries;
     mkdir := refuse broken;
     librosa_load := Toy.load;
     len := fun y => y;
     sf_write := fun path _ _ => refuse broken path;
     librosa_melspectrogram := Toy.melspectrogram;
     np_max := fun _ => 0%Z;
     librosa_power_to_db := fun m _ => Ok m;
     shape := fun m => m;
     np_save := fun path _ => refuse broken path;
     json_dump := refuse broken;
     int_truediv := Z.div;
     float_truediv := Z.div;
     py_sum := foldr Z.add 0%Z;
     format_2f := Fmt.z |}.

End Faulty.

(** * scrapping/cleaner.py: removal of near-duplicate tracks

    The operating system and the regular-expression engine are
    external: [os.listdir], [os.path.join], [os.remove] and the
    substitution [re.sub] that deletes a bracketed tag, with the blank
    before it, from a name are the fields of [Cleaner.Os]. *)
Module Cleaner.

Class Os : Type := {
  listdir : string -> Result (list string);
  join : string -> string -> string;
  remove : string -> option Exn;
  (* re.sub with the pattern for a bracketed tag and an empty
     replacement *)
  strip_tag : string -> string
}.

(** The paths removed so far and the lines printed so far. *)
Record State : Type := {
  removed : list string;
  printed : list string
}.

Section WithOs.

Context `{O : Os}.

Definition print (line : string) (s : State) : State :=
  {| removed := removed s; printed := printed s ++ [line] |}.

Definition unlink (path : string) (s : State) : State :=
  {| removed := removed s ++ [path]; printed := printed s |}.

(** The [for nombre_archivo in os.listdir(carpeta)] loop;
    [archivos_vistos] is the dictionary of the names seen. *)
Fixpoint scan (carpeta : string) (names : list string)
    (archivos_vistos : gmap string string) (s : State)
  : Result unit * State :=
  match names with
  | [] => (Ok tt, s)
  | nombre_archivo :: rest =>
      if ends_with ".mp3" nombre_archivo then
        let ruta_completa := join carpeta nombre_archivo in
        let nombre_normalizado := strip_tag nombre_archivo in
        match archivos_vistos !! nombre_normalizado with
        | Some _ =>
            let s1 :=
              print ("Eliminando archivo duplicado: " +:+ ruta_completa) s in
            match remove ruta_completa with
            | Some e => (Raise e, s1)
            | None => scan carpeta rest archivos_vistos
                        (unlink ruta_completa s1)
            end
        | None =>
            scan carpeta rest
              (<[nombre_normalizado := ruta_completa]> archivos_vistos) s
        end
      else scan carpeta rest archivos_vistos s
  end.

Definition eliminar_duplicados_similares (carpeta : string) (s : State)
  : Result unit * State :=
  match listdir carpeta with
  | Raise e => (Raise e, s)
  | Ok names => scan carpeta names ∅ s
  end.

(** The entry at position [k] is an [.mp3] file whose normalised name
    was already given by an earlier [.mp3] entry. *)
Definition later_duplicate (names : list string) (k : nat) (nombre : string)
  : Prop :=
  names !! k = Some nombre /\
  ends_with ".mp3" nombre = true /\
  exists j primero,
    (j < k)%nat /\ names !! j = Some primero /\
    ends_with ".mp3" primero = true /\
    strip_tag primero = strip_tag nombre.

(** The same for a loop entered with the dictionary [vistos]: the
    normalised name is a key of [vistos] or was given by an earlier
    [.mp3] entry. *)
Definition seen_before (vistos : gmap string string) (names : list string)
    (k : nat) (nombre : string) : Prop :=
  names !! k = Some nombre /\
  ends_with ".mp3" nombre = true /\
  (is_Some (vistos !! strip_tag nombre) \/
   exists j primero,
     (j < k)%nat /\ names !! j = Some primero /\
     ends_with ".mp3" primero = true /\
     strip_tag primero = strip_tag nombre).

(** The line printed before a removal. *)
Definition notice (path : string) : string :=
  "Eliminando archivo duplicado: " +:+ path.

End WithOs.

Definition start : State := {| removed := []; printed := [] |}.

(** A small system: one directory, paths joined with a slash, and the
    first four characters standing in for the normalised name. *)
Definition toy (entries : list string) (locked : list string) : Os :=
  {| listdir := fun _ => Ok entries;
     join := path_join;
     remove := fun path =>
       if bool_decide (path ∈ locked)
       then Some (Exception ("permission denied: " +:+ path))
       else None;
     strip_tag := String.substring 0 4 |}.

End Cleaner.

(** * scrapping/scrapper.py: listing and download of the tracks

    The script runs at module level.  [requests], the file system and
    [os.path.join] are external and are the fields of [Scrapper.Web].
    The fields of a track the script reads ([name], [artist_name],
    [audio]) are JSON strings. *)
Module Scrapper.

(** The exceptions the script can meet; only [RequestException] is
    caught, and only inside the download loop. *)
Inductive Error : Type :=
  | RequestException (msg : string)
  | KeyError (key : string)
  | NameError (name : string)
  | OtherError (msg : string).

(** [str(e)] for the exception the download loop prints. *)
Definition text (e : Error) : string :=
  match e with
  | RequestException msg => msg
  | KeyError key => key
  | NameError name => name
  | OtherError msg => msg
  end.

Inductive Res (A : Type) : Type :=
  | Val (a : A)
  | Err (e : Error).
Arguments Val {A} a.
Arguments Err {A} e.

(** One element of [data['results']]. *)
Definition Track : Type := gmap string string.

(** What the script reads of [response.json()]: the warnings under
    [headers], when there are any, and [results], when present. *)
Record Data : Type := {
  warnings : option string;
  results : option (list Track)
}.

(** The response to the listing request; [json] is [response.json()]. *)
Record Listing : Type := {
  listing_status : Z;
  json : Res Data
}.

(** The response to a download request with [stream=True]:
    [iter_content] yields [chunks] and then stops, or raises a
    [RequestException] with the message [broken]. *)
Record Download : Type := {
  status_code : Z;
  chunks : list string;
  broken : option string
}.

Class Web : Type := {
  (* requests.get(base_url + endpoint, params=params) *)
  get_listing : Res Listing;
  (* requests.get(audio_url, stream=True) *)
  get_audio : string -> Res Download;
  path_exists : string -> bool;
  makedirs : string -> option Error;
  join : string -> string -> string;
  (* open(file_path, 'wb') *)
  open_wb : string -> option Error;
  (* f.write(chunk), for the chunk at a position of the stream *)
  write : string -> nat -> option Error
}.

(** The files written, as the chunks they hold, the directories made,
    the lines printed and the URLs requested for download. *)
Record World : Type := {
  files : gmap string (list string);
  dirs : list string;
  stdout : list string;
  requested : list string
}.

Definition start : World :=
  {| files := ∅; dirs := []; stdout := []; requested := [] |}.

Definition with_line (line : string) (w : World) : World :=
  {| files := files w; dirs := dirs w; stdout := stdout w ++ [line];
     requested := requested w |}.

Definition with_dir (path : string) (w : World) : World :=
  {| files := files w; dirs := dirs w ++ [path]; stdout := stdout w;
     requested := requested w |}.

Definition with_request (url : string) (w : World) : World :=
  {| files := files w; dirs := dirs w; stdout := stdout w;
     requested := requested w ++ [url] |}.

Definition with_file (path : string) (content : list string) (w : World)
  : World :=
  {| files := <[path := content]> (files w); dirs := dirs w;
     stdout := stdout w; requested := requested w |}.

(** [s.replace(old, new)] for single characters. *)
Fixpoint replace_char (old new : Ascii.ascii) (s : string) : string :=
  match s with
  | EmptyString => EmptyString
  | String c rest =>
      String (if Ascii.eqb c old then new else c)
        (replace_char old new rest)
  end.

Definition slash : Ascii.ascii := Ascii.ascii_of_nat 47.
Definition backslash : Ascii.ascii := Ascii.ascii_of_nat 92.
Definition underscore : Ascii.ascii := Ascii.ascii_of_nat 95.

(** [.replace('/', '_').replace(backslash, '_')]. *)
Definition sanitize (s : string) : string :=
  replace_char backslash underscore (replace_char slash underscore s).

Definition track_name (track : Track) : string :=
  sanitize (default "unknown_track" (track !! "name")).

Definition artist_name (track : Track) : string :=
  sanitize (default "unknown_artist" (track !! "artist_name")).

Definition file_name (track : Track) : string :=
  track_name track +:+ " - " +:+ artist_name track +:+ ".mp3".

(** The URL the download uses: [track.get('audio')] when it is truthy. *)
Definition audio_url (track : Track) : option string :=
  match track !! "audio" with
  | Some url => if String.eqb url "" then None else Some url
  | None => None
  end.

Definition download_folder : string := "jamendo_tracks".

(** A track that has the three keys the first loop reads. *)
Definition complete (track : Track) : Prop :=
  is_Some (track !! "name") /\ is_Some (track !! "artist_name") /\
  is_Some (track !! "audio").

Section WithWeb.

Context `{W : Web}.

Definition M (A : Type) : Type := World -> Res A * World.

Definition ret {A} (a : A) : M A := fun w => (Val a, w).

Definition raise {A} (e : Error) : M A := fun w => (Err e, w).

Definition bind {A B} (m : M A) (k : A -> M B) : M B :=
  fun w =>
    match m w with
    | (Val a, w') => k a w'
    | (Err e, w') => (Err e, w')
    end.

Definition print (line : string) : M unit :=
  fun w => (Val tt, with_line line w).

Definition effect (r : option Error) (upd : World -> World) : M unit :=
  fun w =>
    match r with
    | Some e => (Err e, w)
    | None => (Val tt, upd w)
    end.

Notation "'let!' x ':=' m 'in' k" := (bind m (fun x => k))
  (at level 10, x name, m at level 200, k at level 200).
Notation "'do!' m 'in' k" := (bind m (fun _ => k))
  (at level 10, m at level 200, k at level 200).

(** [track[key]]. *)
Definition item (track : Track) (key : string) : M string :=
  match track !! key with
  | Some value => ret value
  | None => raise (KeyError key)
  end.

(** The first loop: three lines and a blank line for each track. *)
Fixpoint show_tracks (tracks : list Track) : M unit :=
  match tracks with
  | [] => ret tt
  | track :: rest =>
      let! name := item track "name" in
      do! print ("Nombre de la canción: " +:+ name) in
      let! artist := item track "artist_name" in
      do! print ("Artista: " +:+ artist) in
      let! audio := item track "audio" in
      do! print ("Enlace a la pista: " +:+ audio) in
      do! print "" in
      show_tracks rest
  end.

(** The listing request and what follows it.  The result is the value
    bound to [tracks], if the branch taken binds it. *)
Definition listing : M (option (list Track)) :=
  fun w =>
    match get_listing with
    | Err e => (Err e, w)
    | Val response =>
        if (listing_status response =? 200)%Z then
          (let! data := (fun w => (json response, w)) in
           do! match warnings data with
               | Some text => print ("Advertencia de la API: " +:+ text)
               | None => ret tt
               end in
           let tracks := default [] (results data) in
           do! show_tracks tracks in
           ret (Some tracks)) w
        else
          (do! print ("Error al hacer la solicitud: "
                      +:+ Fmt.z (listing_status response)) in
           ret None) w
    end.

(** The body of [with open(file_path, 'wb') as f]: the chunks of the
    stream written one after the other, from position [pos]. *)
Fixpoint write_chunks (file_path : string) (pos : nat)
    (stream : list string) (broken : option string) : M unit :=
  match stream with
  | [] =>
      match broken with
      | Some msg => raise (RequestException msg)
      | None => ret tt
      end
  | chunk :: rest =>
      do! (fun w =>
             match write file_path pos with
             | Some e => (Err e, w)
             | None =>
                 (Val tt,
                  with_file file_path
                    (default [] (files w !! file_path) ++ [chunk]) w)
             end) in
      write_chunks file_path (S pos) rest broken
  end.

(** The [try] block of the download loop. *)
Definition fetch (url file_path name : string) : M unit :=
  fun w =>
    match get_audio url with
    | Err e => (Err e, with_request url w)
    | Val response =>
        (if (status_code response =? 200)%Z then
           do! effect (open_wb file_path) (with_file file_path []) in
           do! write_chunks file_path 0 (chunks response)
                 (broken response) in
           print ("Guardado: " +:+ file_path)
         else
           print ("Error al descargar " +:+ name +:+ ": "
                  +:+ Fmt.z (status_code response)))
          (with_request url w)
    end.

(** [try: ... except requests.exceptions.RequestException as e: ...]. *)
Definition try_fetch (url file_path name : string) : M unit :=
  fun w =>
    match fetch url file_path name w with
    | (Err (RequestException msg), w') =>
        print ("Error de conexión al descargar " +:+ name +:+ ": " +:+ msg) w'
    | other => other
    end.

(** One pass through the body of the download loop. *)
Definition download_one (track : Track) : M unit :=
  match audio_url track with
  | Some url =>
      let name := file_name track in
      let file_path := join download_folder name in
      do! print ("Descargando: " +:+ name) in
      try_fetch url file_path name
  | None =>
      print ("URL de audio no encontrada para la pista: "
             +:+ track_name track)
  end.

Fixpoint download_all (tracks : list Track) : M unit :=
  match tracks with
  | [] => ret tt
  | track :: rest =>
      do! download_one track in
      download_all rest
  end.

(** The whole script, after the configuration lines. *)
Definition script : M unit :=
  let! tracks := listing in
  do! (if path_exists download_folder then ret tt
       else effect (makedirs download_folder) (with_dir download_folder)) in
  let! tracks :=
    match tracks with
    | Some tracks => ret tracks
    | None => raise (NameError "tracks")
    end in
  do! print ("Descargando " +:+ Fmt.d (length tracks) +:+ " pistas...") in
  do! download_all tracks in
  print "Descarga completada.".

End WithWeb.

(** A small web: the listing answers with [code] and [tracks]; a URL
    ending in [down] refuses the connection, one ending in [gone]
    answers 404, one ending in [cut] breaks after its first chunk. *)
Definition toy_audio (url : string) : Res Download :=
  if ends_with "down" url then Err (RequestException "connection refused")
  else if ends_with "gone" url
  then Val {| status_code := 404; chunks := []; broken := None |}
  else if ends_with "cut" url
  then Val {| status_code := 200; chunks := ["ID3"];
              broken := Some "stream ended early" |}
  else Val {| status_code := 200; chunks := ["ID3"; "data"]; broken := None |}.

Definition toy (code : Z) (tracks : list Track) : Web :=
  {| get_listing :=
       Val {| listing_status := code;
              json := Val {| warnings := None; results := Some tracks |} |};
     get_audio := toy_audio;
     path_exists := fun _ => false;
     makedirs := fun _ => None;
     join := path_join;
     open_wb := fun _ => None;
     write := fun _ _ => None |}.

Definition toy_track (name artist audio : string) : Track :=
  <["name" := name]> (<["artist_name" := artist]> (<["audio" := audio]> ∅)).

End Scrapper.

(** * Facts about formatting and enumeration *)

Lemma string_length_app (a b : string) :
  String.length (a +:+ b) = (String.length a + String.length b)%nat.
Proof.
  induction a as [|c a IH]; simpl; [reflexivity|].
  rewrite IH; reflexivity.
Qed.

Lemma substring_prefix (a b : string) :
  String.substring 0 (String.length a) (a +:+ b) = a.
Proof.
  induction a as [|c a IH]; simpl.
  - destruct b; reflexivity.
  - rewrite IH. reflexivity.
Qed.

Lemma stem_ext (a ext : string) :
  String.length ext = 4%nat -> Fmt.stem (a +:+ ext) = a.
Proof.
  intros Hext. unfold Fmt.stem. rewrite string_length_app, Hext.
  replace (String.length a + 4 - 4)%nat with (String.length a) by lia.
  apply substring_prefix.
Qed.

Example d04_pads : Fmt.d04 7 = "0007".
Proof. reflexivity. Qed.

Example d04_keeps_long : Fmt.d04 (12 * 1000) = "12000".
Proof. reflexivity. Qed.

Example slice_to_negative : slice_to [1; 2; 3]%nat (-1) = [1; 2]%nat.
Proof. reflexivity. Qed.

Example glob_keeps_mp3 :
  filter (fun name => matches_mp3 name = true) ["a.mp3"; "notes.txt"; "b.MP3"]
  = ["a.mp3"].
Proof. reflexivity. Qed.

(** Reading back the digits of [f"{n:04d}"] gives [n]. *)
Lemma int_d04 (n : nat) : Fmt.int (Fmt.d04 n) = Some n.
Proof.
  unfold Fmt.int, Fmt.d04, Fmt.digits04.
  rewrite NilEmpty.usu. simpl. f_equal.
  rewrite <- DecimalNat.Unsigned.of_uint_norm, DecimalFacts.unorm_iter_D0.
  rewrite DecimalNat.Unsigned.of_uint_norm. apply DecimalNat.Unsigned.of_to.
Qed.

Lemma d04_inj (n m : nat) : Fmt.d04 n = Fmt.d04 m -> n = m.
Proof.
  intros Heq. pose proof (int_d04 n) as Hn. rewrite Heq, int_d04 in Hn.
  congruence.
Qed.

Lemma elem_of_enumerate_from {A} (start : nat) (xs : list A) i x :
  (i, x) ∈ enumerate_from start xs <->
  exists k, i = (start + k)%nat /\ xs !! k = Some x.
Proof.
  revert start. induction xs as [|y xs IH]; intros start; simpl.
  - split; [intros Hin; inversion Hin|intros (k & _ & Hk); discriminate].
  - rewrite elem_of_cons, IH. split.
    + intros [Heq|(k & -> & Hk)].
      * inversion Heq; subst. exists 0%nat. split; [lia|reflexivity].
      * exists (S k). split; [lia|exact Hk].
    + intros ([|k] & -> & Hk); simpl in Hk.
      * left. inversion Hk. f_equal. lia.
      * right. exists k. split; [lia|exact Hk].
Qed.

Lemma elem_of_enumerate {A} (xs : list A) i x :
  (i, x) ∈ enumerate xs <-> xs !! i = Some x.
Proof.
  unfold enumerate. rewrite elem_of_enumerate_from. split.
  - intros (k & -> & Hk). exact Hk.
  - intros Hk. exists i. split; [reflexivity|exact Hk].
Qed.

Lemma length_enumerate_from {A} (start : nat) (xs : list A) :
  length (enumerate_from start xs) = length xs.
Proof.
  revert start. induction xs as [|y xs IH]; intros start; simpl;
    [reflexivity|]. rewrite IH. reflexivity.
Qed.

Lemma fmap_snd_enumerate_from {A B} (f : A -> B) (start : nat) (xs : list A) :
  (fun item => f item.2) <$> enumerate_from start xs = f <$> xs.
Proof.
  revert start. induction xs as [|y xs IH]; intros start;
    [reflexivity|].
  cbn [enumerate_from]. rewrite !fmap_cons, IH. reflexivity.
Qed.

Lemma slice_to_positive {A} (xs : list A) (n : nat) :
  slice_to xs (Z.of_nat n) = take n xs.
Proof.
  unfold slice_to. destruct (Z.leb_spec 0 (Z.of_nat n)); [|lia].
  rewrite Nat2Z.id. reflexivity.
Qed.

(** A run of the small world that returns, returns [Toy.returned]. *)
Lemma run_returned (entries : list string) (max_files : option Z) :
  is_ok (Toy.run entries max_files).1 = true ->
  Toy.run entries max_files
  = (Ok (Toy.returned entries max_files), (Toy.run entries max_files).2).
Proof.
  unfold Toy.returned.
  destruct (Toy.run entries max_files) as [[metadata|e] w']; simpl;
    [reflexivity|discriminate].
Qed.

(** * Facts about the embedding *)

Section Facts.

Context `{E : Externals}.

Implicit Types (self : AudioPreprocessor.t) (w : World E).
Implicit Types (items : list (nat * string)).
Implicit Types (metadata : list (ManifestRecord E)).

Ltac run_body :=
  unfold iteration, try_except, try_body, extract_mel_spectrogram,
    load_audio, effect, lift, int_div, float_div, bind, ret, raise, print;
  simpl.

Ltac split_cases := repeat case_match; simplify_eq/=.

(** The result of the [try] block does not depend on the world it
    starts from. *)
Lemma try_body_outcome self input_dir output_dir idx name w :
  (try_body self input_dir (path_join output_dir "audio")
     (path_join output_dir "mels") idx name w).1
  = outcome self input_dir output_dir idx name.
Proof.
  unfold outcome. run_body. split_cases; reflexivity.
Qed.

Lemma file_exists_with_file w path c path' :
  file_exists w path' -> file_exists (with_file path c w) path'.
Proof.
  unfold file_exists, with_file; simpl. intros Hp.
  destruct (decide (path = path')) as [->|Hne].
  - rewrite lookup_insert_eq. eauto.
  - rewrite lookup_insert_ne; done.
Qed.

Lemma file_exists_written w path c :
  file_exists (with_file path c w) path.
Proof.
  unfold file_exists, with_file; simpl. rewrite lookup_insert_eq. eauto.
Qed.

Lemma file_exists_with_line w s path :
  file_exists (with_line s w) path <-> file_exists w path.
Proof. reflexivity. Qed.

Lemma loop_effect_nil self input_dir output_dir w :
  loop_effect self input_dir output_dir [] w w.
Proof.
  unfold loop_effect, errors_of; simpl. rewrite !app_nil_r.
  repeat split; auto; intros; exfalso; eapply not_elem_of_nil; eauto.
Qed.

(** What the [try] block does to the world. *)
Lemma try_body_effect self input_dir output_dir idx name w :
  let run := try_body self input_dir (path_join output_dir "audio")
               (path_join output_dir "mels") idx name w in
  stdout run.2 = stdout w /\
  decoded run.2 = decoded w ++ [path_join input_dir name] /\
  dirs run.2 = dirs w /\
  (forall path, file_exists w path -> file_exists run.2 path) /\
  (waveform_written self input_dir output_dir idx name ->
   file_exists run.2 (audio_path output_dir idx)) /\
  (is_ok run.1 = true ->
   file_exists run.2 (audio_path output_dir idx) /\
   file_exists run.2 (mel_path output_dir idx)).
Proof.
  unfold waveform_written, audio_path, mel_path. run_body.
  split_cases; repeat split; try reflexivity; try discriminate.
  all: try (intros; repeat apply file_exists_with_file; assumption).
  all: try (intros [audio [Hl Hw]]; simplify_eq).
  all: eauto using file_exists_with_file, file_exists_written.
Qed.

(** One pass through the loop body never raises: it appends the file's
    record or prints its error line. *)
Lemma iteration_effect self input_dir output_dir idx name metadata w :
  exists w',
    iteration self input_dir (path_join output_dir "audio")
      (path_join output_dir "mels") idx name metadata w
    = (Ok (metadata ++ records_of self input_dir output_dir [(idx, name)]), w')
    /\ loop_effect self input_dir output_dir [(idx, name)] w w'.
Proof.
  pose proof (try_body_outcome self input_dir output_dir idx name w) as Hout.
  pose proof (try_body_effect self input_dir output_dir idx name w) as Heff.
  unfold iteration, try_except, bind, ret, print.
  destruct (try_body _ _ _ _ _ _ w) as [r w1]; simpl in Hout, Heff.
  destruct Heff as (Hstd & Hdec & Hdir & Hmono & Hwav & Hboth).
  unfold records_of, loop_effect, errors_of, succeeds; simpl.
  rewrite <- Hout.
  destruct r as [r|e]; eexists;
    (split; [rewrite ?app_nil_r; reflexivity|]); simpl.
  all: rewrite ?app_nil_r, ?Hstd, ?Hdec, ?Hdir.
  all: split_and!; try reflexivity; auto.
  all: try solve
    [intros idx' name' Hin%list_elem_of_singleton; simplify_eq; auto].
  all: try solve [intros; apply file_exists_with_line; auto].
  all: intros [idx' name'] Hin%list_elem_of_singleton; simplify_eq/=.
  all: rewrite <- Hout; simpl; auto; discriminate.
Qed.

Lemma records_of_cons self input_dir output_dir item rest :
  records_of self input_dir output_dir (item :: rest)
  = records_of self input_dir output_dir [item]
    ++ records_of self input_dir output_dir rest.
Proof. unfold records_of; simpl. case_match; reflexivity. Qed.

Lemma errors_of_cons self input_dir output_dir item rest :
  errors_of self input_dir output_dir (item :: rest)
  = errors_of self input_dir output_dir [item]
    ++ errors_of self input_dir output_dir rest.
Proof. unfold errors_of; simpl. case_match; reflexivity. Qed.

Lemma loop_effect_cons self input_dir output_dir item rest w w1 w' :
  loop_effect self input_dir output_dir [item] w w1 ->
  loop_effect self input_dir output_dir rest w1 w' ->
  loop_effect self input_dir output_dir (item :: rest) w w'.
Proof.
  intros (Hs1 & Hd1 & Hr1 & Hm1 & Hw1 & Hb1).
  intros (Hs2 & Hd2 & Hr2 & Hm2 & Hw2 & Hb2).
  unfold loop_effect. split_and!.
  - rewrite Hs2, Hs1, (errors_of_cons _ _ _ item rest), app_assoc.
    reflexivity.
  - rewrite Hd2, Hd1, <- app_assoc. reflexivity.
  - congruence.
  - auto.
  - intros idx name [Heq|Hin]%elem_of_cons Hwav.
    + apply Hm2, (Hw1 idx name); [rewrite Heq; apply list_elem_of_singleton|];
        done.
    + eauto.
  - intros it [->|Hin]%elem_of_cons Hok.
    + destruct (Hb1 item) as [Ha Hm];
        [apply list_elem_of_singleton; done|done|].
      split; auto.
    + eauto.
Qed.

(** The loop never raises.  It returns the records of the files that
    succeed and prints one line for each file that fails. *)
Lemma for_each_effect self input_dir output_dir items metadata w :
  exists w',
    for_each self input_dir (path_join output_dir "audio")
      (path_join output_dir "mels") items metadata w
    = (Ok (metadata ++ records_of self input_dir output_dir items), w')
    /\ loop_effect self input_dir output_dir items w w'.
Proof.
  revert metadata w.
  induction items as [|[idx name] rest IH]; intros metadata w.
  - exists w. split; [|apply loop_effect_nil].
    simpl. unfold ret, records_of. simpl. rewrite app_nil_r. reflexivity.
  - destruct (iteration_effect self input_dir output_dir idx name metadata w)
      as (w1 & Hrun1 & Heff1).
    destruct (IH (metadata
                  ++ records_of self input_dir output_dir [(idx, name)]) w1)
      as (w' & Hrun & Heff).
    exists w'. split; [|eapply loop_effect_cons; eassumption].
    rewrite (records_of_cons _ _ _ (idx, name) rest), app_assoc.
    cbn [for_each]. unfold bind. rewrite Hrun1, Hrun. reflexivity.
Qed.

(** With a usable output root, [process_directory] returns the records
    of the selected files that succeed, whatever the other files do. *)
Lemma process_directory_effect self input_dir output_dir max_files w :
  output_root_usable output_dir ->
  let items := enumerate (selected input_dir max_files) in
  let metadata := records_of self input_dir output_dir items in
  exists w1,
    process_directory self input_dir output_dir max_files w
    = (Ok metadata, closed output_dir metadata w1)
    /\ loop_effect self input_dir output_dir items
         (opened output_dir (length (selected input_dir max_files)) w) w1.
Proof.
  intros (Ha & Hm & Hj) items metadata.
  destruct (for_each_effect self input_dir output_dir items []
              (opened output_dir (length (selected input_dir max_files)) w))
    as (w1 & Hrun & Heff).
  exists w1. split; [|exact Heff].
  unfold process_directory, bind, effect, print, ret.
  rewrite Ha, Hm. fold (selected input_dir max_files).
  fold items. unfold opened in Hrun. rewrite Hrun, Hj. reflexivity.
Qed.

(** [process_directory] returns only when the output root is usable. *)
Lemma process_directory_usable self input_dir output_dir max_files w metadata :
  (process_directory self input_dir output_dir max_files w).1 = Ok metadata ->
  output_root_usable output_dir.
Proof.
  unfold process_directory, bind, effect, print, ret, output_root_usable.
  destruct (mkdir (path_join output_dir "audio")); [discriminate|].
  destruct (mkdir (path_join output_dir "mels")); [discriminate|].
  match goal with
  | |- context [for_each ?s ?i ?a ?m ?it ?md ?w0] =>
      destruct (for_each_effect s i output_dir it md w0) as (w1 & Hrun & _);
      rewrite Hrun
  end.
  destruct (json_dump _); [discriminate|]. auto.
Qed.

(** The fields of a record come from the loop counter and the file. *)
Lemma outcome_fields self input_dir output_dir idx name r :
  outcome self input_dir output_dir idx name = Ok r ->
  id r = idx /\ original_file r = name /\
  audio_file r = Fmt.d04 idx +:+ ".wav" /\
  mel_file r = Fmt.d04 idx +:+ ".npy".
Proof.
  unfold outcome. run_body. split_cases; intros; simplify_eq/=; auto.
Qed.

Lemma elem_of_records_of self input_dir output_dir items r :
  r ∈ records_of self input_dir output_dir items <->
  exists idx name,
    (idx, name) ∈ items /\ outcome self input_dir output_dir idx name = Ok r.
Proof.
  unfold records_of. rewrite list_elem_of_omap. split.
  - intros ([idx name] & Hin & Hr); simpl in Hr. exists idx, name.
    split; [exact Hin|]. case_match; congruence.
  - intros (idx & name & Hin & Hr). exists (idx, name); simpl.
    rewrite Hr. auto.
Qed.

Lemma length_records_of self input_dir output_dir items :
  length (records_of self input_dir output_dir items)
  = length (successes self input_dir output_dir items).
Proof.
  unfold records_of, successes.
  induction items as [|item rest IH]; [reflexivity|].
  cbn [omap list_omap]. rewrite filter_cons.
  destruct (decide _) as [Hyes|Hyes]; unfold succeeds in Hyes;
    destruct (outcome _ _ _ _ _); simpl in *; congruence.
Qed.

(** The stored ids are the positions of the files that succeed. *)
Lemma id_records_of self input_dir output_dir items :
  id <$> records_of self input_dir output_dir items
  = fst <$> successes self input_dir output_dir items.
Proof.
  unfold records_of, successes.
  induction items as [|[idx name] rest IH]; [reflexivity|].
  cbn [omap list_omap]. rewrite filter_cons.
  destruct (decide _) as [Hyes|Hyes]; unfold succeeds in Hyes;
    cbn [fst snd] in *;
    destruct (outcome _ _ _ idx name) as [r|e] eqn:Hout;
    simpl in Hyes; try congruence.
  apply outcome_fields in Hout as (Hid & _).
  rewrite !fmap_cons, IH, Hid. reflexivity.
Qed.

Lemma file_exists_closed output_dir metadata w path :
  file_exists w path -> file_exists (closed output_dir metadata w) path.
Proof.
  intros Hp. unfold closed. rewrite !file_exists_with_line.
  apply file_exists_with_file, Hp.
Qed.

(** Whenever [process_directory] returns, it returns the records of the
    selected files that succeed. *)
Lemma process_directory_returns self input_dir output_dir max_files w
    metadata w' :
  process_directory self input_dir output_dir max_files w = (Ok metadata, w') ->
  metadata = records_of self input_dir output_dir
               (enumerate (selected input_dir max_files)).
Proof.
  intros Hrun.
  assert (output_root_usable output_dir) as Huse.
  { eapply process_directory_usable. rewrite Hrun. reflexivity. }
  destruct (process_directory_effect self input_dir output_dir max_files w Huse)
    as (w1 & Hrun' & _).
  congruence.
Qed.

End Facts.

(** * The claims *)

Section Claim1.

Context `{E : Externals}.

Implicit Types (self : AudioPreprocessor.t) (w : World E).
Implicit Types (metadata : list (ManifestRecord E)).

(** C1 (as amended).  [process_directory] removes nothing.  After a run
    that returns, every file that existed before the run still exists;
    the waveform written for a file stays under [audio/<NNNN>.wav]
    whatever happens to the later steps for that file; and for every
    record of the manifest both [audio/<NNNN>.wav] and
    [mels/<NNNN>.npy] exist. *)
Theorem C1_artifacts_kept_records_paired
    self input_dir output_dir max_files w metadata w' :
  process_directory self input_dir output_dir max_files w = (Ok metadata, w') ->
  (forall path, file_exists w path -> file_exists w' path) /\
  (forall idx name,
      selected input_dir max_files !! idx = Some name ->
      waveform_written self input_dir output_dir idx name ->
      file_exists w' (audio_path output_dir idx)) /\
  (forall r,
      r ∈ metadata ->
      file_exists w' (audio_path output_dir (id r)) /\
      file_exists w' (mel_path output_dir (id r))).
Proof.
  intros Hrun.
  assert (output_root_usable output_dir) as Huse.
  { eapply process_directory_usable. rewrite Hrun. reflexivity. }
  destruct (process_directory_effect self input_dir output_dir max_files w Huse)
    as (w1 & Hrun' & Heff).
  rewrite Hrun in Hrun'. injection Hrun' as -> ->.
  destruct Heff as (_ & _ & _ & Hmono & Hwav & Hboth).
  split_and!.
  - intros path Hp. apply file_exists_closed, Hmono, Hp.
  - intros idx name Hsel Hw. apply file_exists_closed.
    apply (Hwav idx name); [apply elem_of_enumerate, Hsel|exact Hw].
  - intros r (idx & name & Hin & Hout)%elem_of_records_of.
    destruct (outcome_fields _ _ _ _ _ _ Hout) as (-> & _).
    destruct (Hboth (idx, name) Hin) as [Ha Hm].
    { unfold succeeds; simpl. rewrite Hout. reflexivity. }
    split; apply file_exists_closed; assumption.
Qed.

End Claim1.

(** C1 (as stated) fails.  The only file decodes to an empty signal:
    its waveform is written, the spectrogram step raises, and
    [audio/0000.wav] is left without [mels/0000.npy]. *)
Lemma C1_orphan_waveform_left :
  let w' := (Toy.run ["silent.mp3"] None).2 in
  file_exists w' (audio_path "out" 0) /\
  ~ file_exists w' (mel_path "out" 0) /\
  ~ paired "out" w'.
Proof.
  assert (file_exists (Toy.run ["silent.mp3"] None).2 (audio_path "out" 0))
    as Ha.
  { unfold file_exists. vm_compute. eexists; reflexivity. }
  assert (~ file_exists (Toy.run ["silent.mp3"] None).2 (mel_path "out" 0))
    as Hm.
  { unfold file_exists. intros [c Hc]. vm_compute in Hc. discriminate. }
  split_and!; [exact Ha|exact Hm|].
  intros Hp. apply Hm, (Hp 0%nat), Ha.
Qed.

(** A run in which the waveform of [silent.mp3] is written and kept,
    next to the complete pair of [a.mp3]. *)
Lemma C1_artifacts_kept_witness :
  let entries := ["a.mp3"; "silent.mp3"] in
  let w' := (Toy.run entries None).2 in
  Toy.run entries None = (Ok (Toy.returned entries None), w') /\
  file_exists w' (audio_path "out" 1) /\
  (forall r,
      r ∈ Toy.returned entries None ->
      file_exists w' (audio_path "out" (id r)) /\
      file_exists w' (mel_path "out" (id r))).
Proof.
  intros entries w'.
  assert (Toy.run entries None = (Ok (Toy.returned entries None), w')) as Hrun.
  { apply run_returned. vm_compute. reflexivity. }
  split; [exact Hrun|].
  destruct (@C1_artifacts_kept_records_paired (Toy.ext true entries)
              _ _ _ _ _ _ _ Hrun) as (_ & Hwav & Hboth).
  split; [|exact Hboth].
  apply (Hwav 1%nat "silent.mp3"); [reflexivity|].
  exists 0%Z. split; reflexivity.
Defined.

Section Claim2.

Context `{E : Externals}.

Implicit Types (self : AudioPreprocessor.t) (w : World E).

Lemma selected_positive input_dir (n : nat) :
  (0 < n)%nat ->
  selected input_dir (Some (Z.of_nat n)) = take n (glob_mp3 input_dir).
Proof.
  intros Hn. unfold selected, cap_files, truthy.
  destruct (Z.eqb_spec (Z.of_nat n) 0); [lia|]. simpl.
  apply slice_to_positive.
Qed.

(** C2 (as amended).  For a positive cap [n] on a directory with more
    than [n] candidate files, [process_directory] returns exactly
    min(n, number of successes among the first n discovered files)
    records, and never more than [n]. *)
Theorem C2_positive_cap_bounds_records self input_dir output_dir (n : nat) w :
  output_root_usable output_dir ->
  (0 < n)%nat ->
  (n < length (glob_mp3 input_dir))%nat ->
  exists metadata w',
    process_directory self input_dir output_dir (Some (Z.of_nat n)) w
    = (Ok metadata, w') /\
    length metadata
    = Nat.min n (length (successes self input_dir output_dir
                           (enumerate (take n (glob_mp3 input_dir))))) /\
    (length metadata <= n)%nat.
Proof.
  intros Huse Hpos Hlt.
  destruct (process_directory_effect self input_dir output_dir
              (Some (Z.of_nat n)) w Huse) as (w1 & Hrun & _).
  rewrite (selected_positive _ _ Hpos) in Hrun.
  eexists _, _. split; [exact Hrun|].
  rewrite length_records_of.
  pose proof (length_filter
                (fun item => succeeds self input_dir output_dir item = true)
                (enumerate (take n (glob_mp3 input_dir)))) as Hle.
  fold (successes self input_dir output_dir
          (enumerate (take n (glob_mp3 input_dir)))) in Hle.
  unfold enumerate in Hle at 2.
  rewrite length_enumerate_from, length_take in Hle. lia.
Qed.

End Claim2.

(** C2 (as stated) fails for the cap 0: the directory holds one file,
    more than the cap, and the run returns one record. *)
Lemma C2_cap_zero_exceeds_cap :
  let entries := ["a.mp3"] in
  let E := Toy.ext true entries in
  (0 < length (glob_mp3 "in"))%nat /\
  ~ exists metadata w',
      Toy.run entries (Some 0%Z) = (Ok metadata, w') /\
      length metadata
      = Nat.min 0 (length (successes (__init__ config) "in" "out"
                             (enumerate (take 0 (glob_mp3 "in"))))) /\
      (length metadata <= 0)%nat.
Proof.
  intros entries E. split; [vm_compute; lia|].
  intros (metadata & w' & Hrun & _ & Hle).
  apply (f_equal fst) in Hrun. vm_compute in Hrun.
  injection Hrun as <-. simpl in Hle. lia.
Qed.

(** Three candidate files, cap 2: the second fails, one record. *)
Lemma C2_positive_cap_witness :
  let entries := ["a.mp3"; "corrupt.mp3"; "b.mp3"] in
  let E := Toy.ext true entries in
  output_root_usable "out" /\ (0 < 2)%nat /\
  (2 < length (glob_mp3 "in"))%nat /\
  exists metadata w',
    process_directory (__init__ config) "in" "out" (Some (Z.of_nat 2)) blank
    = (Ok metadata, w') /\
    length metadata
    = Nat.min 2 (length (successes (__init__ config) "in" "out"
                           (enumerate (take 2 (glob_mp3 "in"))))) /\
    (length metadata <= 2)%nat.
Proof.
  intros entries E.
  assert (output_root_usable "out") as Huse by (repeat split).
  assert (2 < length (glob_mp3 "in"))%nat as Hlt by (vm_compute; lia).
  split_and!; [exact Huse|lia|exact Hlt|].
  apply (@C2_positive_cap_bounds_records E (__init__ config) "in" "out" 2%nat
           blank Huse); [lia|exact Hlt].
Defined.

Section Claim3.

Context `{E : Externals}.

(** C3 (as amended).  When the input directory does not exist, [main]
    prints the line naming it and returns at once: nothing is decoded,
    created or written, and since [main] returns normally the exit
    status is 0. *)
Theorem C3_missing_input_returns_normally (base_dir : string) (w : World E) :
  path_exists (path_join base_dir "jamendo_tracks") = false ->
  main base_dir w
  = (Ok tt,
     with_line ("Error: Input directory not found: "
                +:+ path_join base_dir "jamendo_tracks") w) /\
  exit_status base_dir w = 0%Z.
Proof.
  intros Hmissing. unfold exit_status, main. rewrite Hmissing. simpl.
  split; reflexivity.
Qed.

End Claim3.

(** C3 (as stated) fails: with the input directory missing the exit
    status is 0. *)
Lemma C3_missing_input_exit_status_zero :
  let E := Toy.ext false [] in
  ~ (path_exists (path_join "." "jamendo_tracks") = false ->
     exit_status "." blank <> 0%Z).
Proof.
  intros E Hclaim. apply Hclaim; reflexivity.
Qed.

Lemma C3_missing_input_witness :
  let E := Toy.ext false [] in
  path_exists (path_join "." "jamendo_tracks") = false /\
  main "." blank
  = (Ok tt,
     with_line "Error: Input directory not found: ./jamendo_tracks" blank) /\
  exit_status "." blank = 0%Z.
Proof.
  intros E. split; [reflexivity|].
  apply (@C3_missing_input_returns_normally E "." blank). reflexivity.
Defined.

Section Claim4.

Context `{E : Externals}.

Implicit Types (self : AudioPreprocessor.t) (w : World E).

(** C4.  Whatever the files do, a run over a usable output root
    returns.  Every file whose [try] block raises has its error line,
    carrying its name, on the output; the manifest written to
    [metadata.json] holds exactly the records of the files that
    succeed, in loop order; and when every file fails the manifest is
    empty and the run reports zero processed files. *)
Theorem C4_file_errors_never_abort self input_dir output_dir max_files w :
  output_root_usable output_dir ->
  let audio_files := selected input_dir max_files in
  exists metadata w',
    process_directory self input_dir output_dir max_files w
    = (Ok metadata, w') /\
    metadata = records_of self input_dir output_dir (enumerate audio_files) /\
    (forall r,
        r ∈ metadata <->
        exists idx name,
          audio_files !! idx = Some name /\
          outcome self input_dir output_dir idx name = Ok r) /\
    files w' !! path_join output_dir "metadata.json"
    = Some (JsonManifest metadata) /\
    (forall idx name e,
        audio_files !! idx = Some name ->
        outcome self input_dir output_dir idx name = Raise e ->
        (nl +:+ "Error processing " +:+ name +:+ ": " +:+ str e)
        ∈ stdout w') /\
    ((forall idx name,
         audio_files !! idx = Some name ->
         is_ok (outcome self input_dir output_dir idx name) = false) ->
     metadata = [] /\
     (nl +:+ "✓ Processed 0 files") ∈ stdout w').
Proof.
  intros Huse audio_files.
  destruct (process_directory_effect self input_dir output_dir max_files w Huse)
    as (w1 & Hrun & Heff).
  fold audio_files in Hrun, Heff.
  set (metadata := records_of self input_dir output_dir
                     (enumerate audio_files)) in *.
  assert (forall r,
             r ∈ metadata <->
             exists idx name,
               audio_files !! idx = Some name /\
               outcome self input_dir output_dir idx name = Ok r) as Hmem.
  { intros r. unfold metadata. rewrite elem_of_records_of.
    split; intros (idx & name & Hin & Hout); exists idx, name;
      (split; [apply elem_of_enumerate, Hin|exact Hout]). }
  exists metadata, (closed output_dir metadata w1).
  split_and!; [exact Hrun|reflexivity|exact Hmem| | |].
  - unfold closed, with_line, with_file; simpl. apply lookup_insert_eq.
  - intros idx name e Hsel Hout.
    destruct Heff as (Hstd & _).
    unfold closed, with_line, with_file; simpl. rewrite Hstd.
    rewrite !elem_of_app. do 4 left. right.
    unfold errors_of. apply list_elem_of_omap.
    exists (idx, name). split; [apply elem_of_enumerate, Hsel|].
    simpl. rewrite Hout. reflexivity.
  - intros Hfail.
    assert (metadata = []) as Hnil.
    { destruct metadata as [|r rest] eqn:Hmd; [reflexivity|].
      destruct (proj1 (Hmem r)) as (idx & name & Hsel & Hout);
        [apply list_elem_of_here|].
      specialize (Hfail idx name Hsel). rewrite Hout in Hfail.
      discriminate. }
    split; [exact Hnil|].
    unfold closed, with_line, with_file; simpl. rewrite Hnil.
    rewrite !elem_of_app. do 3 left. right. apply list_elem_of_singleton.
    reflexivity.
Qed.

End Claim4.

(** Both files fail, one while decoding and one in the spectrogram
    step: the run returns an empty manifest. *)
Lemma C4_file_errors_witness :
  let entries := ["corrupt.mp3"; "silent.mp3"] in
  let E := Toy.ext true entries in
  output_root_usable "out" /\
  exists w',
    process_directory (__init__ config) "in" "out" None blank = (Ok [], w') /\
    files w' !! "out/metadata.json" = Some (JsonManifest []) /\
    (nl +:+ "Error processing corrupt.mp3: could not decode") ∈ stdout w' /\
    (nl +:+ "Error processing silent.mp3: empty signal") ∈ stdout w' /\
    (nl +:+ "✓ Processed 0 files") ∈ stdout w'.
Proof.
  intros entries E.
  assert (output_root_usable "out") as Huse by (repeat split).
  split; [exact Huse|].
  destruct (@C4_file_errors_never_abort E (__init__ config) "in" "out" None
              blank Huse)
    as (metadata & w' & Hrun & Hmd & _ & Hfile & Herr & Hzero).
  assert (metadata = []) as -> by (rewrite Hmd; vm_compute; reflexivity).
  exists w'. split_and!; [exact Hrun|exact Hfile| | |].
  - apply (Herr 0%nat "corrupt.mp3" (Exception "could not decode"));
      reflexivity.
  - apply (Herr 1%nat "silent.mp3" (Exception "empty signal")); reflexivity.
  - apply Hzero. intros [|[|idx]] name Hsel; vm_compute in Hsel;
      try discriminate; injection Hsel as <-; reflexivity.
Defined.

Section Claim5.

Context `{E : Externals}.

Implicit Types (self : AudioPreprocessor.t) (w : World E).
Implicit Types (metadata : list (ManifestRecord E)).

(** C5.  The [id] of every record, and the zero-padded number in its
    two file names, is the position of its file in the (possibly
    capped) discovery order.  The stored ids are exactly the positions
    of the files that succeed: the position of a file that fails is
    missing from them, and a file that succeeds keeps its own position
    however many files failed before it. *)
Theorem C5_id_is_discovery_position
    self input_dir output_dir max_files w metadata w' :
  process_directory self input_dir output_dir max_files w = (Ok metadata, w') ->
  let audio_files := selected input_dir max_files in
  (forall r,
      r ∈ metadata ->
      audio_files !! id r = Some (original_file r) /\
      outcome self input_dir output_dir (id r) (original_file r) = Ok r /\
      audio_file r = Fmt.d04 (id r) +:+ ".wav" /\
      mel_file r = Fmt.d04 (id r) +:+ ".npy") /\
  id <$> metadata
  = fst <$> successes self input_dir output_dir (enumerate audio_files) /\
  (forall k name e,
      audio_files !! k = Some name ->
      outcome self input_dir output_dir k name = Raise e ->
      k ∉ id <$> metadata) /\
  (forall k name,
      audio_files !! k = Some name ->
      is_ok (outcome self input_dir output_dir k name) = true ->
      k ∈ id <$> metadata).
Proof.
  intros Hrun audio_files.
  apply process_directory_returns in Hrun. fold audio_files in Hrun.
  assert (forall r,
             r ∈ metadata ->
             audio_files !! id r = Some (original_file r) /\
             outcome self input_dir output_dir (id r) (original_file r)
             = Ok r /\
             audio_file r = Fmt.d04 (id r) +:+ ".wav" /\
             mel_file r = Fmt.d04 (id r) +:+ ".npy") as Hrec.
  { intros r Hr. rewrite Hrun in Hr.
    apply elem_of_records_of in Hr as (idx & name & Hin & Hout).
    destruct (outcome_fields _ _ _ _ _ _ Hout) as (-> & -> & Ha & Hm).
    split_and!; [apply elem_of_enumerate, Hin|exact Hout|exact Ha|exact Hm]. }
  split_and!.
  - exact Hrec.
  - rewrite Hrun. apply id_records_of.
  - intros k name e Hsel Hout (r & -> & Hr)%list_elem_of_fmap.
    destruct (Hrec r Hr) as (Hsel' & Hout' & _). congruence.
  - intros k name Hsel Hok.
    destruct (outcome self input_dir output_dir k name) as [r|e] eqn:Hout;
      [|discriminate].
    apply list_elem_of_fmap. exists r.
    destruct (outcome_fields _ _ _ _ _ _ Hout) as (Hid & _).
    split; [symmetry; exact Hid|]. rewrite Hrun. apply elem_of_records_of.
    exists k, name. split; [apply elem_of_enumerate, Hsel|exact Hout].
Qed.

End Claim5.

(** Five files of which the second cannot be decoded: the ids and the
    file names skip position 1. *)
Lemma C5_id_is_discovery_position_witness :
  let entries := ["a.mp3"; "corrupt.mp3"; "b.mp3"; "c.mp3"; "d.mp3"] in
  let metadata := Toy.returned entries None in
  Toy.run entries None = (Ok metadata, (Toy.run entries None).2) /\
  id <$> metadata = [0; 2; 3; 4]%nat /\
  audio_file <$> metadata = ["0000.wav"; "0002.wav"; "0003.wav"; "0004.wav"] /\
  (1%nat ∉ id <$> metadata).
Proof.
  intros entries metadata.
  assert (Toy.run entries None = (Ok metadata, (Toy.run entries None).2))
    as Hrun by (apply run_returned; vm_compute; reflexivity).
  split; [exact Hrun|].
  destruct (@C5_id_is_discovery_position (Toy.ext true entries)
              _ _ _ _ _ _ _ Hrun) as (_ & Hids & Hgap & _).
  split_and!.
  - rewrite Hids. vm_compute. reflexivity.
  - vm_compute. reflexivity.
  - apply (Hgap 1%nat "corrupt.mp3" (Exception "could not decode"));
      reflexivity.
Defined.

Section Claim8.

Context `{E : Externals}.

Implicit Types (w : World E) (metadata : list (ManifestRecord E)).

Lemma print_items_returns (items : list (string * Z)) w :
  exists w', print_items items w = (Ok tt, w').
Proof.
  revert w. induction items as [|[key value] rest IH]; intros w; simpl.
  - eexists; reflexivity.
  - unfold bind, print. apply IH.
Qed.

Lemma banner_returns w : exists w', banner w = (Ok tt, w').
Proof.
  unfold banner, bind, print.
  destruct (print_items_returns (config_items config)
              (with_line (nl +:+ "Configuration:")
                 (with_line (Fmt.times "=" 70)
                    (with_line "AUDIO PREPROCESSING FOR HIFI-GAN"
                       (with_line (Fmt.times "=" 70) w))))) as (w' & Hw').
  rewrite Hw'. eexists; reflexivity.
Qed.

(** C8.  In every run of [main] that gets past the input check and
    whose output root is usable, the summary block runs on the manifest
    [process_directory] returned and never raises.  With at least one
    record it reports the builtin sum of the [duration] fields (shown
    in minutes) and that same sum divided by the number of records;
    with no record it prints the count only and divides by nothing. *)
Theorem C8_summary_reports_durations (base_dir : string) w :
  let input_dir := path_join base_dir "jamendo_tracks" in
  let output_dir := path_join (path_join base_dir "data") "processed" in
  path_exists input_dir = true ->
  output_root_usable output_dir ->
  exists w0 metadata w1 w2,
    banner w = (Ok tt, w0) /\
    process_directory (__init__ config) input_dir output_dir None w0
    = (Ok metadata, w1) /\
    summary metadata w1 = (Ok tt, w2) /\
    main base_dir w = save_config output_dir w2 /\
    let total_duration := py_sum (duration <$> metadata) in
    let heading :=
      [nl +:+ Fmt.times "=" 70; "PREPROCESSING COMPLETE"; Fmt.times "=" 70;
       "Total files: " +:+ Fmt.d (length metadata)] in
    (length metadata = 0%nat -> stdout w2 = stdout w1 ++ heading) /\
    ((0 < length metadata)%nat ->
     stdout w2
     = stdout w1 ++ heading ++
       ["Total duration: "
        +:+ format_2f (float_truediv total_duration 60) +:+ " minutes";
        "Average duration: "
        +:+ format_2f (float_truediv total_duration
                         (Z.of_nat (length metadata)))
        +:+ " seconds"]).
Proof.
  intros input_dir output_dir Hexists Huse.
  destruct (banner_returns w) as (w0 & Hbanner).
  destruct (process_directory_effect (__init__ config) input_dir output_dir
              None w0 Huse) as (w1' & Hrun & _).
  set (metadata := records_of (__init__ config) input_dir output_dir
                     (enumerate (selected input_dir None))) in *.
  set (w1 := closed output_dir metadata w1') in *.
  assert (exists w2,
             summary metadata w1 = (Ok tt, w2) /\
             let total_duration := py_sum (duration <$> metadata) in
             let heading :=
               [nl +:+ Fmt.times "=" 70; "PREPROCESSING COMPLETE";
                Fmt.times "=" 70;
                "Total files: " +:+ Fmt.d (length metadata)] in
             (length metadata = 0%nat -> stdout w2 = stdout w1 ++ heading) /\
             ((0 < length metadata)%nat ->
              stdout w2
              = stdout w1 ++ heading ++
                ["Total duration: "
                 +:+ format_2f (float_truediv total_duration 60)
                 +:+ " minutes";
                 "Average duration: "
                 +:+ format_2f (float_truediv total_duration
                                  (Z.of_nat (length metadata)))
                 +:+ " seconds"])) as (w2 & Hsum & Hlines).
  { clearbody metadata w1. unfold summary, bind, print, float_div, ret.
    destruct metadata as [|r rest].
    - eexists. split; [reflexivity|]. simpl. split; [|lia].
      intros _. rewrite <- !app_assoc. reflexivity.
    - destruct (Z.eqb_spec (Z.of_nat (length (r :: rest))) 0) as [Hz|_];
        [simpl in Hz; lia|].
      eexists. split; [reflexivity|]. split; [discriminate|].
      intros _. simpl. rewrite <- !app_assoc. reflexivity. }
  exists w0, metadata, w1, w2.
  split_and!; [exact Hbanner|exact Hrun|exact Hsum| |exact Hlines].
  unfold main. fold input_dir output_dir. rewrite Hexists. simpl.
  unfold bind at 1. rewrite Hbanner.
  unfold bind at 1. rewrite Hrun.
  unfold bind at 1. rewrite Hsum. reflexivity.
Qed.

End Claim8.

(** Two files of two seconds each: a total of 4 seconds, shown as 0
    minutes by the integer arithmetic of the small world, and an
    average of 2 seconds. *)
Lemma C8_summary_witness :
  let E := Toy.ext true ["a.mp3"; "b.mp3"] in
  path_exists (path_join "." "jamendo_tracks") = true /\
  output_root_usable (path_join (path_join "." "data") "processed") /\
  exists metadata w1 w2,
    summary metadata w1 = (Ok tt, w2) /\
    length metadata = 2%nat /\
    stdout w2
    = stdout w1 ++
      [nl +:+ Fmt.times "=" 70; "PREPROCESSING COMPLETE"; Fmt.times "=" 70;
       "Total files: 2"; "Total duration: 0 minutes";
       "Average duration: 2 seconds"].
Proof.
  intros E.
  assert (output_root_usable (path_join (path_join "." "data") "processed"))
    as Huse by (repeat split).
  split_and!; [reflexivity|exact Huse|].
  destruct (@C8_summary_reports_durations E "." blank eq_refl Huse)
    as (w0 & metadata & w1 & w2 & _ & Hrun & Hsum & _ & _ & Hpos).
  apply process_directory_returns in Hrun.
  assert (length metadata = 2%nat) as Hlen
    by (rewrite Hrun; vm_compute; reflexivity).
  exists metadata, w1, w2. split_and!; [exact Hsum|exact Hlen|].
  rewrite Hpos by (rewrite Hlen; lia). rewrite Hlen, Hrun. f_equal.
Defined.

Section Claim9.

Context `{E : Externals}.

Implicit Types (self : AudioPreprocessor.t) (w : World E).

(** C9.  [max_files=0] is falsy, so the slice is skipped: the loop
    runs over every discovered file, the run is the run without a cap,
    and every discovered file is handed to the decoder. *)
Theorem C9_cap_zero_is_no_cap self input_dir output_dir w :
  selected input_dir (Some 0%Z) = glob_mp3 input_dir /\
  process_directory self input_dir output_dir (Some 0%Z) w
  = process_directory self input_dir output_dir None w /\
  (output_root_usable output_dir ->
   exists metadata w',
     process_directory self input_dir output_dir (Some 0%Z) w
     = (Ok metadata, w') /\
     decoded w' = decoded w ++ (path_join input_dir <$> glob_mp3 input_dir)).
Proof.
  split_and!; [reflexivity|reflexivity|].
  intros Huse.
  destruct (process_directory_effect self input_dir output_dir (Some 0%Z)
              w Huse) as (w1 & Hrun & _ & Hdec & _).
  eexists _, _. split; [exact Hrun|].
  unfold closed, with_line, with_file; simpl. rewrite Hdec.
  unfold enumerate. rewrite (fmap_snd_enumerate_from (path_join input_dir)).
  reflexivity.
Qed.

End Claim9.

(** Three files and a cap of 0: all three are decoded. *)
Lemma C9_cap_zero_witness :
  let entries := ["a.mp3"; "b.mp3"; "c.mp3"] in
  let E := Toy.ext true entries in
  output_root_usable "out" /\
  exists metadata w',
    process_directory (__init__ config) "in" "out" (Some 0%Z) blank
    = (Ok metadata, w') /\
    decoded w' = ["in/a.mp3"; "in/b.mp3"; "in/c.mp3"].
Proof.
  intros entries E.
  assert (output_root_usable "out") as Huse by (repeat split).
  split; [exact Huse|].
  destruct (@C9_cap_zero_is_no_cap E (__init__ config) "in" "out" blank)
    as (_ & _ & Hall).
  destruct (Hall Huse) as (metadata & w' & Hrun & Hdec).
  exists metadata, w'. split; [exact Hrun|]. rewrite Hdec. reflexivity.
Defined.

(** ** The digits of [f"{idx:04d}"] *)

Lemma length_string_of_uint (u : uint) :
  String.length (NilEmpty.string_of_uint u) = nb_digits u.
Proof. induction u; simpl; congruence. Qed.

Lemma string_of_uint_zeros (k : nat) (u : uint) :
  NilEmpty.string_of_uint (Nat.iter k D0 u)
  = Fmt.times "0" k +:+ NilEmpty.string_of_uint u.
Proof.
  induction k as [|k IH]; [reflexivity|].
  change (Nat.iter (S k) D0 u) with (D0 (Nat.iter k D0 u)).
  cbn [NilEmpty.string_of_uint]. rewrite IH. reflexivity.
Qed.

Lemma length_times_zero (k : nat) : String.length (Fmt.times "0" k) = k.
Proof.
  induction k as [|k IH]; [reflexivity|].
  cbn [Fmt.times]. rewrite string_length_app, IH. reflexivity.
Qed.

(** [f"{n:04d}"] is [f"{n}"] with as many zeros in front as it takes to
    reach four characters. *)
Lemma d04_zeros (n : nat) :
  Fmt.d04 n = Fmt.times "0" (4 - String.length (Fmt.d n)) +:+ Fmt.d n.
Proof.
  unfold Fmt.d04, Fmt.digits04, Fmt.d. cbv zeta.
  rewrite string_of_uint_zeros, length_string_of_uint. reflexivity.
Qed.

Lemma length_d04 (n : nat) :
  String.length (Fmt.d04 n) = Nat.max 4 (String.length (Fmt.d n)).
Proof. rewrite d04_zeros, string_length_app, length_times_zero. lia. Qed.

(** The number a digit string denotes is at least its accumulator
    shifted by the number of digits. *)
Lemma of_uint_acc_lower (u : uint) (acc : nat) :
  (acc * 10 ^ nb_digits u <= Nat.of_uint_acc u acc)%nat.
Proof.
  revert acc. induction u; intros acc; cbn [nb_digits Nat.of_uint_acc];
    [rewrite Nat.pow_0_r; lia|..];
    (etrans; [|apply IHu]); rewrite Nat.tail_mul_spec, Nat.pow_succ_r'; nia.
Qed.

Lemma of_uint_acc_upper (u : uint) (acc : nat) :
  (Nat.of_uint_acc u acc < S acc * 10 ^ nb_digits u)%nat.
Proof.
  revert acc. induction u; intros acc; cbn [nb_digits Nat.of_uint_acc];
    [rewrite Nat.pow_0_r; lia|..];
    (eapply Nat.lt_le_trans; [apply IHu|]);
    rewrite Nat.tail_mul_spec, Nat.pow_succ_r'; nia.
Qed.

(** A digit string denotes a number below [10 ^ k], [k] its length. *)
Lemma of_uint_bound (u : uint) : (Nat.of_uint u < 10 ^ nb_digits u)%nat.
Proof.
  pose proof (of_uint_acc_upper u 0) as Hup. unfold Nat.of_uint. lia.
Qed.

Lemma nzhead_lower (u : uint) :
  nzhead u = Nil \/
  (10 ^ (nb_digits (nzhead u) - 1) <= Nat.of_uint (nzhead u))%nat.
Proof.
  induction u; [left; reflexivity|exact IHu|..]; right;
    cbn [nzhead nb_digits Nat.of_uint Nat.of_uint_acc];
    rewrite Nat.sub_succ, Nat.sub_0_r;
    (etrans; [|apply of_uint_acc_lower]); simpl Nat.tail_mul; lia.
Qed.

(** A number below [10 ^ k] is printed with at most [k] digits. *)
Lemma nb_digits_to_uint (n k : nat) :
  (n < 10 ^ S k)%nat -> (nb_digits (Nat.to_uint n) <= S k)%nat.
Proof.
  intros Hlt.
  pose proof (DecimalNat.Unsigned.to_of (Nat.to_uint n)) as Hnorm.
  rewrite DecimalNat.Unsigned.of_to in Hnorm.
  pose proof (DecimalNat.Unsigned.of_to n) as Hval.
  rewrite Hnorm in Hval |- *. unfold unorm in *.
  destruct (nzhead_lower (Nat.to_uint n)) as [Hnil|Hlow].
  - rewrite Hnil. simpl. lia.
  - assert (nzhead (Nat.to_uint n) = Nil \/
            Nat.of_uint (nzhead (Nat.to_uint n)) = n /\
            match nzhead (Nat.to_uint n) with
            | Nil => D0 Nil
            | u => u
            end = nzhead (Nat.to_uint n)) as [Hnil|[Hn Hsame]].
    { destruct (nzhead (Nat.to_uint n)); auto. }
    + rewrite Hnil. simpl. lia.
    + rewrite Hsame. rewrite Hn in Hlow.
      assert (10 ^ (nb_digits (nzhead (Nat.to_uint n)) - 1) < 10 ^ S k)%nat
        as Hpow by lia.
      apply Nat.pow_lt_mono_r_iff in Hpow; lia.
Qed.

Lemma length_d04_small (n : nat) :
  (n < 10 ^ 4)%nat -> String.length (Fmt.d04 n) = 4%nat.
Proof.
  intros Hlt. rewrite length_d04. unfold Fmt.d.
  rewrite length_string_of_uint.
  pose proof (nb_digits_to_uint n 3 Hlt). lia.
Qed.

Section Claim10.

Context `{E : Externals}.

Implicit Types (self : AudioPreprocessor.t) (w : World E).
Implicit Types (metadata : list (ManifestRecord E)).

(** C10.  In every record of every returned manifest, [audio_file] is
    the id zero-padded to four digits followed by [.wav] and [mel_file]
    is the same digits followed by [.npy].  The digits are the decimal
    writing of the id with as many zeros in front as it takes to reach
    four characters: exactly four characters for an id below 10000,
    and the unpadded decimal writing from there on.  Reading the digits
    of either name back as an int gives the id. *)
Theorem C10_file_names_carry_id
    self input_dir output_dir max_files w metadata w' :
  process_directory self input_dir output_dir max_files w = (Ok metadata, w') ->
  forall r,
    r ∈ metadata ->
    exists digits,
      audio_file r = digits +:+ ".wav" /\
      mel_file r = digits +:+ ".npy" /\
      digits
      = Fmt.times "0" (4 - String.length (Fmt.d (id r))) +:+ Fmt.d (id r) /\
      String.length digits = Nat.max 4 (String.length (Fmt.d (id r))) /\
      ((id r < 10 ^ 4)%nat -> String.length digits = 4%nat) /\
      ((10 ^ 4 <= id r)%nat -> digits = Fmt.d (id r)) /\
      Fmt.int digits = Some (id r) /\
      Fmt.int (Fmt.stem (audio_file r)) = Some (id r) /\
      Fmt.int (Fmt.stem (mel_file r)) = Some (id r).
Proof.
  intros Hrun r Hr.
  apply process_directory_returns in Hrun. rewrite Hrun in Hr.
  apply elem_of_records_of in Hr as (idx & name & _ & Hout).
  destruct (outcome_fields _ _ _ _ _ _ Hout) as (Hid & _ & Ha & Hm).
  subst idx. exists (Fmt.d04 (id r)).
  rewrite Ha, Hm, !stem_ext, int_d04 by reflexivity.
  split_and!; try reflexivity.
  - apply d04_zeros.
  - apply length_d04.
  - apply length_d04_small.
  - intros Hbig. rewrite d04_zeros.
    assert (4 <= String.length (Fmt.d (id r)))%nat as Hlen.
    { destruct (Nat.le_gt_cases 4 (String.length (Fmt.d (id r))))
        as [Hle|Hgt]; [exact Hle|].
      exfalso. unfold Fmt.d in Hgt. rewrite length_string_of_uint in Hgt.
      pose proof (of_uint_bound (Nat.to_uint (id r))) as Hup.
      rewrite DecimalNat.Unsigned.of_to in Hup.
      assert (10 ^ nb_digits (Nat.to_uint (id r)) <= 10 ^ 3)%nat
        by (apply Nat.pow_le_mono_r; lia).
      assert (10 ^ 3 < 10 ^ 4)%nat by (apply Nat.pow_lt_mono_r; lia).
      lia. }
    replace (4 - String.length (Fmt.d (id r)))%nat with 0%nat by lia.
    reflexivity.
Qed.

End Claim10.

(** Three files of which the second cannot be decoded: the two records
    name [0000] and [0002]. *)
Lemma C10_file_names_witness :
  let entries := ["a.mp3"; "corrupt.mp3"; "b.mp3"] in
  let metadata := Toy.returned entries None in
  Toy.run entries None = (Ok metadata, (Toy.run entries None).2) /\
  (forall r,
      r ∈ metadata ->
      exists digits,
        audio_file r = digits +:+ ".wav" /\
        mel_file r = digits +:+ ".npy" /\
        String.length digits = 4%nat /\
        Fmt.int digits = Some (id r)) /\
  (fun r => (id r, audio_file r, mel_file r)) <$> metadata
  = [(0%nat, "0000.wav", "0000.npy"); (2%nat, "0002.wav", "0002.npy")].
Proof.
  intros entries metadata.
  assert (Toy.run entries None = (Ok metadata, (Toy.run entries None).2))
    as Hrun by (apply run_returned; vm_compute; reflexivity).
  assert ((fun r => (id r, audio_file r, mel_file r)) <$> metadata
          = [(0%nat, "0000.wav", "0000.npy"); (2%nat, "0002.wav", "0002.npy")])
    as Hnames by (vm_compute; reflexivity).
  split_and!; [exact Hrun| |exact Hnames].
  intros r Hr.
  destruct (@C10_file_names_carry_id (Toy.ext true entries) _ _ _ _ _ _ _
              Hrun r Hr)
    as (digits & Ha & Hm & _ & _ & Hfour & _ & Hint & _).
  exists digits. split_and!; [exact Ha|exact Hm| |exact Hint].
  apply Hfour.
  assert (id r ∈ (fun r => id r) <$> metadata) as Hid
    by (apply list_elem_of_fmap; exists r; auto).
  replace ((fun r => id r) <$> metadata) with [0%nat; 2%nat] in Hid
    by (vm_compute; reflexivity).
  apply elem_of_cons in Hid as [->|Hid];
    [|apply elem_of_cons in Hid as [->|Hid]; [|inversion Hid]].
  - apply Nat.ltb_lt. vm_compute. reflexivity.
  - apply Nat.ltb_lt. vm_compute. reflexivity.
Defined.

(** * Further facts: paths and the files a run leaves *)

From stdpp Require Import sorting.

Lemma some_union {A} (x : A) (y : option A) : Some x ∪ y = Some x.
Proof. destruct y; reflexivity. Qed.

Lemma none_union {A} (y : option A) : None ∪ y = y.
Proof. destruct y; reflexivity. Qed.

Lemma string_app_cons (ch : Ascii.ascii) (a b : string) :
  String ch a +:+ b = String ch (a +:+ b).
Proof. reflexivity. Qed.

Lemma string_app_nil (b : string) : "" +:+ b = b.
Proof. reflexivity. Qed.

Ltac push_app H :=
  repeat (rewrite string_app_cons in H || rewrite string_app_nil in H).

Lemma string_app_assoc (a b c : string) :
  (a +:+ b) +:+ c = a +:+ (b +:+ c).
Proof.
  induction a as [|ch a IH]; [reflexivity|].
  rewrite !string_app_cons. f_equal. exact IH.
Qed.

Lemma string_app_inj_l (a b c : string) : a +:+ b = a +:+ c -> b = c.
Proof.
  induction a as [|ch a IH]; [auto|].
  rewrite !string_app_cons. intros Heq. apply IH. congruence.
Qed.

Lemma path_join_nested (root sub name : string) :
  path_join (path_join root sub) name
  = root +:+ ("/" +:+ sub +:+ "/" +:+ name).
Proof. unfold path_join. rewrite !string_app_assoc. reflexivity. Qed.

Lemma string_app_inj_r (a b ext : string) :
  String.length ext = 4%nat -> a +:+ ext = b +:+ ext -> a = b.
Proof.
  intros Hext Heq. apply (f_equal Fmt.stem) in Heq.
  rewrite !stem_ext in Heq by exact Hext. exact Heq.
Qed.

Lemma audio_path_inj (output_dir : string) (i j : nat) :
  audio_path output_dir i = audio_path output_dir j -> i = j.
Proof.
  unfold audio_path. rewrite !path_join_nested.
  intros Heq%string_app_inj_l. push_app Heq. injection Heq as Heq.
  apply d04_inj. eapply string_app_inj_r; [|exact Heq]. reflexivity.
Qed.

Lemma mel_path_inj (output_dir : string) (i j : nat) :
  mel_path output_dir i = mel_path output_dir j -> i = j.
Proof.
  unfold mel_path. rewrite !path_join_nested.
  intros Heq%string_app_inj_l. push_app Heq. injection Heq as Heq.
  apply d04_inj. eapply string_app_inj_r; [|exact Heq]. reflexivity.
Qed.

Lemma audio_path_not_mel_path (output_dir : string) (i j : nat) :
  audio_path output_dir i <> mel_path output_dir j.
Proof.
  unfold audio_path, mel_path. rewrite !path_join_nested.
  intros Heq%string_app_inj_l. push_app Heq. discriminate.
Qed.

Lemma top_level_not_audio_path (output_dir name : string) (i : nat) :
  (name = "metadata.json" \/ name = "config.json") ->
  path_join output_dir name <> audio_path output_dir i.
Proof.
  unfold audio_path. rewrite path_join_nested. unfold path_join.
  intros [-> | ->] Heq%string_app_inj_l; push_app Heq; discriminate.
Qed.

Lemma top_level_not_mel_path (output_dir name : string) (i : nat) :
  (name = "metadata.json" \/ name = "config.json") ->
  path_join output_dir name <> mel_path output_dir i.
Proof.
  unfold mel_path. rewrite path_join_nested. unfold path_join.
  intros [-> | ->] Heq%string_app_inj_l; push_app Heq; discriminate.
Qed.

Lemma path_join_inj (root a b : string) :
  path_join root a = path_join root b -> a = b.
Proof.
  unfold path_join. intros Heq%string_app_inj_l. push_app Heq. congruence.
Qed.

Lemma metadata_path_not_config_path (output_dir : string) :
  path_join output_dir "config.json" <> path_join output_dir "metadata.json".
Proof.
  unfold path_join. intros Heq%string_app_inj_l. push_app Heq. discriminate.
Qed.

Section Files.

Context `{E : Externals}.

Implicit Types (self : AudioPreprocessor.t) (w : World E).
Implicit Types (items : list (nat * string)).
Implicit Types (metadata : list (ManifestRecord E)).

Ltac run_body :=
  unfold iteration, try_except, try_body, extract_mel_spectrogram,
    load_audio, effect, lift, int_div, float_div, bind, ret, raise, print;
  simpl.

(** The files after the [try] block: the two artifacts of the index,
    as far as they were written, over the files there were. *)
Lemma try_body_files self input_dir output_dir idx name w path :
  files (try_body self input_dir (path_join output_dir "audio")
           (path_join output_dir "mels") idx name w).2 !! path
  = if decide (path = mel_path output_dir idx)
    then (Npy <$> written_mel self input_dir output_dir idx name)
         ∪ files w !! path
    else if decide (path = audio_path output_dir idx)
    then ((fun audio => Wav audio (AudioPreprocessor.sample_rate self))
            <$> written_waveform self input_dir output_dir idx name)
         ∪ files w !! path
    else files w !! path.
Proof.
  pose proof (audio_path_not_mel_path output_dir idx idx) as Hne.
  unfold written_mel, written_waveform, audio_path, mel_path in *.
  run_body.
  repeat case_match; simplify_eq/=;
    rewrite ?lookup_insert_eq; try reflexivity;
    rewrite ?lookup_insert_ne by congruence; try reflexivity.
  all: rewrite ?lookup_insert_eq; try reflexivity.
  all: try (rewrite lookup_insert_ne by (apply not_eq_sym, Hne));
    rewrite ?lookup_insert_eq.
  all: try (destruct (files w !! _); reflexivity).
Qed.

Lemma iteration_files self input_dir output_dir idx name metadata w :
  files (iteration self input_dir (path_join output_dir "audio")
           (path_join output_dir "mels") idx name metadata w).2
  = files (try_body self input_dir (path_join output_dir "audio")
             (path_join output_dir "mels") idx name w).2.
Proof.
  unfold iteration, try_except, bind, ret, print.
  destruct (try_body _ _ _ _ _ _ w) as [[r|e] w1]; reflexivity.
Qed.

(** The world the loop ends in. *)
Lemma for_each_cons self input_dir output_dir idx name rest metadata w :
  exists metadata',
    (for_each self input_dir (path_join output_dir "audio")
       (path_join output_dir "mels") ((idx, name) :: rest) metadata w).2
    = (for_each self input_dir (path_join output_dir "audio")
         (path_join output_dir "mels") rest metadata'
         (iteration self input_dir (path_join output_dir "audio")
            (path_join output_dir "mels") idx name metadata w).2).2.
Proof.
  destruct (iteration_effect self input_dir output_dir idx name metadata w)
    as (w1 & Hrun & _).
  eexists. cbn [for_each]. unfold bind. rewrite Hrun. reflexivity.
Qed.

(** The loop writes to the artifact paths of its own indices only. *)
Lemma for_each_files_frame self input_dir output_dir items metadata w path :
  (forall idx name,
      (idx, name) ∈ items ->
      path <> audio_path output_dir idx /\ path <> mel_path output_dir idx) ->
  files (for_each self input_dir (path_join output_dir "audio")
           (path_join output_dir "mels") items metadata w).2 !! path
  = files w !! path.
Proof.
  revert metadata w.
  induction items as [|[idx name] rest IH]; intros metadata w Hout;
    [reflexivity|].
  destruct (for_each_cons self input_dir output_dir idx name rest metadata w)
    as (metadata' & ->).
  rewrite IH
    by (intros idx' name' Hin'; apply (Hout idx' name'), elem_of_cons; auto).
  rewrite iteration_files, try_body_files.
  destruct (Hout idx name) as [Ha Hm]; [apply list_elem_of_here|].
  rewrite !decide_False by assumption. reflexivity.
Qed.

(** With distinct indices, each artifact path holds what its own pass
    through the loop wrote, or what it held before. *)
Lemma for_each_files_at self input_dir output_dir items metadata w idx name :
  NoDup items.*1 ->
  (idx, name) ∈ items ->
  let w' := (for_each self input_dir (path_join output_dir "audio")
               (path_join output_dir "mels") items metadata w).2 in
  files w' !! audio_path output_dir idx
  = ((fun audio => Wav audio (AudioPreprocessor.sample_rate self))
       <$> written_waveform self input_dir output_dir idx name)
    ∪ files w !! audio_path output_dir idx /\
  files w' !! mel_path output_dir idx
  = (Npy <$> written_mel self input_dir output_dir idx name)
    ∪ files w !! mel_path output_dir idx.
Proof.
  revert metadata w.
  induction items as [|[idx0 name0] rest IH]; intros metadata w Hnd Hin;
    [inversion Hin|].
  rewrite fmap_cons in Hnd. apply NoDup_cons in Hnd as [Hfresh Hnd].
  cbv zeta.
  destruct (for_each_cons self input_dir output_dir idx0 name0 rest metadata w)
    as (metadata' & ->).
  apply elem_of_cons in Hin as [Heq|Hin].
  - injection Heq as <- <-.
    rewrite !for_each_files_frame.
    + rewrite iteration_files, !try_body_files.
      rewrite decide_False by apply audio_path_not_mel_path.
      rewrite !decide_True by reflexivity. split; reflexivity.
    + intros idx' name' Hin'. split.
      * apply not_eq_sym, audio_path_not_mel_path.
      * intros Heq%mel_path_inj. subst idx'. apply Hfresh.
        apply list_elem_of_fmap. exists (idx, name'). auto.
    + intros idx' name' Hin'. split.
      * intros Heq%audio_path_inj. subst idx'. apply Hfresh.
        apply list_elem_of_fmap. exists (idx, name'). auto.
      * apply audio_path_not_mel_path.
  - assert (idx <> idx0) as Hne.
    { intros ->. apply Hfresh. apply list_elem_of_fmap.
      exists (idx0, name). auto. }
    destruct (IH metadata'
                (iteration self input_dir (path_join output_dir "audio")
                   (path_join output_dir "mels") idx0 name0 metadata w).2
                Hnd Hin) as [Ha Hm].
    rewrite Ha, Hm, iteration_files, !try_body_files.
    rewrite (decide_False (P := audio_path output_dir idx
                                = mel_path output_dir idx0))
      by apply audio_path_not_mel_path.
    rewrite (decide_False (P := audio_path output_dir idx
                                = audio_path output_dir idx0))
      by (intros Heq%audio_path_inj; contradiction).
    rewrite (decide_False (P := mel_path output_dir idx
                                = mel_path output_dir idx0))
      by (intros Heq%mel_path_inj; contradiction).
    rewrite (decide_False (P := mel_path output_dir idx
                                = audio_path output_dir idx0))
      by apply not_eq_sym, audio_path_not_mel_path.
    split; reflexivity.
Qed.

Lemma fmap_fst_enumerate_from {A} (start : nat) (xs : list A) :
  (enumerate_from start xs).*1 = seq start (length xs).
Proof.
  revert start. induction xs as [|x xs IH]; intros start; [reflexivity|].
  cbn [enumerate_from length seq]. rewrite fmap_cons, IH. reflexivity.
Qed.

Lemma NoDup_enumerate {A} (xs : list A) : NoDup (enumerate xs).*1.
Proof. unfold enumerate. rewrite fmap_fst_enumerate_from. apply NoDup_seq. Qed.

(** [process_directory], step by step: the two directories, the loop,
    the manifest. *)
Lemma process_directory_cases self input_dir output_dir max_files w :
  process_directory self input_dir output_dir max_files w
  = match mkdir (path_join output_dir "audio") with
    | Some e => (Raise e, w)
    | None =>
        match mkdir (path_join output_dir "mels") with
        | Some e => (Raise e, with_dir (path_join output_dir "audio") w)
        | None =>
            let metadata :=
              records_of self input_dir output_dir
                (enumerate (selected input_dir max_files)) in
            let w1 := loop_world self input_dir output_dir max_files w in
            match json_dump (path_join output_dir "metadata.json") with
            | Some e => (Raise e, w1)
            | None => (Ok metadata, closed output_dir metadata w1)
            end
        end
    end.
Proof.
  unfold process_directory, bind, effect, print, ret, loop_world.
  destruct (mkdir (path_join output_dir "audio")); [reflexivity|].
  destruct (mkdir (path_join output_dir "mels")); [reflexivity|].
  fold (selected input_dir max_files).
  destruct (for_each_effect self input_dir output_dir
              (enumerate (selected input_dir max_files)) []
              (opened output_dir (length (selected input_dir max_files)) w))
    as (w1 & Hrun & _).
  unfold opened in *. rewrite Hrun. simpl.
  destruct (json_dump _); reflexivity.
Qed.

Lemma loop_world_effect self input_dir output_dir max_files w :
  loop_effect self input_dir output_dir
    (enumerate (selected input_dir max_files))
    (opened output_dir (length (selected input_dir max_files)) w)
    (loop_world self input_dir output_dir max_files w).
Proof.
  unfold loop_world.
  destruct (for_each_effect self input_dir output_dir
              (enumerate (selected input_dir max_files)) []
              (opened output_dir (length (selected input_dir max_files)) w))
    as (w1 & Hrun & Heff).
  rewrite Hrun. exact Heff.
Qed.

(** A returned run ends in the closed loop world. *)
Lemma process_directory_world self input_dir output_dir max_files w
    metadata w' :
  process_directory self input_dir output_dir max_files w = (Ok metadata, w') ->
  w' = closed output_dir metadata
         (loop_world self input_dir output_dir max_files w).
Proof.
  rewrite process_directory_cases. cbv zeta.
  repeat case_match; intros Heq; simplify_eq. reflexivity.
Qed.

(** What a record says about the file it came from. *)
Lemma outcome_artifacts self input_dir output_dir idx name r :
  outcome self input_dir output_dir idx name = Ok r ->
  exists audio mel,
    written_waveform self input_dir output_dir idx name = Some audio /\
    written_mel self input_dir output_dir idx name = Some mel /\
    audio_length r = len audio /\
    mel_shape r = shape mel /\
    AudioPreprocessor.sample_rate self <> 0%Z /\
    duration r
    = int_truediv (audio_length r) (AudioPreprocessor.sample_rate self).
Proof.
  unfold outcome, written_mel, written_waveform, audio_path, mel_path.
  run_body. repeat case_match; intros Heq; simplify_eq/=.
  eexists _, _. split_and!; try reflexivity. lia.
Qed.

End Files.

(** * Further properties of [process_directory] and [main] *)

Section Extra1.

Context `{E : Externals}.

Implicit Types (self : AudioPreprocessor.t) (w : World E).

(** X1.  When creating [audio/] or [mels/] raises, [process_directory]
    raises that exception before it looks at the input: nothing is
    decoded, no file is written and nothing is printed. *)
Theorem X1_output_directory_failure_aborts
    self input_dir output_dir max_files w e :
  mkdir (path_join output_dir "audio") = Some e \/
  (mkdir (path_join output_dir "audio") = None /\
   mkdir (path_join output_dir "mels") = Some e) ->
  exists w',
    process_directory self input_dir output_dir max_files w = (Raise e, w') /\
    files w' = files w /\ stdout w' = stdout w /\ decoded w' = decoded w.
Proof.
  rewrite process_directory_cases.
  intros [Ha|[Ha Hm]]; rewrite Ha; [|rewrite Hm];
    eexists; split_and!; reflexivity.
Qed.

End Extra1.

Lemma X1_output_directory_failure_witness :
  let E := Faulty.ext true ["a.mp3"] ["out/mels"] in
  (mkdir (path_join "out" "audio") = Some (Exception "cannot write out/mels") \/
   (mkdir (path_join "out" "audio") = None /\
    mkdir (path_join "out" "mels")
    = Some (Exception "cannot write out/mels"))) /\
  exists w',
    process_directory (__init__ config) "in" "out" None blank
    = (Raise (Exception "cannot write out/mels"), w') /\
    files w' = files blank /\ stdout w' = stdout blank /\
    decoded w' = decoded blank.
Proof.
  intros E.
  assert (mkdir (path_join "out" "audio")
          = Some (Exception "cannot write out/mels") \/
          (mkdir (path_join "out" "audio") = None /\
           mkdir (path_join "out" "mels")
           = Some (Exception "cannot write out/mels"))) as Hfail.
  { right. split; reflexivity. }
  split; [exact Hfail|].
  exact (@X1_output_directory_failure_aborts E (__init__ config) "in" "out"
           None blank _ Hfail).
Defined.

Section Extra2.

Context `{E : Externals}.

Implicit Types (self : AudioPreprocessor.t) (w : World E).

(** X2.  When both directories can be made but writing
    [metadata.json] raises, [process_directory] raises that exception
    only after the whole loop has run: every selected file has been
    decoded, both artifacts of every file that succeeded are on disk
    and hold what was written, the error lines are printed, and none of
    the closing lines is printed.  Nothing is said of [metadata.json]
    itself, which the failed write may have created or emptied. *)
Theorem X2_manifest_failure_keeps_artifacts
    self input_dir output_dir max_files w e :
  mkdir (path_join output_dir "audio") = None ->
  mkdir (path_join output_dir "mels") = None ->
  json_dump (path_join output_dir "metadata.json") = Some e ->
  let audio_files := selected input_dir max_files in
  exists w',
    process_directory self input_dir output_dir max_files w = (Raise e, w') /\
    decoded w' = decoded w ++ (path_join input_dir <$> audio_files) /\
    stdout w'
    = stdout w ++ announcement (length audio_files)
      :: errors_of self input_dir output_dir (enumerate audio_files) /\
    (forall idx name r,
        audio_files !! idx = Some name ->
        outcome self input_dir output_dir idx name = Ok r ->
        exists audio mel,
          files w' !! audio_path output_dir idx
          = Some (Wav audio (AudioPreprocessor.sample_rate self)) /\
          files w' !! mel_path output_dir idx = Some (Npy mel) /\
          len audio = audio_length r /\ shape mel = mel_shape r).
Proof.
  intros Ha Hm Hj audio_files.
  rewrite process_directory_cases, Ha, Hm, Hj. cbv zeta.
  eexists. split; [reflexivity|].
  destruct (loop_world_effect self input_dir output_dir max_files w)
    as (Hstd & Hdec & _).
  fold audio_files in Hstd, Hdec.
  split_and!.
  - rewrite Hdec. unfold enumerate.
    rewrite (fmap_snd_enumerate_from (path_join input_dir)). reflexivity.
  - rewrite Hstd. unfold opened, with_line, announcement; simpl.
    rewrite <- app_assoc. reflexivity.
  - intros idx name r Hsel Hout.
    destruct (outcome_artifacts _ _ _ _ _ _ Hout)
      as (audio & mel & Hwav & Hmel & Hlen & Hshape & _).
    destruct (for_each_files_at self input_dir output_dir
                (enumerate audio_files) []
                (opened output_dir (length audio_files) w)
                idx name (NoDup_enumerate _)) as [Hfa Hfm];
      [apply elem_of_enumerate, Hsel|].
    rewrite Hwav in Hfa. rewrite Hmel in Hfm.
    exists audio, mel. unfold loop_world. fold audio_files.
    split_and!; auto.
    + rewrite Hfa. exact (some_union _ _).
    + rewrite Hfm. exact (some_union _ _).
Qed.

End Extra2.

(** [a.mp3] is processed and [corrupt.mp3] fails before the manifest
    cannot be written: the two artifacts of position 0 are there. *)
Lemma X2_manifest_failure_witness :
  let E := Faulty.ext true ["a.mp3"; "corrupt.mp3"] ["out/metadata.json"] in
  let e := Exception "cannot write out/metadata.json" in
  mkdir (path_join "out" "audio") = None /\
  mkdir (path_join "out" "mels") = None /\
  json_dump (path_join "out" "metadata.json") = Some e /\
  exists w',
    process_directory (__init__ config) "in" "out" None blank = (Raise e, w') /\
    decoded w' = ["in/a.mp3"; "in/corrupt.mp3"] /\
    stdout w'
    = ["Processing 2 audio files...";
       nl +:+ "Error processing corrupt.mp3: could not decode"] /\
    files w' !! "out/audio/0000.wav" = Some (@Wav E 44100%Z 22050%Z) /\
    files w' !! "out/mels/0000.npy" = Some (@Npy E (80, 173)%Z).
Proof.
  intros E e.
  split_and!; [reflexivity|reflexivity|reflexivity|].
  destruct (@X2_manifest_failure_keeps_artifacts E (__init__ config) "in" "out"
              None blank e eq_refl eq_refl eq_refl)
    as (w' & Hrun & Hdec & Hstd & Hboth).
  exists w'. split_and!; [exact Hrun|exact Hdec|exact Hstd| |].
  - destruct (Hboth 0%nat "a.mp3" _ eq_refl eq_refl)
      as (audio & mel & Hfa & _ & Hlen & _).
    simpl in Hlen. subst audio. exact Hfa.
  - destruct (Hboth 0%nat "a.mp3" _ eq_refl eq_refl)
      as (audio & mel & _ & Hfm & _ & Hshape).
    simpl in Hshape. subst mel. exact Hfm.
Defined.

Section Extra3.

Context `{E : Externals}.

Implicit Types (self : AudioPreprocessor.t) (w : World E).
Implicit Types (metadata : list (ManifestRecord E)).

(** X3.  After a run that returns, every record agrees with the files
    it names: [audio/<NNNN>.wav] holds a waveform of [audio_length]
    samples written at the configured sample rate, [mels/<NNNN>.npy]
    holds a matrix of shape [mel_shape], and [duration] is
    [audio_length / sample_rate] for a non-zero sample rate. *)
Theorem X3_records_match_artifacts
    self input_dir output_dir max_files w metadata w' :
  process_directory self input_dir output_dir max_files w = (Ok metadata, w') ->
  forall r,
    r ∈ metadata ->
    exists audio mel,
      files w' !! path_join (path_join output_dir "audio") (audio_file r)
      = Some (Wav audio (AudioPreprocessor.sample_rate self)) /\
      files w' !! path_join (path_join output_dir "mels") (mel_file r)
      = Some (Npy mel) /\
      len audio = audio_length r /\
      shape mel = mel_shape r /\
      AudioPreprocessor.sample_rate self <> 0%Z /\
      duration r
      = int_truediv (audio_length r) (AudioPreprocessor.sample_rate self).
Proof.
  intros Hrun r Hr.
  pose proof (process_directory_returns _ _ _ _ _ _ _ Hrun) as Hmd.
  apply process_directory_world in Hrun. subst w'.
  rewrite Hmd in Hr.
  apply elem_of_records_of in Hr as (idx & name & Hin & Hout).
  destruct (outcome_fields _ _ _ _ _ _ Hout) as (_ & _ & -> & ->).
  destruct (outcome_artifacts _ _ _ _ _ _ Hout)
    as (audio & mel & Hwav & Hmel & Hlen & Hshape & Hsr & Hdur).
  destruct (for_each_files_at self input_dir output_dir
              (enumerate (selected input_dir max_files)) []
              (opened output_dir (length (selected input_dir max_files)) w)
              idx name (NoDup_enumerate _) Hin) as [Ha Hm].
  rewrite Hwav in Ha. rewrite Hmel in Hm.
  exists audio, mel. split_and!; auto.
  - unfold closed, with_line, with_file; simpl.
    rewrite lookup_insert_ne
      by (apply (top_level_not_audio_path output_dir _ idx); auto).
    unfold loop_world. fold (audio_path output_dir idx). rewrite Ha.
    exact (some_union _ _).
  - unfold closed, with_line, with_file; simpl.
    rewrite lookup_insert_ne
      by (apply (top_level_not_mel_path output_dir _ idx); auto).
    unfold loop_world. fold (mel_path output_dir idx). rewrite Hm.
    exact (some_union _ _).
Qed.

End Extra3.

Lemma X3_records_match_artifacts_witness :
  let entries := ["a.mp3"; "silent.mp3"; "b.mp3"] in
  let metadata := Toy.returned entries None in
  let w' := (Toy.run entries None).2 in
  Toy.run entries None = (Ok metadata, w') /\
  forall r,
    r ∈ metadata ->
    exists audio mel,
      files w' !! path_join (path_join "out" "audio") (audio_file r)
      = Some (Wav audio 22050) /\
      files w' !! path_join (path_join "out" "mels") (mel_file r)
      = Some (Npy mel) /\
      audio = audio_length r /\
      mel = mel_shape r /\
      22050%Z <> 0%Z /\
      duration r = (audio_length r / 22050)%Z.
Proof.
  intros entries metadata w'.
  assert (Toy.run entries None = (Ok metadata, w')) as Hrun
    by (apply run_returned; vm_compute; reflexivity).
  split; [exact Hrun|].
  exact (@X3_records_match_artifacts (Toy.ext true entries)
           _ _ _ _ _ _ _ Hrun).
Defined.

Section Extra4.

Context `{E : Externals}.

Implicit Types (self : AudioPreprocessor.t) (w : World E).
Implicit Types (metadata : list (ManifestRecord E)).

(** X4.  After a run that returns, for every selected position: the
    waveform path holds the waveform when decoding and [sf.write]
    succeeded, and the spectrogram path holds the spectrogram when
    [np.save] succeeded; a file that cannot be decoded leaves both its
    paths as they were before the run, and a file that fails before
    [np.save] is called leaves its spectrogram path as it was.  Nothing
    is said of a path whose own write raised. *)
Theorem X4_artifacts_of_each_position
    self input_dir output_dir max_files w metadata w' :
  process_directory self input_dir output_dir max_files w = (Ok metadata, w') ->
  forall idx name,
    selected input_dir max_files !! idx = Some name ->
    (forall audio,
        written_waveform self input_dir output_dir idx name = Some audio ->
        files w' !! audio_path output_dir idx
        = Some (Wav audio (AudioPreprocessor.sample_rate self))) /\
    (forall mel,
        written_mel self input_dir output_dir idx name = Some mel ->
        files w' !! mel_path output_dir idx = Some (Npy mel)) /\
    (is_ok (librosa_load (path_join input_dir name)
              (AudioPreprocessor.sample_rate self)) = false ->
     files w' !! audio_path output_dir idx
     = files w !! audio_path output_dir idx /\
     files w' !! mel_path output_dir idx
     = files w !! mel_path output_dir idx) /\
    (computed_mel self input_dir output_dir idx name = None ->
     files w' !! mel_path output_dir idx
     = files w !! mel_path output_dir idx).
Proof.
  intros Hrun idx name Hsel.
  apply process_directory_world in Hrun. subst w'.
  destruct (for_each_files_at self input_dir output_dir
              (enumerate (selected input_dir max_files)) []
              (opened output_dir (length (selected input_dir max_files)) w)
              idx name (NoDup_enumerate _)) as [Ha Hm];
    [apply elem_of_enumerate, Hsel|].
  assert (files (closed output_dir metadata
                   (loop_world self input_dir output_dir max_files w))
            !! audio_path output_dir idx
          = ((fun audio => Wav audio (AudioPreprocessor.sample_rate self))
               <$> written_waveform self input_dir output_dir idx name)
            ∪ files w !! audio_path output_dir idx) as Ha'.
  { unfold closed, with_line, with_file; simpl.
    rewrite lookup_insert_ne
      by (apply (top_level_not_audio_path output_dir _ idx); auto).
    exact Ha. }
  assert (files (closed output_dir metadata
                   (loop_world self input_dir output_dir max_files w))
            !! mel_path output_dir idx
          = (Npy <$> written_mel self input_dir output_dir idx name)
            ∪ files w !! mel_path output_dir idx) as Hm'.
  { unfold closed, with_line, with_file; simpl.
    rewrite lookup_insert_ne
      by (apply (top_level_not_mel_path output_dir _ idx); auto).
    exact Hm. }
  clear Ha Hm. split_and!.
  - intros audio Hwav. rewrite Ha', Hwav. exact (some_union _ _).
  - intros mel Hmel. rewrite Hm', Hmel. exact (some_union _ _).
  - intros Hload. rewrite Ha', Hm'.
    unfold written_mel, written_waveform.
    destruct (librosa_load _ _); [discriminate|].
    split; exact (none_union _).
  - intros Hnone. rewrite Hm'. revert Hnone.
    unfold computed_mel, written_mel.
    repeat case_match; intros Heq; simplify_eq; exact (none_union _).
Qed.

End Extra4.

(** [corrupt.mp3] at position 1 leaves neither artifact;
    [silent.mp3] at position 2 leaves its waveform only. *)
Lemma X4_artifacts_of_each_position_witness :
  let entries := ["a.mp3"; "corrupt.mp3"; "silent.mp3"] in
  let w' := (Toy.run entries None).2 in
  Toy.run entries None = (Ok (Toy.returned entries None), w') /\
  files w' !! audio_path "out" 0
  = Some (@Wav (Toy.ext true entries) 44100%Z 22050%Z) /\
  files w' !! mel_path "out" 0
  = Some (@Npy (Toy.ext true entries) (80, 173)%Z) /\
  files w' !! audio_path "out" 1 = None /\
  files w' !! mel_path "out" 1 = None /\
  files w' !! audio_path "out" 2
  = Some (@Wav (Toy.ext true entries) 0%Z 22050%Z) /\
  files w' !! mel_path "out" 2 = None.
Proof.
  intros entries w'.
  assert (Toy.run entries None = (Ok (Toy.returned entries None), w')) as Hrun
    by (apply run_returned; vm_compute; reflexivity).
  split; [exact Hrun|].
  pose proof (@X4_artifacts_of_each_position (Toy.ext true entries)
                _ _ _ _ _ _ _ Hrun) as Hpos.
  destruct (Hpos 0%nat "a.mp3" eq_refl) as (Ha0 & Hm0 & _ & _).
  destruct (Hpos 1%nat "corrupt.mp3" eq_refl) as (_ & _ & Hboth1 & _).
  destruct (Hpos 2%nat "silent.mp3" eq_refl) as (Ha2 & _ & _ & Hm2).
  destruct (Hboth1 eq_refl) as [Ha1 Hm1].
  split_and!.
  - exact (Ha0 _ eq_refl).
  - exact (Hm0 _ eq_refl).
  - rewrite Ha1. reflexivity.
  - rewrite Hm1. reflexivity.
  - exact (Ha2 _ eq_refl).
  - rewrite (Hm2 eq_refl). reflexivity.
Defined.

Section Extra5.

Context `{E : Externals}.

Implicit Types (self : AudioPreprocessor.t) (w : World E).
Implicit Types (metadata : list (ManifestRecord E)).

(** X5.  A run that returns touches no other file: apart from
    [metadata.json] and the artifact paths of the selected positions,
    every path holds after the run what it held before. *)
Theorem X5_other_files_untouched
    self input_dir output_dir max_files w metadata w' :
  process_directory self input_dir output_dir max_files w = (Ok metadata, w') ->
  forall path,
    path <> path_join output_dir "metadata.json" ->
    (forall idx,
        (idx < length (selected input_dir max_files))%nat ->
        path <> audio_path output_dir idx /\
        path <> mel_path output_dir idx) ->
    files w' !! path = files w !! path.
Proof.
  intros Hrun path Hmeta Hart.
  apply process_directory_world in Hrun. subst w'.
  unfold closed, with_line, with_file; simpl.
  rewrite lookup_insert_ne by (apply not_eq_sym, Hmeta).
  unfold loop_world. rewrite for_each_files_frame; [reflexivity|].
  intros idx name Hin%elem_of_enumerate. apply Hart.
  eapply lookup_lt_Some, Hin.
Qed.

End Extra5.

Lemma X5_other_files_untouched_witness :
  let entries := ["a.mp3"; "b.mp3"] in
  let w' := (Toy.run entries None).2 in
  Toy.run entries None = (Ok (Toy.returned entries None), w') /\
  files w' !! audio_path "out" 2 = None /\
  files w' !! "in/a.mp3" = None.
Proof.
  intros entries w'.
  assert (Toy.run entries None = (Ok (Toy.returned entries None), w')) as Hrun
    by (apply run_returned; vm_compute; reflexivity).
  split; [exact Hrun|].
  pose proof (@X5_other_files_untouched (Toy.ext true entries)
                _ _ _ _ _ _ _ Hrun) as Hrest.
  split.
  - rewrite Hrest; [reflexivity|discriminate|].
    intros idx Hlt. split.
    + intros Heq%audio_path_inj. subst idx. vm_compute in Hlt. lia.
    + apply audio_path_not_mel_path.
  - rewrite Hrest; [reflexivity|discriminate|].
    intros idx _. split; discriminate.
Defined.

Section Extra6.

Context `{E : Externals}.

Implicit Types (self : AudioPreprocessor.t) (w : World E).
Implicit Types (metadata : list (ManifestRecord E)).

Lemma positions_of_filtered (P : nat * string -> Prop)
    `{forall item, Decision (P item)} (start : nat) (xs : list string) :
  StronglySorted lt (filter P (enumerate_from start xs)).*1.
Proof.
  revert start. induction xs as [|x xs IH]; intros start;
    [constructor|].
  cbn [enumerate_from]. rewrite filter_cons.
  destruct (decide (P (start, x))); [|apply IH].
  rewrite fmap_cons. constructor; [apply IH|].
  apply Forall_forall. intros i Hi.
  apply list_elem_of_fmap in Hi as ([i' name] & -> & Hin).
  apply list_elem_of_filter in Hin as [_ Hin].
  apply elem_of_enumerate_from in Hin as (k & -> & _). simpl. lia.
Qed.

Lemma strongly_sorted_lookup {A} (R : relation A) (l : list A) i j x y :
  StronglySorted R l ->
  l !! i = Some x -> l !! j = Some y -> (i < j)%nat -> R x y.
Proof.
  intros Hs. revert i j. induction Hs as [|a l Hs IH Hall]; intros i j Hi Hj Hlt.
  - discriminate.
  - destruct j as [|j]; [lia|]. destruct i as [|i]; simpl in Hi, Hj.
    + injection Hi as <-. eapply Forall_forall in Hall; [exact Hall|].
      eapply list_elem_of_lookup_2, Hj.
    + apply (IH i j); [exact Hi|exact Hj|lia].
Qed.

(** X6.  The records of a returned manifest are in discovery order:
    their ids increase strictly along the manifest and stay below the
    number of selected files, so no two records share an id or a file
    name. *)
Theorem X6_ids_increase_along_manifest
    self input_dir output_dir max_files w metadata w' :
  process_directory self input_dir output_dir max_files w = (Ok metadata, w') ->
  (forall i j ri rj,
      metadata !! i = Some ri -> metadata !! j = Some rj ->
      (i < j)%nat -> (id ri < id rj)%nat) /\
  (forall r,
      r ∈ metadata -> (id r < length (selected input_dir max_files))%nat) /\
  (forall i j ri rj,
      metadata !! i = Some ri -> metadata !! j = Some rj ->
      audio_file ri = audio_file rj \/ mel_file ri = mel_file rj -> i = j).
Proof.
  intros Hrun. apply process_directory_returns in Hrun.
  assert (forall i j ri rj,
             metadata !! i = Some ri -> metadata !! j = Some rj ->
             (i < j)%nat -> (id ri < id rj)%nat) as Hinc.
  { intros i j ri rj Hi Hj Hlt.
    apply (strongly_sorted_lookup lt (id <$> metadata) i j).
    - rewrite Hrun, id_records_of. apply positions_of_filtered.
    - rewrite list_lookup_fmap, Hi. reflexivity.
    - rewrite list_lookup_fmap, Hj. reflexivity.
    - exact Hlt. }
  assert (forall r, r ∈ metadata ->
                    audio_file r = Fmt.d04 (id r) +:+ ".wav" /\
                    mel_file r = Fmt.d04 (id r) +:+ ".npy") as Hnames.
  { intros r Hr. rewrite Hrun in Hr.
    apply elem_of_records_of in Hr as (idx & name & _ & Hout).
    destruct (outcome_fields _ _ _ _ _ _ Hout) as (-> & _ & Ha & Hm). auto. }
  split_and!.
  - exact Hinc.
  - intros r Hr. rewrite Hrun in Hr.
    apply elem_of_records_of in Hr as (idx & name & Hin & Hout).
    destruct (outcome_fields _ _ _ _ _ _ Hout) as (-> & _).
    apply elem_of_enumerate in Hin. eapply lookup_lt_Some, Hin.
  - intros i j ri rj Hi Hj Hsame.
    assert (id ri = id rj) as Hid.
    { destruct (Hnames ri) as [Hai Hmi]; [eapply list_elem_of_lookup_2, Hi|].
      destruct (Hnames rj) as [Haj Hmj]; [eapply list_elem_of_lookup_2, Hj|].
      rewrite Hai, Haj, Hmi, Hmj in Hsame. apply d04_inj.
      destruct Hsame as [Heq|Heq];
        (eapply string_app_inj_r; [|exact Heq]); reflexivity. }
    destruct (Nat.lt_trichotomy i j) as [Hlt|[Heq|Hgt]]; [|exact Heq|].
    + pose proof (Hinc i j ri rj Hi Hj Hlt). lia.
    + pose proof (Hinc j i rj ri Hj Hi Hgt). lia.
Qed.

End Extra6.

Lemma X6_ids_increase_witness :
  let entries := ["a.mp3"; "corrupt.mp3"; "b.mp3"] in
  let metadata := Toy.returned entries None in
  Toy.run entries None = (Ok metadata, (Toy.run entries None).2) /\
  (forall i j ri rj,
      metadata !! i = Some ri -> metadata !! j = Some rj ->
      (i < j)%nat -> (id ri < id rj)%nat) /\
  (forall r, r ∈ metadata -> (id r < 3)%nat).
Proof.
  intros entries metadata.
  assert (Toy.run entries None = (Ok metadata, (Toy.run entries None).2))
    as Hrun by (apply run_returned; vm_compute; reflexivity).
  split; [exact Hrun|].
  destruct (@X6_ids_increase_along_manifest (Toy.ext true entries)
              _ _ _ _ _ _ _ Hrun) as (Hinc & Hbound & _).
  split; [exact Hinc|exact Hbound].
Defined.

Section Extra7.

Context `{E : Externals}.

Implicit Types (self : AudioPreprocessor.t) (w : World E).
Implicit Types (metadata : list (ManifestRecord E)).

Lemma records_and_errors_count self input_dir output_dir
    (items : list (nat * string)) :
  (length (records_of self input_dir output_dir items)
   + length (errors_of self input_dir output_dir items))%nat
  = length items.
Proof.
  unfold records_of, errors_of.
  induction items as [|item rest IH]; [reflexivity|].
  cbn [omap list_omap length].
  destruct (outcome _ _ _ _ _); cbn [length]; lia.
Qed.

(** X7.  What a returned run prints, in full: the announcement with
    the number of selected files, one error line for each file that
    failed, in loop order, and the four closing lines with the number
    of records.  Every selected file is accounted for once: the records
    and the error lines together are as many as the selected files. *)
Theorem X7_output_accounts_for_every_file
    self input_dir output_dir max_files w metadata w' :
  process_directory self input_dir output_dir max_files w = (Ok metadata, w') ->
  let audio_files := selected input_dir max_files in
  let errors := errors_of self input_dir output_dir (enumerate audio_files) in
  stdout w'
  = stdout w ++ announcement (length audio_files) :: errors
    ++ closing_lines output_dir (length metadata) /\
  (length metadata + length errors)%nat = length audio_files.
Proof.
  intros Hrun audio_files errors.
  pose proof (process_directory_returns _ _ _ _ _ _ _ Hrun) as Hmd.
  apply process_directory_world in Hrun. subst w'.
  destruct (loop_world_effect self input_dir output_dir max_files w)
    as (Hstd & _).
  split.
  - unfold closed, with_line, with_file, closing_lines; simpl.
    rewrite Hstd. unfold opened, with_line, announcement; simpl.
    fold audio_files. fold errors.
    rewrite <- !app_assoc. reflexivity.
  - rewrite Hmd. unfold errors.
    rewrite records_and_errors_count. unfold enumerate.
    apply length_enumerate_from.
Qed.

End Extra7.

Lemma X7_output_witness :
  let entries := ["a.mp3"; "corrupt.mp3"] in
  let metadata := Toy.returned entries None in
  let w' := (Toy.run entries None).2 in
  Toy.run entries None = (Ok metadata, w') /\
  stdout w'
  = ["Processing 2 audio files...";
     nl +:+ "Error processing corrupt.mp3: could not decode";
     nl +:+ "✓ Processed 1 files";
     "✓ Audio saved to: out/audio";
     "✓ Mel spectrograms saved to: out/mels";
     "✓ Metadata saved to: out/metadata.json"].
Proof.
  intros entries metadata w'.
  assert (Toy.run entries None = (Ok metadata, w')) as Hrun
    by (apply run_returned; vm_compute; reflexivity).
  split; [exact Hrun|].
  destruct (@X7_output_accounts_for_every_file (Toy.ext true entries)
              _ _ _ _ _ _ _ Hrun) as [Hout _].
  rewrite Hout. vm_compute. reflexivity.
Defined.

Section Extra8.

Context `{E : Externals}.

(** X8.  Whatever [max_files] is, the files the loop runs over are a
    prefix of the discovered ones.  No cap and a cap of 0 keep them
    all; a positive cap [n] keeps the first [n], or all when there are
    fewer; a negative cap [-k] drops the last [k], or all when there
    are fewer. *)
Theorem X8_selection_is_a_prefix (input_dir : string) :
  let found := glob_mp3 input_dir in
  selected input_dir None = found /\
  forall n : Z,
    selected input_dir (Some n) `prefix_of` found /\
    length (selected input_dir (Some n))
    = if (n =? 0)%Z then length found
      else if (0 <? n)%Z then Nat.min (Z.to_nat n) (length found)
      else (length found - Z.to_nat (- n))%nat.
Proof.
  intros found. split; [reflexivity|]. intros n.
  unfold selected, cap_files, truthy, slice_to. fold found.
  destruct (Z.eqb_spec n 0) as [->|Hn]; simpl; [split; reflexivity|].
  destruct (Z.leb_spec 0 n), (Z.ltb_spec 0 n); try lia.
  - split; [apply prefix_take|apply length_take].
  - split; [apply prefix_take|]. rewrite length_take. lia.
Qed.

End Extra8.

Section Extra9.

Context `{E : Externals}.

Implicit Types (self : AudioPreprocessor.t) (w : World E).
Implicit Types (metadata : list (ManifestRecord E)).

Lemma selected_prefix input_dir max_files :
  selected input_dir max_files `prefix_of` glob_mp3 input_dir.
Proof.
  destruct max_files as [n|]; [|reflexivity].
  unfold selected, cap_files, slice_to.
  destruct (truthy (Some n)); [|reflexivity].
  destruct (0 <=? n)%Z; apply prefix_take.
Qed.

(** X9.  In a run that returns, the decoder is called once for each
    selected file, in discovery order, on the file's path under the
    input directory, and on nothing else; every file it is called on is
    an entry of the input directory whose name ends in [.mp3]. *)
Theorem X9_only_mp3_entries_are_decoded
    self input_dir output_dir max_files w metadata w' :
  process_directory self input_dir output_dir max_files w = (Ok metadata, w') ->
  let audio_files := selected input_dir max_files in
  decoded w' = decoded w ++ (path_join input_dir <$> audio_files) /\
  forall name,
    name ∈ audio_files ->
    name ∈ listdir input_dir /\ ends_with ".mp3" name = true.
Proof.
  intros Hrun audio_files.
  apply process_directory_world in Hrun. subst w'.
  destruct (loop_world_effect self input_dir output_dir max_files w)
    as (_ & Hdec & _).
  split.
  - unfold closed, with_line, with_file; simpl. rewrite Hdec.
    unfold enumerate.
    rewrite (fmap_snd_enumerate_from (path_join input_dir)). reflexivity.
  - intros name Hin.
    destruct (selected_prefix input_dir max_files) as [rest Hrest].
    assert (name ∈ glob_mp3 input_dir) as Hglob.
    { rewrite Hrest. apply elem_of_app. left. exact Hin. }
    unfold glob_mp3 in Hglob. apply list_elem_of_filter in Hglob as [Hm Hl].
    split; [exact Hl|exact Hm].
Qed.

(** X10.  The [id] of a record is the position of its file among all
    the discovered files, with or without a cap: the cap shortens the
    list of files but never renumbers it. *)
Theorem X10_id_is_position_without_cap
    self input_dir output_dir max_files w metadata w' :
  process_directory self input_dir output_dir max_files w = (Ok metadata, w') ->
  forall r,
    r ∈ metadata ->
    glob_mp3 input_dir !! id r = Some (original_file r).
Proof.
  intros Hrun r Hr. apply process_directory_returns in Hrun.
  rewrite Hrun in Hr.
  apply elem_of_records_of in Hr as (idx & name & Hin & Hout).
  destruct (outcome_fields _ _ _ _ _ _ Hout) as (-> & -> & _).
  apply elem_of_enumerate in Hin.
  eapply prefix_lookup_Some; [exact Hin|apply selected_prefix].
Qed.

End Extra9.

Lemma X9_only_mp3_witness :
  let entries := ["a.mp3"; "notes.txt"; "b.mp3"; "cover.png"] in
  let w' := (Toy.run entries None).2 in
  Toy.run entries None = (Ok (Toy.returned entries None), w') /\
  decoded w' = ["in/a.mp3"; "in/b.mp3"].
Proof.
  intros entries w'.
  assert (Toy.run entries None = (Ok (Toy.returned entries None), w')) as Hrun
    by (apply run_returned; vm_compute; reflexivity).
  split; [exact Hrun|].
  destruct (@X9_only_mp3_entries_are_decoded (Toy.ext true entries)
              _ _ _ _ _ _ _ Hrun) as [Hdec _].
  rewrite Hdec. reflexivity.
Defined.

Lemma X10_id_is_position_witness :
  let entries := ["a.mp3"; "corrupt.mp3"; "b.mp3"; "c.mp3"] in
  let metadata := Toy.returned entries (Some 3%Z) in
  Toy.run entries (Some 3%Z)
  = (Ok metadata, (Toy.run entries (Some 3%Z)).2) /\
  forall r,
    r ∈ metadata ->
    @glob_mp3 (Toy.ext true entries) "in" !! id r = Some (original_file r).
Proof.
  intros entries metadata.
  assert (Toy.run entries (Some 3%Z)
          = (Ok metadata, (Toy.run entries (Some 3%Z)).2))
    as Hrun by (apply run_returned; vm_compute; reflexivity).
  split; [exact Hrun|].
  exact (@X10_id_is_position_without_cap (Toy.ext true entries)
           _ _ _ _ _ _ _ Hrun).
Defined.

Section Extra11.

Context `{E : Externals}.

Implicit Types (self : AudioPreprocessor.t) (w : World E).


End Extra11.


Section Extra12.

Context `{E : Externals}.

Implicit Types (w : World E) (metadata : list (ManifestRecord E)).

Lemma print_items_effect (items : list (string * Z)) w :
  exists w',
    print_items items w = (Ok tt, w') /\
    files w' = files w /\ decoded w' = decoded w.
Proof.
  revert w. induction items as [|[key value] rest IH]; intros w; simpl.
  - eexists; split_and!; reflexivity.
  - unfold bind, print.
    destruct (IH (with_line ("  " +:+ key +:+ ": " +:+ Fmt.z value) w))
      as (w' & Hrun & Hf & Hd).
    exists w'. split_and!; assumption.
Qed.

Lemma banner_effect w :
  exists w',
    banner w = (Ok tt, w') /\ files w' = files w /\ decoded w' = decoded w.
Proof.
  unfold banner, bind, print.
  destruct (print_items_effect (config_items config)
              (with_line (nl +:+ "Configuration:")
                 (with_line (Fmt.times "=" 70)
                    (with_line "AUDIO PREPROCESSING FOR HIFI-GAN"
                       (with_line (Fmt.times "=" 70) w)))))
    as (w' & Hrun & Hf & Hd).
  rewrite Hrun. eexists; split_and!; [reflexivity|exact Hf|exact Hd].
Qed.

Lemma summary_effect metadata w :
  exists w',
    summary metadata w = (Ok tt, w') /\
    files w' = files w /\ decoded w' = decoded w.
Proof.
  unfold summary, bind, print, float_div, ret.
  destruct metadata as [|r rest].
  - eexists; split_and!; reflexivity.
  - destruct (Z.eqb_spec (Z.of_nat (length (r :: rest))) 0) as [Hz|_];
      [simpl in Hz; lia|].
    eexists; split_and!; reflexivity.
Qed.

(** [main] past the input check: the heading, the run, the summary and
    the configuration snapshot. *)
Lemma main_cases (base_dir : string) w :
  let input_dir := path_join base_dir "jamendo_tracks" in
  let output_dir := path_join (path_join base_dir "data") "processed" in
  path_exists input_dir = true ->
  exists w0,
    banner w = (Ok tt, w0) /\
    files w0 = files w /\ decoded w0 = decoded w /\
    main base_dir w
    = match process_directory (__init__ config) input_dir output_dir None w0
      with
      | (Ok metadata, w1) =>
          save_config output_dir (summary metadata w1).2
      | (Raise e, w1) => (Raise e, w1)
      end.
Proof.
  intros input_dir output_dir Hexists.
  destruct (banner_effect w) as (w0 & Hbanner & Hf & Hd).
  exists w0. split_and!; [exact Hbanner|exact Hf|exact Hd|].
  unfold main. fold input_dir output_dir. rewrite Hexists. simpl.
  unfold bind at 1. rewrite Hbanner.
  unfold bind at 1.
  destruct (process_directory _ _ _ _ w0) as [[metadata|e] w1];
    [|reflexivity].
  unfold bind at 1.
  destruct (summary_effect metadata w1) as (w2 & Hsum & _).
  rewrite Hsum. reflexivity.
Qed.

(** X12.  The exit status of the script is 0 or 1, and it is 0 exactly
    when the input directory is missing, or the output root is usable
    and [config.json] can be written.  Whether files fail inside the
    loop never changes it. *)
Theorem X12_exit_status_ignores_file_failures (base_dir : string) w :
  let input_dir := path_join base_dir "jamendo_tracks" in
  let output_dir := path_join (path_join base_dir "data") "processed" in
  (exit_status base_dir w = 0%Z \/ exit_status base_dir w = 1%Z) /\
  (exit_status base_dir w = 0%Z <->
   path_exists input_dir = false \/
   (output_root_usable output_dir /\
    json_dump (path_join output_dir "config.json") = None)).
Proof.
  intros input_dir output_dir.
  destruct (path_exists input_dir) eqn:Hexists.
  - destruct (main_cases base_dir w Hexists) as (w0 & _ & _ & _ & Hmain).
    fold input_dir output_dir in Hmain.
    unfold exit_status. rewrite Hmain.
    destruct (process_directory (__init__ config) input_dir output_dir None w0)
      as [[metadata|e] w1] eqn:Hrun.
    + assert (output_root_usable output_dir) as Huse.
      { eapply process_directory_usable. rewrite Hrun. reflexivity. }
      unfold save_config, bind, effect, print.
      destruct (json_dump (path_join output_dir "config.json")) as [e|];
        simpl.
      * split; [auto|]. split; [discriminate|].
        intros [Hno|[_ Hno]]; discriminate.
      * split; [auto|]. split; [auto|reflexivity].
    + split; [auto|]. split; [discriminate|].
      intros [Hno|[Huse _]]; [discriminate|].
      destruct (process_directory_effect (__init__ config) input_dir
                  output_dir None w0 Huse) as (w1' & Hrun' & _).
      congruence.
  - unfold exit_status, main. fold input_dir. rewrite Hexists. simpl.
    split; [auto|]. split; auto.
Qed.

End Extra12.

(** With [audio/] impossible to create the script ends with status 1;
    with every file failing it still ends with status 0. *)
Lemma X12_exit_status_witness :
  @exit_status (Faulty.ext true ["a.mp3"] ["./data/processed/audio"])
    "." blank = 1%Z /\
  @exit_status (Toy.ext true ["corrupt.mp3"; "silent.mp3"]) "." blank = 0%Z.
Proof.
  split.
  - destruct (@X12_exit_status_ignores_file_failures
                (Faulty.ext true ["a.mp3"] ["./data/processed/audio"])
                "." blank) as [[Hzero|Hone] Hiff]; [|exact Hone].
    apply Hiff in Hzero as [Hmissing|[(Haudio & _) _]]; discriminate.
  - apply (@X12_exit_status_ignores_file_failures
             (Toy.ext true ["corrupt.mp3"; "silent.mp3"]) "." blank).
    right. repeat split.
Defined.

Section Extra13.

Context `{E : Externals}.

Implicit Types (w : World E) (metadata : list (ManifestRecord E)).

(** X13.  When the input directory exists, the output root is usable
    and [config.json] can be written, [main] returns.  It runs without
    a cap, so every discovered file is decoded; it leaves the manifest
    of the files that succeeded in [metadata.json] and the
    configuration it processed them with in [config.json]; and the
    last line it prints names the configuration file. *)
Theorem X13_main_leaves_manifest_and_config (base_dir : string) w :
  let input_dir := path_join base_dir "jamendo_tracks" in
  let output_dir := path_join (path_join base_dir "data") "processed" in
  path_exists input_dir = true ->
  output_root_usable output_dir ->
  json_dump (path_join output_dir "config.json") = None ->
  exists metadata w',
    main base_dir w = (Ok tt, w') /\
    metadata = records_of (__init__ config) input_dir output_dir
                 (enumerate (glob_mp3 input_dir)) /\
    files w' !! path_join output_dir "metadata.json"
    = Some (JsonManifest metadata) /\
    files w' !! path_join output_dir "config.json"
    = Some (JsonConfig config) /\
    decoded w' = decoded w ++ (path_join input_dir <$> glob_mp3 input_dir) /\
    last (stdout w')
    = Some (nl +:+ "Config saved to: " +:+ path_join output_dir "config.json").
Proof.
  intros input_dir output_dir Hexists Huse Hconfig.
  destruct (main_cases base_dir w Hexists) as (w0 & _ & Hf0 & Hd0 & Hmain).
  fold input_dir output_dir in Hmain.
  destruct (process_directory_effect (__init__ config) input_dir output_dir
              None w0 Huse) as (w1 & Hrun & _ & Hdec & _).
  change (selected input_dir None) with (glob_mp3 input_dir) in Hrun, Hdec.
  set (metadata := records_of (__init__ config) input_dir output_dir
                     (enumerate (glob_mp3 input_dir))) in *.
  rewrite Hrun in Hmain.
  destruct (summary_effect metadata (closed output_dir metadata w1))
    as (w2 & Hsum & Hf2 & Hd2).
  rewrite Hsum in Hmain. simpl in Hmain.
  unfold save_config, bind, effect, print in Hmain. rewrite Hconfig in Hmain.
  exists metadata. eexists. split; [exact Hmain|].
  split_and!; [reflexivity| | | |].
  - unfold with_line, with_file; simpl.
    rewrite lookup_insert_ne by apply metadata_path_not_config_path.
    rewrite Hf2. unfold closed, with_line, with_file; simpl.
    apply lookup_insert_eq.
  - unfold with_line, with_file; simpl. apply lookup_insert_eq.
  - unfold with_line, with_file; simpl. rewrite Hd2.
    unfold closed, with_line, with_file; simpl. rewrite Hdec.
    unfold opened, with_line, with_dir; simpl. rewrite Hd0.
    unfold enumerate.
    rewrite (fmap_snd_enumerate_from (path_join input_dir)). reflexivity.
  - unfold with_line, with_file; simpl. apply last_snoc.
Qed.

End Extra13.

Lemma X13_main_witness :
  let E := Toy.ext true ["a.mp3"; "cover.png"; "corrupt.mp3"] in
  let output_dir := path_join (path_join "." "data") "processed" in
  path_exists (path_join "." "jamendo_tracks") = true /\
  output_root_usable output_dir /\
  json_dump (path_join output_dir "config.json") = None /\
  exists w',
    main "." blank = (Ok tt, w') /\
    files w' !! "./data/processed/config.json" = Some (JsonConfig config) /\
    decoded w' = ["./jamendo_tracks/a.mp3"; "./jamendo_tracks/corrupt.mp3"].
Proof.
  intros E output_dir.
  assert (output_root_usable output_dir) as Huse by (repeat split).
  split_and!; [reflexivity|exact Huse|reflexivity|].
  destruct (@X13_main_leaves_manifest_and_config E "." blank eq_refl Huse
              eq_refl) as (metadata & w' & Hmain & _ & _ & Hcfg & Hdec & _).
  exists w'. split_and!; [exact Hmain|exact Hcfg|].
  rewrite Hdec. reflexivity.
Defined.

(** * Properties of [cleaner.py] *)

Section CleanerFacts.

Context `{O : Cleaner.Os}.

Implicit Types (names : list string) (s : Cleaner.State).
Implicit Types (vistos : gmap string string).

Lemma seen_before_skip vistos head rest k nombre :
  Cleaner.seen_before vistos rest k nombre ->
  Cleaner.seen_before vistos (head :: rest) (S k) nombre.
Proof.
  intros (Hk & Hmp3 & [Hseen|(j & primero & Hlt & Hj & Hp & Heq)]);
    (split_and!; [exact Hk|exact Hmp3|]); [left; exact Hseen|].
  right. exists (S j), primero. split_and!; [lia|exact Hj|exact Hp|exact Heq].
Qed.

Lemma seen_before_insert vistos head rest k nombre ruta :
  ends_with ".mp3" head = true ->
  Cleaner.seen_before (<[Cleaner.strip_tag head := ruta]> vistos) rest k
    nombre ->
  Cleaner.seen_before vistos (head :: rest) (S k) nombre.
Proof.
  intros Hhead (Hk & Hmp3 & [Hseen|(j & primero & Hlt & Hj & Hp & Heq)]);
    (split_and!; [exact Hk|exact Hmp3|]).
  - destruct (decide (Cleaner.strip_tag head = Cleaner.strip_tag nombre))
      as [Heq|Hne].
    + right. exists 0%nat, head.
      split_and!; [lia|reflexivity|exact Hhead|exact Heq].
    + left. rewrite lookup_insert_ne in Hseen by exact Hne. exact Hseen.
  - right. exists (S j), primero.
    split_and!; [lia|exact Hj|exact Hp|exact Heq].
Qed.

Lemma seen_before_empty names k nombre :
  Cleaner.seen_before ∅ names k nombre <->
  Cleaner.later_duplicate names k nombre.
Proof.
  unfold Cleaner.seen_before, Cleaner.later_duplicate. split.
  - intros (Hk & Hmp3 & [[x Hx]|Hearlier]); [|auto].
    rewrite lookup_empty in Hx. discriminate.
  - intros (Hk & Hmp3 & Hearlier). auto.
Qed.

(** Whatever the outcome, the loop removes only entries it has seen
    before, in the order of the listing, and prints one notice for each
    removal it attempts. *)
Lemma scan_trace carpeta names vistos s r s' :
  Cleaner.scan carpeta names vistos s = (r, s') ->
  exists extra,
    Cleaner.removed s' = Cleaner.removed s ++ extra /\
    (forall path,
        path ∈ extra ->
        exists k nombre,
          Cleaner.seen_before vistos names k nombre /\
          path = Cleaner.join carpeta nombre) /\
    (r = Ok tt ->
     Cleaner.printed s' = Cleaner.printed s ++ (Cleaner.notice <$> extra)).
Proof.
  revert vistos s.
  induction names as [|head rest IH]; intros vistos s Hrun; simpl in Hrun.
  - injection Hrun as <- <-. exists []. rewrite !app_nil_r.
    split_and!; [reflexivity| |reflexivity].
    intros path Hin. inversion Hin.
  - destruct (ends_with ".mp3" head) eqn:Hhead.
    + destruct (vistos !! Cleaner.strip_tag head) as [ruta|] eqn:Hseen.
      * destruct (Cleaner.remove (Cleaner.join carpeta head)) as [e|] eqn:Hrm.
        { injection Hrun as <- <-. exists []. simpl. rewrite app_nil_r.
          split_and!; [reflexivity| |discriminate].
          intros path Hin. inversion Hin. }
        apply IH in Hrun as (extra & Hrem & Hpaths & Hprint).
        exists (Cleaner.join carpeta head :: extra). simpl in Hrem, Hprint.
        split_and!.
        -- rewrite Hrem, <- app_assoc. reflexivity.
        -- intros path [->|Hin]%elem_of_cons.
           ++ exists 0%nat, head. split; [|reflexivity].
              split_and!; [reflexivity|exact Hhead|]. left. eauto.
           ++ destruct (Hpaths path Hin) as (k & nombre & Hk & ->).
              exists (S k), nombre. split; [|reflexivity].
              apply seen_before_skip, Hk.
        -- intros Hok. rewrite (Hprint Hok), fmap_cons, <- app_assoc.
           reflexivity.
      * apply IH in Hrun as (extra & Hrem & Hpaths & Hprint).
        exists extra. split_and!; [exact Hrem| |exact Hprint].
        intros path Hin. destruct (Hpaths path Hin) as (k & nombre & Hk & ->).
        exists (S k), nombre. split; [|reflexivity].
        eapply seen_before_insert; [exact Hhead|exact Hk].
    + apply IH in Hrun as (extra & Hrem & Hpaths & Hprint).
      exists extra. split_and!; [exact Hrem| |exact Hprint].
      intros path Hin. destruct (Hpaths path Hin) as (k & nombre & Hk & ->).
      exists (S k), nombre. split; [|reflexivity].
      apply seen_before_skip, Hk.
Qed.

(** When no removal fails the loop returns and every entry seen before
    is removed. *)
Lemma scan_complete carpeta names vistos s :
  (forall nombre,
      nombre ∈ names -> Cleaner.remove (Cleaner.join carpeta nombre) = None) ->
  exists s' extra,
    Cleaner.scan carpeta names vistos s = (Ok tt, s') /\
    Cleaner.removed s' = Cleaner.removed s ++ extra /\
    forall k nombre,
      Cleaner.seen_before vistos names k nombre ->
      Cleaner.join carpeta nombre ∈ extra.
Proof.
  revert vistos s.
  induction names as [|head rest IH]; intros vistos s Hrm; simpl.
  - exists s, []. rewrite app_nil_r. split_and!; [reflexivity|reflexivity|].
    intros k nombre (Hk & _). discriminate.
  - assert (forall nombre,
               nombre ∈ rest ->
               Cleaner.remove (Cleaner.join carpeta nombre) = None) as Hrm'
      by (intros nombre Hin; apply Hrm, elem_of_cons; auto).
    destruct (ends_with ".mp3" head) eqn:Hhead.
    + destruct (vistos !! Cleaner.strip_tag head) as [ruta|] eqn:Hseen.
      * rewrite (Hrm head) by apply list_elem_of_here.
        destruct (IH vistos
                    (Cleaner.unlink (Cleaner.join carpeta head)
                       (Cleaner.print
                          ("Eliminando archivo duplicado: "
                           +:+ Cleaner.join carpeta head) s)) Hrm')
          as (s' & extra & Hrun & Hrem & Hall).
        exists s', (Cleaner.join carpeta head :: extra). simpl in Hrem.
        split_and!; [exact Hrun|rewrite Hrem, <- app_assoc; reflexivity|].
        intros [|k] nombre (Hk & Hmp3 & Hwhy); simpl in Hk.
        -- injection Hk as <-. apply list_elem_of_here.
        -- apply list_elem_of_further, (Hall k).
           split_and!; [exact Hk|exact Hmp3|].
           destruct Hwhy as [Hs|(j & primero & Hlt & Hj & Hp & Heq)];
             [left; exact Hs|].
           destruct j as [|j]; simpl in Hj.
           ++ injection Hj as <-. left. rewrite <- Heq. eauto.
           ++ right. exists j, primero.
              split_and!; [lia|exact Hj|exact Hp|exact Heq].
      * destruct (IH (<[Cleaner.strip_tag head
                        := Cleaner.join carpeta head]> vistos) s Hrm')
          as (s' & extra & Hrun & Hrem & Hall).
        exists s', extra. split_and!; [exact Hrun|exact Hrem|].
        intros [|k] nombre (Hk & Hmp3 & Hwhy); simpl in Hk.
        -- injection Hk as <-.
           destruct Hwhy as [[x Hx]|(j & _ & Hlt & _)]; [congruence|lia].
        -- apply (Hall k). split_and!; [exact Hk|exact Hmp3|].
           destruct Hwhy as [[x Hx]|(j & primero & Hlt & Hj & Hp & Heq)].
           ++ left. exists x.
              destruct (decide (Cleaner.strip_tag head
                                = Cleaner.strip_tag nombre)) as [Heq|Hne];
                [congruence|].
              rewrite lookup_insert_ne by exact Hne. exact Hx.
           ++ destruct j as [|j]; simpl in Hj.
              ** injection Hj as <-. left. rewrite <- Heq.
                 rewrite lookup_insert_eq. eauto.
              ** right. exists j, primero.
                 split_and!; [lia|exact Hj|exact Hp|exact Heq].
    + destruct (IH vistos s Hrm') as (s' & extra & Hrun & Hrem & Hall).
      exists s', extra. split_and!; [exact Hrun|exact Hrem|].
      intros [|k] nombre (Hk & Hmp3 & Hwhy); simpl in Hk.
      * injection Hk as <-. congruence.
      * apply (Hall k). split_and!; [exact Hk|exact Hmp3|].
        destruct Hwhy as [Hs|(j & primero & Hlt & Hj & Hp & Heq)];
          [left; exact Hs|].
        destruct j as [|j]; simpl in Hj.
        -- injection Hj as <-. congruence.
        -- right. exists j, primero.
           split_and!; [lia|exact Hj|exact Hp|exact Heq].
Qed.

(** A run that raises stopped at the removal that failed. *)
Lemma scan_failure carpeta names vistos s e s' :
  Cleaner.scan carpeta names vistos s = (Raise e, s') ->
  exists k nombre,
    Cleaner.seen_before vistos names k nombre /\
    Cleaner.remove (Cleaner.join carpeta nombre) = Some e /\
    last (Cleaner.printed s')
    = Some (Cleaner.notice (Cleaner.join carpeta nombre)) /\
    exists extra,
      Cleaner.removed s' = Cleaner.removed s ++ extra /\
      forall path,
        path ∈ extra ->
        exists j anterior,
          (j < k)%nat /\ names !! j = Some anterior /\
          path = Cleaner.join carpeta anterior.
Proof.
  revert vistos s.
  induction names as [|head rest IH]; intros vistos s Hrun; simpl in Hrun;
    [discriminate|].
  destruct (ends_with ".mp3" head) eqn:Hhead.
  - destruct (vistos !! Cleaner.strip_tag head) as [ruta|] eqn:Hseen.
    + destruct (Cleaner.remove (Cleaner.join carpeta head)) as [e0|] eqn:Hrm.
      * injection Hrun as <- <-. exists 0%nat, head. split_and!.
        -- split_and!; [reflexivity|exact Hhead|]. left. eauto.
        -- exact Hrm.
        -- simpl. apply last_snoc.
        -- exists []. simpl. rewrite app_nil_r. split; [reflexivity|].
           intros path Hin. inversion Hin.
      * apply IH in Hrun
          as (k & nombre & Hk & Hfail & Hlast & extra & Hrem & Hpaths).
        exists (S k), nombre. split_and!.
        -- apply seen_before_skip, Hk.
        -- exact Hfail.
        -- exact Hlast.
        -- exists (Cleaner.join carpeta head :: extra). simpl in Hrem. split.
           ++ rewrite Hrem, <- app_assoc. reflexivity.
           ++ intros path [->|Hin]%elem_of_cons.
              ** exists 0%nat, head. split_and!; [lia|reflexivity|reflexivity].
              ** destruct (Hpaths path Hin) as (j & anterior & Hlt & Hj & ->).
                 exists (S j), anterior.
                 split_and!; [lia|exact Hj|reflexivity].
    + apply IH in Hrun
        as (k & nombre & Hk & Hfail & Hlast & extra & Hrem & Hpaths).
      exists (S k), nombre. split_and!.
      * eapply seen_before_insert; [exact Hhead|exact Hk].
      * exact Hfail.
      * exact Hlast.
      * exists extra. split; [exact Hrem|].
        intros path Hin.
        destruct (Hpaths path Hin) as (j & anterior & Hlt & Hj & ->).
        exists (S j), anterior. split_and!; [lia|exact Hj|reflexivity].
  - apply IH in Hrun
      as (k & nombre & Hk & Hfail & Hlast & extra & Hrem & Hpaths).
    exists (S k), nombre. split_and!.
    + apply seen_before_skip, Hk.
    + exact Hfail.
    + exact Hlast.
    + exists extra. split; [exact Hrem|].
      intros path Hin.
      destruct (Hpaths path Hin) as (j & anterior & Hlt & Hj & ->).
      exists (S j), anterior. split_and!; [lia|exact Hj|reflexivity].
Qed.

(** The function is the loop over the listing, entered with an empty
    dictionary. *)
Lemma eliminar_trace (carpeta : string) names s r s' :
  Cleaner.listdir carpeta = Ok names ->
  Cleaner.eliminar_duplicados_similares carpeta s = (r, s') ->
  exists extra,
    Cleaner.removed s' = Cleaner.removed s ++ extra /\
    (forall path,
        path ∈ extra ->
        exists k nombre,
          Cleaner.later_duplicate names k nombre /\
          path = Cleaner.join carpeta nombre) /\
    (r = Ok tt ->
     Cleaner.printed s' = Cleaner.printed s ++ (Cleaner.notice <$> extra)).
Proof.
  intros Hlist Hrun. unfold Cleaner.eliminar_duplicados_similares in Hrun.
  rewrite Hlist in Hrun.
  apply scan_trace in Hrun as (extra & Hrem & Hpaths & Hprint).
  exists extra. split_and!; [exact Hrem| |exact Hprint].
  intros path Hin. destruct (Hpaths path Hin) as (k & nombre & Hk & ->).
  exists k, nombre. split; [apply seen_before_empty, Hk|reflexivity].
Qed.

Lemma eliminar_complete (carpeta : string) names s :
  Cleaner.listdir carpeta = Ok names ->
  (forall nombre,
      nombre ∈ names -> Cleaner.remove (Cleaner.join carpeta nombre) = None) ->
  exists s' extra,
    Cleaner.eliminar_duplicados_similares carpeta s = (Ok tt, s') /\
    Cleaner.removed s' = Cleaner.removed s ++ extra /\
    forall k nombre,
      Cleaner.later_duplicate names k nombre ->
      Cleaner.join carpeta nombre ∈ extra.
Proof.
  intros Hlist Hrm. unfold Cleaner.eliminar_duplicados_similares.
  rewrite Hlist.
  destruct (scan_complete carpeta names ∅ s Hrm)
    as (s' & extra & Hrun & Hrem & Hall).
  exists s', extra. split_and!; [exact Hrun|exact Hrem|].
  intros k nombre Hdup. apply (Hall k). apply seen_before_empty, Hdup.
Qed.

(** X14.  Whatever happens, [eliminar_duplicados_similares] removes
    nothing but later duplicates: every path it removes is the path of
    an [.mp3] entry whose normalised name was already given by an
    earlier [.mp3] entry of the listing.  Entries that do not end in
    [.mp3], and the first file of each normalised name, are never
    handed to [os.remove]. *)
Theorem X14_only_later_duplicates_are_removed
    (carpeta : string) names s r s' :
  Cleaner.listdir carpeta = Ok names ->
  Cleaner.eliminar_duplicados_similares carpeta s = (r, s') ->
  exists extra,
    Cleaner.removed s' = Cleaner.removed s ++ extra /\
    forall path,
      path ∈ extra ->
      exists k nombre,
        Cleaner.later_duplicate names k nombre /\
        path = Cleaner.join carpeta nombre.
Proof.
  intros Hlist Hrun.
  destruct (eliminar_trace carpeta names s r s' Hlist Hrun)
    as (extra & Hrem & Hpaths & _).
  exists extra. split; [exact Hrem|exact Hpaths].
Qed.

(** X15.  When none of the removals fails, the function returns, every
    later duplicate of the listing has been removed, and one notice was
    printed for each removed path, in the order of removal. *)
Theorem X15_every_later_duplicate_is_removed (carpeta : string) names s :
  Cleaner.listdir carpeta = Ok names ->
  (forall nombre,
      nombre ∈ names -> Cleaner.remove (Cleaner.join carpeta nombre) = None) ->
  exists s' extra,
    Cleaner.eliminar_duplicados_similares carpeta s = (Ok tt, s') /\
    Cleaner.removed s' = Cleaner.removed s ++ extra /\
    Cleaner.printed s' = Cleaner.printed s ++ (Cleaner.notice <$> extra) /\
    forall k nombre,
      Cleaner.later_duplicate names k nombre ->
      Cleaner.join carpeta nombre ∈ extra.
Proof.
  intros Hlist Hrm.
  destruct (eliminar_complete carpeta names s Hlist Hrm)
    as (s' & extra & Hrun & Hrem & Hall).
  destruct (eliminar_trace carpeta names s (Ok tt) s' Hlist Hrun)
    as (extra' & Hrem' & _ & Hprint).
  assert (extra' = extra) as ->
    by (apply (app_inv_head (Cleaner.removed s)); congruence).
  exists s', extra. split_and!; [exact Hrun|exact Hrem|auto|exact Hall].
Qed.

(** X16.  In a directory listing without repeated names, with paths
    that tell the names apart and removals that succeed, the function
    returns and removes an entry exactly when it is an [.mp3] entry and
    an earlier [.mp3] entry has the same normalised name.  So of the
    files that share a normalised name the one listed first is the one
    that survives, and entries that do not end in [.mp3] stay. *)
Theorem X16_first_listed_file_survives (carpeta : string) names s :
  Cleaner.listdir carpeta = Ok names ->
  NoDup names ->
  (forall a b, Cleaner.join carpeta a = Cleaner.join carpeta b -> a = b) ->
  (forall nombre,
      nombre ∈ names -> Cleaner.remove (Cleaner.join carpeta nombre) = None) ->
  exists s' extra,
    Cleaner.eliminar_duplicados_similares carpeta s = (Ok tt, s') /\
    Cleaner.removed s' = Cleaner.removed s ++ extra /\
    forall k nombre,
      names !! k = Some nombre ->
      (Cleaner.join carpeta nombre ∈ extra <->
       Cleaner.later_duplicate names k nombre).
Proof.
  intros Hlist Hnd Hinj Hrm.
  destruct (eliminar_complete carpeta names s Hlist Hrm)
    as (s' & extra & Hrun & Hrem & Hall).
  exists s', extra. split_and!; [exact Hrun|exact Hrem|].
  intros k nombre Hk. split; [|apply Hall].
  intros Hin.
  destruct (eliminar_trace carpeta names s (Ok tt) s' Hlist Hrun)
    as (extra' & Hrem' & Hpaths & _).
  assert (extra' = extra) as ->
    by (apply (app_inv_head (Cleaner.removed s)); congruence).
  destruct (Hpaths _ Hin) as (k' & nombre' & Hdup & Heq).
  apply Hinj in Heq. subst nombre'.
  assert (k' = k) as ->; [|exact Hdup].
  destruct Hdup as (Hk' & _). eapply NoDup_lookup; eassumption.
Qed.


(** A listing without later duplicates leaves the loop nothing to do. *)
Lemma scan_without_duplicates carpeta names s :
  (forall k nombre, ~ Cleaner.later_duplicate names k nombre) ->
  Cleaner.scan carpeta names ∅ s = (Ok tt, s).
Proof.
  intros Hnone.
  destruct (Cleaner.scan carpeta names ∅ s) as [r s'] eqn:Hrun.
  destruct r as [[]|e].
  - destruct (scan_trace _ _ _ _ _ _ Hrun) as (extra & Hrem & Hpaths & Hprint).
    assert (extra = []) as ->.
    { destruct extra as [|path rest]; [reflexivity|].
      destruct (Hpaths path) as (k & nombre & Hk & _);
        [apply list_elem_of_here|].
      exfalso. apply (Hnone k nombre), seen_before_empty, Hk. }
    specialize (Hprint eq_refl). simpl in Hprint. rewrite app_nil_r in *.
    destruct s, s'; simpl in *; subst. reflexivity.
  - apply scan_failure in Hrun as (k & nombre & Hk & _).
    exfalso. apply (Hnone k nombre), seen_before_empty, Hk.
Qed.

(** X18.  When no two [.mp3] entries of the listing share a normalised
    name, the function changes nothing: it returns without removing a
    file or printing a line, whatever [os.remove] would do. *)
Theorem X18_nothing_to_do_without_duplicates (carpeta : string) names s :
  Cleaner.listdir carpeta = Ok names ->
  (forall i j a b,
      (i < j)%nat -> names !! i = Some a -> names !! j = Some b ->
      ends_with ".mp3" a = true -> ends_with ".mp3" b = true ->
      Cleaner.strip_tag a <> Cleaner.strip_tag b) ->
  Cleaner.eliminar_duplicados_similares carpeta s = (Ok tt, s).
Proof.
  intros Hlist Hdistinct. unfold Cleaner.eliminar_duplicados_similares.
  rewrite Hlist. apply scan_without_duplicates.
  intros k nombre (Hk & Hmp3 & j & primero & Hlt & Hj & Hp & Heq).
  exact (Hdistinct j k primero nombre Hlt Hj Hk Hp Hmp3 Heq).
Qed.

(** X19.  The function is idempotent on what it leaves.  After a run
    as in X16, a second pass over the surviving entries, listed in
    whatever order, returns without removing or printing anything. *)
Theorem X19_second_pass_removes_nothing
    (carpeta : string) names s s' extra survivors s2 :
  Cleaner.listdir carpeta = Ok names ->
  NoDup names ->
  (forall a b, Cleaner.join carpeta a = Cleaner.join carpeta b -> a = b) ->
  (forall nombre,
      nombre ∈ names -> Cleaner.remove (Cleaner.join carpeta nombre) = None) ->
  Cleaner.eliminar_duplicados_similares carpeta s = (Ok tt, s') ->
  Cleaner.removed s' = Cleaner.removed s ++ extra ->
  NoDup survivors ->
  (forall nombre,
      nombre ∈ survivors ->
      nombre ∈ names /\ Cleaner.join carpeta nombre ∉ extra) ->
  Cleaner.scan carpeta survivors ∅ s2 = (Ok tt, s2).
Proof.
  intros Hlist Hnd Hinj Hrm Hrun Hrem Hnd2 Hsurv.
  destruct (eliminar_complete carpeta names s Hlist Hrm)
    as (s0 & extra0 & Hrun0 & Hrem0 & Hall).
  assert (s0 = s') as -> by congruence.
  assert (extra0 = extra) as ->
    by (apply (app_inv_head (Cleaner.removed s)); congruence).
  apply scan_without_duplicates.
  intros k nombre (Hk & Hmp3 & j & primero & Hlt & Hj & Hp & Heq).
  destruct (Hsurv nombre) as [Hin Hkept]; [eapply list_elem_of_lookup_2, Hk|].
  destruct (Hsurv primero) as [Hin' Hkept'];
    [eapply list_elem_of_lookup_2, Hj|].
  apply list_elem_of_lookup in Hin as [b Hb].
  apply list_elem_of_lookup in Hin' as [a Ha].
  assert (a <> b) as Hab.
  { intros ->. assert (primero = nombre) as -> by congruence.
    assert (j = k) by (eapply NoDup_lookup; eassumption). lia. }
  destruct (Nat.lt_trichotomy a b) as [Hlt'|[Heq'|Hgt]]; [|contradiction|].
  - apply Hkept, (Hall b). split_and!; [exact Hb|exact Hmp3|].
    exists a, primero. split_and!; [exact Hlt'|exact Ha|exact Hp|exact Heq].
  - apply Hkept', (Hall a). split_and!; [exact Ha|exact Hp|].
    exists b, nombre.
    split_and!; [exact Hgt|exact Hb|exact Hmp3|symmetry; exact Heq].
Qed.

End CleanerFacts.

(** Four entries: the third has the normalised name of the first and
    is the only one removed. *)
Lemma X14_only_later_duplicates_witness :
  let names := ["song [live].mp3"; "tune.mp3"; "song [remix].mp3"; "song.txt"] in
  let O := Cleaner.toy names [] in
  let run := Cleaner.eliminar_duplicados_similares "dir" Cleaner.start in
  Cleaner.listdir "dir" = Ok names /\
  run = (run.1, run.2) /\
  Cleaner.removed run.2 = ["dir/song [remix].mp3"] /\
  exists extra,
    Cleaner.removed run.2 = Cleaner.removed Cleaner.start ++ extra /\
    forall path,
      path ∈ extra ->
      exists k nombre,
        Cleaner.later_duplicate names k nombre /\
        path = Cleaner.join "dir" nombre.
Proof.
  intros names O run.
  split_and!; [reflexivity|reflexivity|reflexivity|].
  exact (@X14_only_later_duplicates_are_removed O "dir" names Cleaner.start
           run.1 run.2 eq_refl eq_refl).
Defined.

Lemma X15_every_later_duplicate_witness :
  let names := ["song [live].mp3"; "tune.mp3"; "song [remix].mp3"; "song.txt"] in
  let O := Cleaner.toy names [] in
  Cleaner.listdir "dir" = Ok names /\
  (forall nombre,
      nombre ∈ names -> Cleaner.remove (Cleaner.join "dir" nombre) = None) /\
  exists s' extra,
    Cleaner.eliminar_duplicados_similares "dir" Cleaner.start = (Ok tt, s') /\
    Cleaner.removed s' = extra /\
    Cleaner.printed s' = Cleaner.notice <$> extra /\
    Cleaner.join "dir" "song [remix].mp3" ∈ extra.
Proof.
  intros names O.
  assert (forall nombre,
             nombre ∈ names ->
             Cleaner.remove (Cleaner.join "dir" nombre) = None) as Hrm
    by (intros nombre _; reflexivity).
  split_and!; [reflexivity|exact Hrm|].
  destruct (@X15_every_later_duplicate_is_removed O "dir" names Cleaner.start
              eq_refl Hrm) as (s' & extra & Hrun & Hrem & Hprint & Hall).
  exists s', extra. split_and!; [exact Hrun|exact Hrem|exact Hprint|].
  apply (Hall 2%nat "song [remix].mp3").
  split_and!; [reflexivity|reflexivity|].
  exists 0%nat, "song [live].mp3".
  split_and!; [lia|reflexivity|reflexivity|reflexivity].
Defined.

Lemma X16_first_listed_file_witness :
  let names := ["song [live].mp3"; "tune.mp3"; "song [remix].mp3"; "song.txt"] in
  let O := Cleaner.toy names [] in
  Cleaner.listdir "dir" = Ok names /\
  NoDup names /\
  (forall a b, Cleaner.join "dir" a = Cleaner.join "dir" b -> a = b) /\
  (forall nombre,
      nombre ∈ names -> Cleaner.remove (Cleaner.join "dir" nombre) = None) /\
  exists s' extra,
    Cleaner.eliminar_duplicados_similares "dir" Cleaner.start = (Ok tt, s') /\
    Cleaner.removed s' = extra /\
    (Cleaner.join "dir" "song [live].mp3" ∉ extra) /\
    (Cleaner.join "dir" "song.txt" ∉ extra).
Proof.
  intros names O.
  assert (NoDup names) as Hnd
    by (apply (bool_decide_unpack _); vm_compute; exact I).
  assert (forall a b, Cleaner.join "dir" a = Cleaner.join "dir" b -> a = b)
    as Hinj by (intros a b; apply path_join_inj).
  assert (forall nombre,
             nombre ∈ names ->
             Cleaner.remove (Cleaner.join "dir" nombre) = None) as Hrm
    by (intros nombre _; reflexivity).
  split_and!; [reflexivity|exact Hnd|exact Hinj|exact Hrm|].
  destruct (@X16_first_listed_file_survives O "dir" names Cleaner.start
              eq_refl Hnd Hinj Hrm) as (s' & extra & Hrun & Hrem & Hiff).
  exists s', extra. split_and!; [exact Hrun|exact Hrem| |].
  - intros Hin. apply (Hiff 0%nat) in Hin as (_ & _ & j & _ & Hlt & _);
      [lia|reflexivity].
  - intros Hin. apply (Hiff 3%nat) in Hin as (_ & Hmp3 & _);
      [discriminate|reflexivity].
Defined.


Lemma X18_nothing_to_do_witness :
  let names := ["alfa.mp3"; "beta.mp3"; "alfa.txt"] in
  let O := Cleaner.toy names ["dir/alfa.mp3"; "dir/beta.mp3"] in
  Cleaner.listdir "dir" = Ok names /\
  (forall i j a b,
      (i < j)%nat -> names !! i = Some a -> names !! j = Some b ->
      ends_with ".mp3" a = true -> ends_with ".mp3" b = true ->
      Cleaner.strip_tag a <> Cleaner.strip_tag b) /\
  Cleaner.eliminar_duplicados_similares "dir" Cleaner.start
  = (Ok tt, Cleaner.start).
Proof.
  intros names O.
  assert (forall i j a b,
             (i < j)%nat -> names !! i = Some a -> names !! j = Some b ->
             ends_with ".mp3" a = true -> ends_with ".mp3" b = true ->
             Cleaner.strip_tag a <> Cleaner.strip_tag b) as Hdistinct.
  { intros i j a b Hlt Hi Hj Ha Hb.
    destruct i as [|[|[|i]]], j as [|[|[|j]]]; simpl in Hi, Hj;
      try lia; try discriminate;
      injection Hi as <-; injection Hj as <-; discriminate. }
  split_and!; [reflexivity|exact Hdistinct|].
  exact (@X18_nothing_to_do_without_duplicates O "dir" names Cleaner.start
           eq_refl Hdistinct).
Defined.

Lemma X19_second_pass_witness :
  let names := ["song [live].mp3"; "tune.mp3"; "song [remix].mp3"; "song.txt"] in
  let O := Cleaner.toy names [] in
  let first := Cleaner.eliminar_duplicados_similares "dir" Cleaner.start in
  let survivors := ["song.txt"; "tune.mp3"; "song [live].mp3"] in
  first = (Ok tt, first.2) /\
  Cleaner.removed first.2 = ["dir/song [remix].mp3"] /\
  Cleaner.scan "dir" survivors ∅ first.2 = (Ok tt, first.2).
Proof.
  intros names O first survivors.
  split_and!; [reflexivity|reflexivity|].
  apply (@X19_second_pass_removes_nothing O "dir" names Cleaner.start first.2
           ["dir/song [remix].mp3"] survivors first.2).
  - reflexivity.
  - apply (bool_decide_unpack _); vm_compute; exact I.
  - intros a b. apply path_join_inj.
  - intros nombre _. reflexivity.
  - reflexivity.
  - reflexivity.
  - apply (bool_decide_unpack _); vm_compute; exact I.
  - intros nombre Hin.
    repeat (apply elem_of_cons in Hin as [->|Hin]);
      [| | |inversion Hin];
      (split; apply (bool_decide_unpack _); vm_compute; exact I).
Defined.

(** * Properties of [scrapper.py] *)

Lemma substring_suffix (a b : string) :
  String.substring (String.length a) (String.length b) (a +:+ b) = b.
Proof.
  induction a as [|c a IH]; [|exact IH].
  rewrite string_app_nil. simpl.
  induction b as [|c b IH]; [reflexivity|]. simpl. rewrite IH. reflexivity.
Qed.

Lemma ends_with_app (a suffix : string) : ends_with suffix (a +:+ suffix) = true.
Proof.
  unfold ends_with. rewrite string_length_app.
  replace (String.length a + String.length suffix - String.length suffix)%nat
    with (String.length a) by lia.
  rewrite substring_suffix, String.eqb_refl.
  apply andb_true_iff. split; [|reflexivity]. apply Nat.leb_le. lia.
Qed.

Lemma chars_app (a b : string) :
  String.list_ascii_of_string (a +:+ b)
  = String.list_ascii_of_string a ++ String.list_ascii_of_string b.
Proof.
  induction a as [|c a IH]; [reflexivity|].
  rewrite string_app_cons. simpl. rewrite IH. reflexivity.
Qed.

Lemma chars_replace_char (old new : Ascii.ascii) (s : string) c :
  old <> new ->
  c ∈ String.list_ascii_of_string (Scrapper.replace_char old new s) ->
  c <> old.
Proof.
  intros Hne. induction s as [|c0 s IH]; simpl; [intros Hin; inversion Hin|].
  intros [->|Hin]%elem_of_cons; [|apply IH, Hin].
  destruct (Ascii.eqb_spec c0 old); congruence.
Qed.

Lemma chars_replace_char_other (old new avoid : Ascii.ascii) (s : string) c :
  new <> avoid ->
  (forall c', c' ∈ String.list_ascii_of_string s -> c' <> avoid) ->
  c ∈ String.list_ascii_of_string (Scrapper.replace_char old new s) ->
  c <> avoid.
Proof.
  intros Hne. induction s as [|c0 s IH]; simpl;
    [intros _ Hin; inversion Hin|].
  intros Hs [->|Hin]%elem_of_cons.
  - destruct (Ascii.eqb c0 old); [exact Hne|].
    apply Hs, list_elem_of_here.
  - apply IH; [|exact Hin]. intros c' Hc'. apply Hs, list_elem_of_further, Hc'.
Qed.

Lemma chars_sanitize (s : string) c :
  c ∈ String.list_ascii_of_string (Scrapper.sanitize s) ->
  c <> Scrapper.slash /\ c <> Scrapper.backslash.
Proof.
  unfold Scrapper.sanitize. intros Hin. split.
  - apply (chars_replace_char_other Scrapper.backslash Scrapper.underscore
             Scrapper.slash
             (Scrapper.replace_char Scrapper.slash Scrapper.underscore s));
      [discriminate| |exact Hin].
    intros c'. apply chars_replace_char. discriminate.
  - eapply chars_replace_char; [|exact Hin]. discriminate.
Qed.

(** X20.  The file name the script gives a track never contains a
    slash or a backslash, whatever the track and the artist are called,
    and always ends in [.mp3]: it is a name that the glob of the
    preprocessing script matches. *)
Theorem X20_file_name_is_safe_and_matched (track : Scrapper.Track) :
  (forall c,
      c ∈ String.list_ascii_of_string (Scrapper.file_name track) ->
      c <> Scrapper.slash /\ c <> Scrapper.backslash) /\
  matches_mp3 (Scrapper.file_name track) = true.
Proof.
  unfold Scrapper.file_name. split.
  - intros c. rewrite !chars_app, !elem_of_app.
    intros [Hin|[Hin|[Hin|Hin]]].
    + apply (chars_sanitize _ _ Hin).
    + simpl in Hin.
      repeat (apply elem_of_cons in Hin as [->|Hin]);
        [| | |inversion Hin]; split; discriminate.
    + apply (chars_sanitize _ _ Hin).
    + simpl in Hin.
      repeat (apply elem_of_cons in Hin as [->|Hin]);
        [| | | |inversion Hin]; split; discriminate.
  - unfold matches_mp3.
    rewrite <- !string_app_assoc. apply ends_with_app.
Qed.

Section ScrapperFacts.

Import Scrapper.

Context `{W : Web}.

Implicit Types (w : World) (track : Track) (tracks : list Track).

(** The first loop returns when every track is complete and raises the
    [KeyError] of the first missing key otherwise; it only prints. *)
Lemma show_tracks_cases tracks w :
  exists r w',
    show_tracks tracks w = (r, w') /\
    files w' = files w /\ dirs w' = dirs w /\ requested w' = requested w /\
    ((r = Val tt /\ Forall complete tracks) \/
     (exists key,
         r = Err (KeyError key) /\
         key ∈ ["name"; "artist_name"; "audio"] /\
         Exists (fun track => track !! key = None) tracks)).
Proof.
  revert w. induction tracks as [|track rest IH]; intros w.
  - exists (Val tt), w. split_and!; try reflexivity. left. auto.
  - cbn [show_tracks]. unfold bind, item, print, ret, raise.
    destruct (track !! "name") as [name|] eqn:Hname.
    2:{ exists (Err (KeyError "name")), w. split_and!; try reflexivity.
        right. exists "name". split_and!; [reflexivity|set_solver|].
        apply Exists_cons_hd, Hname. }
    destruct (track !! "artist_name") as [artist|] eqn:Hartist.
    2:{ eexists (Err (KeyError "artist_name")), _.
        split_and!; try reflexivity.
        right. exists "artist_name". split_and!; [reflexivity|set_solver|].
        apply Exists_cons_hd, Hartist. }
    destruct (track !! "audio") as [audio|] eqn:Haudio.
    2:{ eexists (Err (KeyError "audio")), _. split_and!; try reflexivity.
        right. exists "audio". split_and!; [reflexivity|set_solver|].
        apply Exists_cons_hd, Haudio. }
    match goal with
    | |- context [show_tracks rest ?w0] =>
        destruct (IH w0) as (r & w' & Hrun & Hf & Hd & Hr & Hcases)
    end.
    exists r, w'. split_and!; [exact Hrun|exact Hf|exact Hd|exact Hr|].
    destruct Hcases as [[-> Hall]|(key & -> & Hkey & Hex)].
    + left. split; [reflexivity|]. constructor; [|exact Hall].
      unfold complete. rewrite Hname, Hartist, Haudio. eauto.
    + right. exists key. split_and!; [reflexivity|exact Hkey|].
      apply Exists_cons_tl, Hex.
Qed.

Lemma write_chunks_effect (file_path : string) pos stream broken w :
  exists r w',
    write_chunks file_path pos stream broken w = (r, w') /\
    stdout w' = stdout w /\ requested w' = requested w /\
    dirs w' = dirs w /\
    (forall path, path <> file_path -> files w' !! path = files w !! path) /\
    ((forall k, write file_path k = None) ->
     forall content,
       files w !! file_path = Some content ->
       files w' !! file_path = Some (content ++ stream) /\
       r = match broken with
           | Some msg => Err (RequestException msg)
           | None => Val tt
           end).
Proof.
  revert pos w. induction stream as [|chunk rest IH]; intros pos w.
  - cbn [write_chunks]. destruct broken as [msg|];
      eexists _, w; (split_and!; try reflexivity);
      intros _ content Hc; rewrite app_nil_r; auto.
  - cbn [write_chunks]. unfold bind.
    destruct (write file_path pos) as [e|] eqn:Hw.
    + exists (Err e), w. split_and!; try reflexivity.
      intros Hall. rewrite Hall in Hw. discriminate.
    + match goal with
      | |- context [write_chunks file_path (S pos) rest broken ?w0] =>
          destruct (IH (S pos) w0)
            as (r & w' & Hrun & Hs & Hr & Hd & Hframe & Hgood)
      end.
      exists r, w'. split_and!; [exact Hrun|exact Hs|exact Hr|exact Hd| |].
      * intros path Hne. rewrite (Hframe path Hne). simpl.
        apply lookup_insert_ne. congruence.
      * intros Hall content Hc.
        destruct (Hgood Hall (content ++ [chunk])) as [Hfile Hres].
        { simpl. rewrite Hc. simpl. apply lookup_insert_eq. }
        rewrite <- app_assoc in Hfile. auto.
Qed.

(** What one pass of the [try] block does. *)
Lemma fetch_effect (url file_path name : string) w :
  exists r w',
    fetch url file_path name w = (r, w') /\
    requested w' = requested w ++ [url] /\
    dirs w' = dirs w /\
    (forall path, path <> file_path -> files w' !! path = files w !! path) /\
    (files w' !! file_path <> files w !! file_path ->
     exists response,
       get_audio url = Val response /\ status_code response = 200%Z) /\
    (forall e, get_audio url = Err e -> r = Err e /\ stdout w' = stdout w).
Proof.
  unfold fetch.
  destruct (get_audio url) as [response|e] eqn:Hget.
  2:{ eexists _, _. split_and!; try reflexivity; try done.
      intros e' [= <-]. auto. }
  destruct (Z.eqb_spec (status_code response) 200) as [H200|Hnot].
  - unfold bind, effect, print.
    destruct (open_wb file_path) as [e|].
    { eexists _, _. split_and!; try reflexivity; try done. }
    match goal with
    | |- context [write_chunks file_path 0 ?st ?br ?w0] =>
        destruct (write_chunks_effect file_path 0 st br w0)
          as (r & w' & Hrun & Hs & Hr & Hd & Hframe & _)
    end.
    rewrite Hrun. destruct r as [[]|e].
    + eexists _, _. split_and!; try reflexivity; simpl; try done.
      * intros path Hne. rewrite (Hframe path Hne). simpl.
        apply lookup_insert_ne. congruence.
      * intros _. eauto.
    + eexists _, _. split_and!; try reflexivity; simpl; try done.
      * intros path Hne. rewrite (Hframe path Hne). simpl.
        apply lookup_insert_ne. congruence.
      * intros _. eauto.
  - unfold print. eexists _, _. split_and!; try reflexivity; try done.
Qed.

Lemma fetch_outcome (url file_path name : string) w :
  open_wb file_path = None ->
  (forall k, write file_path k = None) ->
  (fetch url file_path name w).1 = Val tt \/
  (exists msg, (fetch url file_path name w).1 = Err (RequestException msg)) \/
  (exists e, get_audio url = Err e /\ (fetch url file_path name w).1 = Err e).
Proof.
  intros Hopen Hwrite. unfold fetch.
  destruct (get_audio url) as [response|e]; [|right; right; eauto].
  destruct (status_code response =? 200)%Z; [|left; reflexivity].
  unfold bind, effect, print. rewrite Hopen.
  match goal with
  | |- context [write_chunks file_path 0 ?st ?br ?w0] =>
      destruct (write_chunks_effect file_path 0 st br w0)
        as (r & w' & Hrun & _ & _ & _ & _ & Hgood)
  end.
  rewrite Hrun.
  destruct (Hgood Hwrite []) as [_ ->];
    [simpl; apply lookup_insert_eq|].
  destruct (broken response); simpl; [right; left; eauto|left; reflexivity].
Qed.

(** What one pass of the download loop does: at most one request, at
    most one file touched, and never a [RequestException] let out. *)
Lemma download_one_effect track w :
  exists r w',
    download_one track w = (r, w') /\
    requested w' = requested w ++ option_list (audio_url track) /\
    dirs w' = dirs w /\
    (forall path,
        files w' !! path <> files w !! path ->
        exists url response,
          audio_url track = Some url /\
          path = join download_folder (file_name track) /\
          get_audio url = Val response /\ status_code response = 200%Z) /\
    (forall msg, r <> Err (RequestException msg)) /\
    ((forall path, open_wb path = None) ->
     (forall path k, write path k = None) ->
     (forall url e, get_audio url = Err e -> exists msg, e = RequestException msg) ->
     r = Val tt).
Proof.
  unfold download_one.
  destruct (audio_url track) as [url|] eqn:Hurl.
  2:{ unfold print. eexists _, _. split_and!; try reflexivity.
      - simpl. rewrite app_nil_r. reflexivity.
      - intros path Hne. contradiction.
      - discriminate. }
  unfold bind, print, try_fetch.
  pose proof (fetch_outcome url (join download_folder (file_name track))
                (file_name track)
                (with_line ("Descargando: " +:+ file_name track) w)) as Hout.
  destruct (fetch_effect url (join download_folder (file_name track))
              (file_name track)
              (with_line ("Descargando: " +:+ file_name track) w))
    as (r & w1 & Hrun & Hreq & Hd & Hframe & Hchg & Herr).
  rewrite Hrun in Hout |- *. simpl in Hout.
  assert (forall path,
             files w1 !! path <> files w !! path ->
             exists url0 response,
               Some url = Some url0 /\
               path = join download_folder (file_name track) /\
               get_audio url0 = Val response /\
               status_code response = 200%Z) as Hfiles.
  { intros path Hne.
    destruct (decide (path = join download_folder (file_name track)))
      as [->|Hother].
    - destruct (Hchg Hne) as (response & Hget & H200).
      exists url, response. auto.
    - exfalso. apply Hne. apply (Hframe path Hother). }
  destruct r as [[]|e].
  - eexists _, _. split_and!; try reflexivity; try done.
  - destruct e as [msg0|key|name|msg0];
      (eexists _, _;
       split_and!; [reflexivity|exact Hreq|exact Hd|exact Hfiles| |]);
      try discriminate; try reflexivity.
    all: intros Hopen Hwrite Hget.
    all: destruct (Hout (Hopen _) (Hwrite _))
           as [Hv|[[msg Hm]|(e & He & Hr)]]; try discriminate.
    all: destruct (Hget _ _ He) as [msg ->]; discriminate.
Qed.

(** The download loop as a whole. *)
Lemma download_all_effect tracks w :
  exists r w',
    download_all tracks w = (r, w') /\
    (exists done,
        done `prefix_of` tracks /\
        requested w' = requested w ++ omap audio_url done /\
        (r = Val tt -> done = tracks)) /\
    dirs w' = dirs w /\
    (forall path,
        files w' !! path <> files w !! path ->
        exists track url response,
          track ∈ tracks /\
          audio_url track = Some url /\
          path = join download_folder (file_name track) /\
          get_audio url = Val response /\ status_code response = 200%Z) /\
    (forall msg, r <> Err (RequestException msg)) /\
    ((forall path, open_wb path = None) ->
     (forall path k, write path k = None) ->
     (forall url e, get_audio url = Err e -> exists msg, e = RequestException msg) ->
     r = Val tt).
Proof.
  revert w. induction tracks as [|track rest IH]; intros w.
  - exists (Val tt), w. split_and!; try reflexivity; try done.
    exists []. split_and!; [reflexivity| |reflexivity].
    simpl. rewrite app_nil_r. reflexivity.
  - cbn [download_all]. unfold bind.
    destruct (download_one_effect track w)
      as (r1 & w1 & Hrun1 & Hreq1 & Hd1 & Hfiles1 & Hnot1 & Hgood1).
    rewrite Hrun1. destruct r1 as [[]|e].
    + destruct (IH w1)
        as (r & w' & Hrun & (done & Hpre & Hreq & Hall) & Hd & Hfiles
            & Hnot & Hgood).
      exists r, w'. split_and!; [exact Hrun| |congruence| |exact Hnot|exact Hgood].
      * exists (track :: done). split_and!.
        -- apply prefix_cons, Hpre.
        -- rewrite Hreq, Hreq1, <- app_assoc. f_equal.
           cbn [omap list_omap]. destruct (audio_url track); reflexivity.
        -- intros Hok. rewrite (Hall Hok). reflexivity.
      * intros path Hne.
        destruct (decide (files w1 !! path = files w !! path)) as [Heq|Hne1].
        -- destruct (Hfiles path) as (t & url & response & Hin & Hrest);
             [congruence|].
           exists t, url, response. split; [apply list_elem_of_further, Hin|].
           exact Hrest.
        -- destruct (Hfiles1 path Hne1) as (url & response & Hrest).
           exists track, url, response. split; [apply list_elem_of_here|].
           exact Hrest.
    + exists (Err e), w1.
      split_and!; [reflexivity| |exact Hd1| |exact Hnot1|exact Hgood1].
      * exists [track]. split_and!; [|  |discriminate].
        -- apply prefix_cons, prefix_nil.
        -- rewrite Hreq1. cbn [omap list_omap].
           destruct (audio_url track); reflexivity.
      * intros path Hne.
        destruct (Hfiles1 path Hne) as (url & response & Hrest).
        exists track, url, response. split; [apply list_elem_of_here|].
        exact Hrest.
Qed.

(** The listing phase after an answer with status 200. *)
Lemma listing_ok w response data :
  get_listing = Val response ->
  listing_status response = 200%Z ->
  json response = Val data ->
  exists w0,
    files w0 = files w /\ dirs w0 = dirs w /\
    requested w0 = requested w /\
    listing w
    = match show_tracks (default [] (results data)) w0 with
      | (Val _, w') => (Val (Some (default [] (results data))), w')
      | (Err e, w') => (Err e, w')
      end.
Proof.
  intros Hget Hcode Hjson. unfold listing. rewrite Hget, Hcode.
  cbn [Z.eqb Pos.eqb]. unfold bind, ret, print. rewrite Hjson.
  destruct (warnings data) as [text|];
    [exists (with_line ("Advertencia de la API: " +:+ text) w)|exists w];
    (split_and!; try reflexivity);
    try (destruct (show_tracks _ _) as [[[]|e] w']; reflexivity).
Qed.

(** The script once [tracks] is bound. *)
Lemma script_after_listing w tracks w1 :
  listing w = (Val (Some tracks), w1) ->
  path_exists download_folder = true \/ makedirs download_folder = None ->
  exists w2,
    files w2 = files w1 /\ requested w2 = requested w1 /\
    script w
    = match download_all tracks w2 with
      | (Val _, w') => (Val tt, with_line "Descarga completada." w')
      | (Err e, w') => (Err e, w')
      end.
Proof.
  intros Hlist Hfolder. unfold script, bind, ret, print, effect.
  rewrite Hlist.
  destruct (path_exists download_folder).
  - exists (with_line ("Descargando " +:+ Fmt.d (length tracks)
                       +:+ " pistas...") w1).
    (split_and!; try reflexivity);
      try (destruct (download_all _ _) as [[[]|e] w']; reflexivity).
  - destruct Hfolder as [Hno|Hmk]; [discriminate|]. rewrite Hmk.
    exists (with_line ("Descargando " +:+ Fmt.d (length tracks)
                       +:+ " pistas...") (with_dir download_folder w1)).
    (split_and!; try reflexivity);
      try (destruct (download_all _ _) as [[[]|e] w']; reflexivity).
Qed.

(** X21.  When the listing request is answered with a status other
    than 200, the script prints the status, makes the download folder
    if it is missing (and only then), and then stops with [NameError]:
    [tracks] was never bound.  Nothing is requested for download, no
    file is written, and the closing line is not printed. *)
Theorem X21_failed_listing_ends_in_name_error w response :
  get_listing = Val response ->
  listing_status response <> 200%Z ->
  path_exists download_folder = true \/ makedirs download_folder = None ->
  exists w',
    script w = (Err (NameError "tracks"), w') /\
    stdout w'
    = stdout w ++ ["Error al hacer la solicitud: "
                   +:+ Fmt.z (listing_status response)] /\
    dirs w'
    = (if path_exists download_folder then dirs w
       else dirs w ++ [download_folder]) /\
    requested w' = requested w /\ files w' = files w.
Proof.
  intros Hget Hcode Hfolder. unfold script, listing, bind, print, ret, raise.
  rewrite Hget.
  destruct (Z.eqb_spec (listing_status response) 200); [contradiction|].
  destruct (path_exists download_folder).
  - eexists. split_and!; reflexivity.
  - destruct Hfolder as [Hno|Hmk]; [discriminate|].
    unfold effect. rewrite Hmk. eexists. split_and!; reflexivity.
Qed.

(** X22.  After a listing answered with 200, either every track has
    the keys [name], [artist_name] and [audio], or the script stops
    with the [KeyError] of a missing one while it prints the listing:
    before the download folder is made and before anything is
    requested.  The defaults of the download loop are therefore never
    used for a missing key. *)
Theorem X22_incomplete_track_stops_the_listing w response data :
  get_listing = Val response ->
  listing_status response = 200%Z ->
  json response = Val data ->
  let tracks := default [] (results data) in
  (Forall complete tracks /\
   exists w', listing w = (Val (Some tracks), w')) \/
  (exists key w',
      script w = (Err (KeyError key), w') /\
      key ∈ ["name"; "artist_name"; "audio"] /\
      Exists (fun track => track !! key = None) tracks /\
      dirs w' = dirs w /\ requested w' = requested w /\
      files w' = files w).
Proof.
  intros Hget Hcode Hjson tracks.
  destruct (listing_ok w response data Hget Hcode Hjson)
    as (w0 & Hf0 & Hd0 & Hr0 & Hlist).
  fold tracks in Hlist.
  destruct (show_tracks_cases tracks w0)
    as (r & w' & Hrun & Hf & Hd & Hr & [[-> Hall]|(key & -> & Hkey & Hex)]);
    rewrite Hrun in Hlist.
  - left. split; [exact Hall|]. eauto.
  - right. exists key, w'. unfold script, bind. rewrite Hlist.
    split_and!; [reflexivity|exact Hkey|exact Hex|congruence..].
Qed.

(** X23.  A connection error never stops the download loop: no
    [RequestException] escapes it.  When the disk takes every write
    and [requests] raises nothing but [RequestException]s, the loop
    returns after one download request for each track that has an
    audio URL, in the order of the listing, and none for the others. *)
Theorem X23_connection_errors_never_stop_downloads tracks w :
  (forall msg, (download_all tracks w).1 <> Err (RequestException msg)) /\
  ((forall path, open_wb path = None) ->
   (forall path k, write path k = None) ->
   (forall url e,
       get_audio url = Err e -> exists msg, e = RequestException msg) ->
   exists w',
     download_all tracks w = (Val tt, w') /\
     requested w' = requested w ++ omap audio_url tracks).
Proof.
  destruct (download_all_effect tracks w)
    as (r & w' & Hrun & (done & _ & Hreq & Hall) & _ & _ & Hnot & Hgood).
  rewrite Hrun. split; [exact Hnot|].
  intros Hopen Hwrite Hget.
  pose proof (Hgood Hopen Hwrite Hget) as ->.
  exists w'. split; [reflexivity|]. rewrite <- (Hall eq_refl). exact Hreq.
Qed.

(** X24.  The download loop writes a file only for a track whose
    download request was answered with status 200, and only at that
    track's own path under the download folder.  A track without URL, a
    refused connection or any other status leaves every file as it
    was. *)
Theorem X24_files_only_for_answered_downloads tracks w r w' :
  download_all tracks w = (r, w') ->
  forall path,
    files w' !! path <> files w !! path ->
    exists track url response,
      track ∈ tracks /\
      audio_url track = Some url /\
      path = join download_folder (file_name track) /\
      get_audio url = Val response /\ status_code response = 200%Z.
Proof.
  intros Hrun.
  destruct (download_all_effect tracks w)
    as (r0 & w0 & Hrun0 & _ & _ & Hfiles & _).
  rewrite Hrun in Hrun0. injection Hrun0 as <- <-. exact Hfiles.
Qed.

(** X25.  A download answered with 200 on a disk that takes every
    write leaves in the track's file exactly the chunks the stream
    delivered.  If the stream ended normally the script reports the
    file as saved; if it broke with a [RequestException] the script
    reports a connection error, goes on, and the chunks received so far
    stay in the file. *)
Theorem X25_downloaded_file_holds_the_stream track url response w :
  let file_path := join download_folder (file_name track) in
  audio_url track = Some url ->
  get_audio url = Val response ->
  status_code response = 200%Z ->
  open_wb file_path = None ->
  (forall k, write file_path k = None) ->
  exists w',
    download_one track w = (Val tt, w') /\
    files w' !! file_path = Some (chunks response) /\
    last (stdout w')
    = Some match broken response with
           | None => "Guardado: " +:+ file_path
           | Some msg =>
               "Error de conexión al descargar " +:+ file_name track
               +:+ ": " +:+ msg
           end.
Proof.
  intros file_path Hurl Hget H200 Hopen Hwrite.
  unfold download_one. rewrite Hurl. fold file_path.
  unfold bind, print, try_fetch, fetch. rewrite Hget, H200.
  cbn [Z.eqb Pos.eqb]. unfold bind, effect, print. rewrite Hopen.
  match goal with
  | |- context [write_chunks file_path 0 ?st ?br ?w0] =>
      destruct (write_chunks_effect file_path 0 st br w0)
        as (r & w' & Hrun & Hs & _ & _ & _ & Hgood)
  end.
  rewrite Hrun.
  destruct (Hgood Hwrite []) as [Hfile ->]; [simpl; apply lookup_insert_eq|].
  simpl in Hfile.
  destruct (broken response) as [msg|]; eexists;
    (split_and!; [reflexivity|exact Hfile|simpl; apply last_snoc]).
Qed.

(** X26.  When the listing is answered with 200 and every track is
    complete, the folder exists or can be made, the disk takes every
    write and [requests] raises nothing but [RequestException]s, the
    script runs to its end: it requests the audio of every track that
    has a non-empty URL, in listing order, and its last line is the
    closing line. *)
Theorem X26_script_runs_to_the_end w response data :
  get_listing = Val response ->
  listing_status response = 200%Z ->
  json response = Val data ->
  Forall complete (default [] (results data)) ->
  path_exists download_folder = true \/ makedirs download_folder = None ->
  (forall path, open_wb path = None) ->
  (forall path k, write path k = None) ->
  (forall url e,
      get_audio url = Err e -> exists msg, e = RequestException msg) ->
  exists w',
    script w = (Val tt, w') /\
    requested w'
    = requested w ++ omap audio_url (default [] (results data)) /\
    last (stdout w') = Some "Descarga completada.".
Proof.
  intros Hget Hcode Hjson Hall Hfolder Hopen Hwrite Hreq.
  destruct (listing_ok w response data Hget Hcode Hjson)
    as (w0 & _ & _ & Hr0 & Hlist).
  destruct (show_tracks_cases (default [] (results data)) w0)
    as (r & w1 & Hrun & _ & _ & Hr1 & [[-> _]|(key & -> & Hkey & Hex)]);
    rewrite Hrun in Hlist.
  2:{ exfalso. apply Exists_exists in Hex as (track & Hin & Hnone).
      rewrite Forall_forall in Hall.
      destruct (Hall track Hin) as ([? Hn] & [? Ha] & [? Hu]).
      repeat (apply elem_of_cons in Hkey as [->|Hkey]);
        [congruence..|inversion Hkey]. }
  destruct (script_after_listing w _ w1 Hlist Hfolder)
    as (w2 & _ & Hr2 & Hscript).
  destruct (download_all_effect (default [] (results data)) w2)
    as (r & w' & Hdl & (done & _ & Hreq' & Hdone) & _ & _ & _ & Hgood).
  pose proof (Hgood Hopen Hwrite Hreq) as ->.
  rewrite Hdl in Hscript. eexists. split_and!; [exact Hscript| |].
  - simpl. rewrite Hreq', (Hdone eq_refl). congruence.
  - simpl. apply last_snoc.
Qed.

End ScrapperFacts.

Lemma toy_audio_errors (url : string) (e : Scrapper.Error) :
  Scrapper.toy_audio url = Scrapper.Err e ->
  exists msg, e = Scrapper.RequestException msg.
Proof.
  unfold Scrapper.toy_audio. repeat case_match; intros Heq; simplify_eq.
  eauto.
Qed.

(** The listing is answered with 404. *)
Lemma X21_failed_listing_witness :
  let W := Scrapper.toy 404 [] in
  let response :=
    {| Scrapper.listing_status := 404;
       Scrapper.json :=
         Scrapper.Val {| Scrapper.warnings := None;
                         Scrapper.results := Some [] |} |} in
  Scrapper.get_listing = Scrapper.Val response /\
  Scrapper.listing_status response <> 200%Z /\
  (Scrapper.path_exists Scrapper.download_folder = true \/
   Scrapper.makedirs Scrapper.download_folder = None) /\
  exists w',
    Scrapper.script Scrapper.start
    = (Scrapper.Err (Scrapper.NameError "tracks"), w') /\
    Scrapper.stdout w' = ["Error al hacer la solicitud: 404"] /\
    Scrapper.dirs w' = ["jamendo_tracks"] /\
    Scrapper.requested w' = [] /\ Scrapper.files w' = ∅.
Proof.
  intros W response.
  split_and!; [reflexivity|discriminate|right; reflexivity|].
  exact (@X21_failed_listing_ends_in_name_error W Scrapper.start response
           eq_refl ltac:(discriminate) (or_intror eq_refl)).
Defined.

(** The second track has no [artist_name]. *)
Lemma X22_incomplete_track_witness :
  let tracks :=
    [Scrapper.toy_track "Dawn" "Ana" "http://x/ok";
     <["name" := "Dusk"]> (<["audio" := "http://x/ok"]> ∅)] in
  let W := Scrapper.toy 200 tracks in
  let data :=
    {| Scrapper.warnings := None; Scrapper.results := Some tracks |} in
  let response :=
    {| Scrapper.listing_status := 200; Scrapper.json := Scrapper.Val data |} in
  Scrapper.get_listing = Scrapper.Val response /\
  Scrapper.listing_status response = 200%Z /\
  Scrapper.json response = Scrapper.Val data /\
  exists key w',
    Scrapper.script Scrapper.start
    = (Scrapper.Err (Scrapper.KeyError key), w') /\
    Scrapper.requested w' = [] /\ Scrapper.dirs w' = [].
Proof.
  intros tracks W data response.
  split_and!; [reflexivity|reflexivity|reflexivity|].
  destruct (@X22_incomplete_track_stops_the_listing W Scrapper.start response
              data eq_refl eq_refl eq_refl)
    as [[Hall _]|(key & w' & Hrun & _ & _ & Hd & Hr & _)].
  - exfalso. apply Forall_cons in Hall as [_ Hall].
    apply Forall_cons in Hall as [(_ & [artist Hartist] & _) _].
    vm_compute in Hartist. discriminate.
  - exists key, w'. split_and!; [exact Hrun|exact Hr|exact Hd].
Defined.

(** Three tracks: one downloads, one is refused the connection, one
    has an empty URL. *)
Lemma X23_connection_errors_witness :
  let tracks :=
    [Scrapper.toy_track "Dawn" "Ana" "http://x/ok";
     Scrapper.toy_track "Dusk" "Ben" "http://x/down";
     Scrapper.toy_track "Noon" "Cy" ""] in
  let W := Scrapper.toy 200 tracks in
  exists w',
    Scrapper.download_all tracks Scrapper.start = (Scrapper.Val tt, w') /\
    Scrapper.requested w' = ["http://x/ok"; "http://x/down"].
Proof.
  intros tracks W.
  destruct (@X23_connection_errors_never_stop_downloads W tracks
              Scrapper.start) as [_ Hgood].
  destruct (Hgood (fun _ => eq_refl) (fun _ _ => eq_refl) toy_audio_errors)
    as (w' & Hrun & Hreq).
  exists w'. split; [exact Hrun|]. rewrite Hreq. reflexivity.
Defined.

Lemma X24_files_only_for_answered_witness :
  let tracks :=
    [Scrapper.toy_track "Dawn" "Ana" "http://x/ok";
     Scrapper.toy_track "Dusk" "Ben" "http://x/gone"] in
  let W := Scrapper.toy 200 tracks in
  let run := Scrapper.download_all tracks Scrapper.start in
  run = (run.1, run.2) /\
  forall path,
    Scrapper.files run.2 !! path <> Scrapper.files Scrapper.start !! path ->
    exists track url response,
      track ∈ tracks /\
      Scrapper.audio_url track = Some url /\
      path = Scrapper.join Scrapper.download_folder
               (Scrapper.file_name track) /\
      Scrapper.get_audio url = Scrapper.Val response /\
      Scrapper.status_code response = 200%Z.
Proof.
  intros tracks W run.
  assert (run = (run.1, run.2)) as Hrun by (destruct run; reflexivity).
  split; [exact Hrun|].
  exact (@X24_files_only_for_answered_downloads W tracks Scrapper.start
           run.1 run.2 Hrun).
Defined.

(** The stream of the only track breaks after its first chunk. *)
Lemma X25_downloaded_file_witness :
  let track := Scrapper.toy_track "Dawn/Dusk" "Ana" "http://x/cut" in
  let W := Scrapper.toy 200 [track] in
  let response :=
    {| Scrapper.status_code := 200; Scrapper.chunks := ["ID3"];
       Scrapper.broken := Some "stream ended early" |} in
  let file_path := "jamendo_tracks/Dawn_Dusk - Ana.mp3" in
  Scrapper.audio_url track = Some "http://x/cut" /\
  Scrapper.get_audio "http://x/cut" = Scrapper.Val response /\
  Scrapper.status_code response = 200%Z /\
  Scrapper.open_wb file_path = None /\
  (forall k, Scrapper.write file_path k = None) /\
  exists w',
    Scrapper.download_one track Scrapper.start = (Scrapper.Val tt, w') /\
    Scrapper.files w' !! file_path = Some ["ID3"] /\
    last (Scrapper.stdout w')
    = Some ("Error de conexión al descargar Dawn_Dusk - Ana.mp3: "
            +:+ "stream ended early").
Proof.
  intros track W response file_path.
  split_and!; [reflexivity|reflexivity|reflexivity|reflexivity|
               intros k; reflexivity|].
  exact (@X25_downloaded_file_holds_the_stream W track "http://x/cut"
           response Scrapper.start eq_refl eq_refl eq_refl eq_refl
           (fun _ => eq_refl)).
Defined.

Lemma X26_script_runs_witness :
  let tracks :=
    [Scrapper.toy_track "Dawn" "Ana" "http://x/ok";
     Scrapper.toy_track "Dusk" "Ben" "http://x/down"] in
  let W := Scrapper.toy 200 tracks in
  let data :=
    {| Scrapper.warnings := None; Scrapper.results := Some tracks |} in
  let response :=
    {| Scrapper.listing_status := 200; Scrapper.json := Scrapper.Val data |} in
  Scrapper.get_listing = Scrapper.Val response /\
  Scrapper.listing_status response = 200%Z /\
  Scrapper.json response = Scrapper.Val data /\
  Forall Scrapper.complete tracks /\
  (Scrapper.path_exists Scrapper.download_folder = true \/
   Scrapper.makedirs Scrapper.download_folder = None) /\
  exists w',
    Scrapper.script Scrapper.start = (Scrapper.Val tt, w') /\
    Scrapper.requested w' = ["http://x/ok"; "http://x/down"] /\
    last (Scrapper.stdout w') = Some "Descarga completada.".
Proof.
  intros tracks W data response.
  assert (Forall Scrapper.complete tracks) as Hall.
  { repeat constructor; vm_compute; eauto. }
  split_and!; [reflexivity|reflexivity|reflexivity|exact Hall|
               right; reflexivity|].
  destruct (@X26_script_runs_to_the_end W Scrapper.start response data
              eq_refl eq_refl eq_refl Hall (or_intror eq_refl)
              (fun _ => eq_refl) (fun _ _ => eq_refl) toy_audio_errors)
    as (w' & Hrun & Hreq & Hlast).
  exists w'. split_and!; [exact Hrun| |exact Hlast].
  rewrite Hreq. reflexivity.
Defined.
